(** * Sahr plugins: scheduler and finance synchronisation

    A shallow embedding of the two plugins that carry logic,
    [extensions/sahr-scheduler/index.ts] and the finance-sync plugin, with the
    properties of their tools.

    Representation choices, fixed once for the whole development:

    - A JavaScript [Date] is its time value, an integer count of
      milliseconds since the epoch ([Z]).  Local time is UTC plus the offset
      of the machine's time zone ([Zone]), which may change with daylight
      saving; a zone without clock changes is [fixed tz], local time being
      UTC plus [tz] milliseconds, and a number [tz] where a zone is expected
      stands for that zone.
    - A well-formed calendar-date string [YYYY-MM-DD] is represented by the
      number of days since 1970-01-01 that it denotes ([isodate]); equality
      and lexicographic order of such strings are equality and order of day
      numbers.  [days_from_civil] and [civil_from_days] convert from and to
      the year-month-day reading, [read_isodate] and [show_isodate] from and
      to the string.
    - A well-formed time string [HH:MM] is represented by the pair of
      numbers that [split(":").map(Number)] yields ([HHMM]).
    - Numbers that the code stores as JS numbers are integers here; the two
      places where the code divides ([serviceDuration / 60]) are carried out
      in [Q].  The engine adds money amounts as doubles: of the sums of
      amounts the properties state what does not depend on rounding, that
      is counts, values that a call leaves unchanged, and comparisons that
      hold for every monotone rounding.
    - The tables of the plugins are object literals.  Under a key that
      every object inherits ([JSObject.inherited]: [constructor],
      [toString], ...) a lookup yields a function and no entry of the
      table; the scheduler's duration is then no number, and the properties
      of the finance tools are stated for keys that are not inherited.
    - The store gives every added document an id of its own choice
      ([newDocId]); no property depends on which.
    - Calls to the document store succeed; a rejected promise is not
      modelled. *)

From stdpp Require Import base gmap strings list sorting.
From Stdlib Require Import ZArith QArith Qround Lia Sorted Ascii.

Open Scope Z_scope.

(* ------------------------------------------------------------------------- *)
(** ** JavaScript runtime notions used by the plugins *)
(* ------------------------------------------------------------------------- *)

Module JS.

(** [a || b] on numbers: [undefined], [0] (and [NaN]) are falsy. *)
Definition or_num (a : option Z) (b : Z) : Z :=
  match a with
  | Some v => if v =? 0 then b else v
  | None => b
  end.

(** [a || b] on strings: [undefined] and the empty string are falsy. *)
Definition or_str (a : option string) (b : string) : string :=
  match a with
  | Some EmptyString => b
  | Some s => s
  | None => b
  end.

(** Truthiness of an optional string. *)
Definition truthy_str (a : option string) : bool :=
  match a with
  | Some EmptyString => false
  | Some _ => true
  | None => false
  end.

(** Truthiness of an optional boolean. *)
Definition truthy_bool (a : option bool) : bool :=
  match a with
  | Some b => b
  | None => false
  end.

Definition MS_PER_MINUTE : Z := 60 * 1000.
Definition MS_PER_HOUR : Z := 60 * MS_PER_MINUTE.
Definition MS_PER_DAY : Z := 1000 * 60 * 60 * 24.

(** Calendar dates as day numbers. *)
Abbreviation isodate := Z (only parsing).

(** Times of day as [split(":").map(Number)] reads them. *)
Record HHMM := mkHHMM { hours : Z; minutes : Z }.

(** Day number of a proleptic Gregorian date. *)
Definition days_from_civil (y m d : Z) : isodate :=
  let y' := if m <=? 2 then y - 1 else y in
  let era := y' / 400 in
  let yoe := y' - era * 400 in
  let mp := (m + 9) mod 12 in
  let doy := (153 * mp + 2) / 5 + d - 1 in
  let doe := yoe * 365 + yoe / 4 - yoe / 100 + doy in
  era * 146097 + doe - 719468.

(** Year, month and day of a day number. *)
Definition civil_from_days (z : isodate) : Z * Z * Z :=
  let z' := z + 719468 in
  let era := z' / 146097 in
  let doe := z' - era * 146097 in
  let yoe := (doe - doe / 1460 + doe / 36524 - doe / 146096) / 365 in
  let doy := doe - (365 * yoe + yoe / 4 - yoe / 100) in
  let mp := (5 * doy + 2) / 153 in
  let d := doy - (153 * mp + 2) / 5 + 1 in
  let m := if mp <? 10 then mp + 3 else mp - 9 in
  let y := yoe + era * 400 in
  (if m <=? 2 then y + 1 else y, m, d).

(** Printing and reading the string [YYYY-MM-DD] (years 0 to 9999). *)
Definition digit_char (n : Z) : ascii :=
  ascii_of_nat (48 + Z.to_nat (n mod 10)).

Definition show_digits2 (n : Z) : string :=
  String (digit_char (n / 10)) (String (digit_char n) EmptyString).

Definition show_digits4 (n : Z) : string :=
  String (digit_char (n / 1000)) (String (digit_char (n / 100)) (show_digits2 n)).

Definition show_isodate (d : isodate) : string :=
  let '(y, m, dd) := civil_from_days d in
  (show_digits4 y ++ "-" ++ show_digits2 m ++ "-" ++ show_digits2 dd)%string.

Definition digit_val (c : ascii) : option Z :=
  let n := Z.of_nat (nat_of_ascii c) in
  if (48 <=? n) && (n <=? 57) then Some (n - 48) else None.

Definition read_isodate (s : string) : option isodate :=
  match s with
  | String y1 (String y2 (String y3 (String y4 (String "-"
      (String m1 (String m2 (String "-"
        (String d1 (String d2 EmptyString))))))))) =>
      a ← digit_val y1; b ← digit_val y2; c ← digit_val y3; d ← digit_val y4;
      e ← digit_val m1; f ← digit_val m2;
      g ← digit_val d1; h ← digit_val d2;
      let y := a * 1000 + b * 100 + c * 10 + d in
      let m := e * 10 + f in
      let dd := g * 10 + h in
      let n := days_from_civil y m dd in
      if bool_decide (civil_from_days n = (y, m, dd)) then Some n else None
  | _ => None
  end.

(** [new Date("YYYY-MM-DD")]: date-only strings denote UTC midnight. *)
Definition Date_of_isodate (d : isodate) : Z := d * MS_PER_DAY.

(** [d.toISOString().split("T")[0]]: the UTC calendar date of an instant. *)
Definition toISODate (t : Z) : isodate := t / MS_PER_DAY.

(** The time zone of the machine, as ECMAScript reads it through
    [LocalTZA]: [offset_at t] is the offset of local time from UTC at the
    instant [t] ([LocalTZA(t, true)]), [offset_for w] the offset with which
    the local time value [w] is turned into an instant
    ([LocalTZA(w, false)]; a local time that a clock change skips or repeats
    is read with the offset before the change).  Both are milliseconds. *)
Record Zone := mkZone {
  offset_at : Z -> Z;
  offset_for : Z -> Z
}.

(** A zone without clock changes. *)
Definition fixed (tz : Z) : Zone :=
  {| offset_at := fun _ => tz; offset_for := fun _ => tz |}.

Coercion fixed : Z >-> Zone.

(** [LocalTime(t)] and [UTC(w)] of ECMAScript. *)
Definition LocalTime (zone : Zone) (t : Z) : Z := t + offset_at zone t.

Definition UTC (zone : Zone) (w : Z) : Z := w - offset_for zone w.

(** [d.setDate(d.getDate() + n)]: the local date moves by [n] days and the
    local time of day stays; the result is read back as an instant. *)
Definition addDays (zone : Zone) (t n : Z) : Z :=
  UTC zone (LocalTime zone t + n * MS_PER_DAY).

(** [d.setHours(h, m, 0, 0)]: the instant at [h:m] local time on the local
    calendar day that [t] falls on. *)
Definition setHours (zone : Zone) (t h m : Z) : Z :=
  UTC zone ((LocalTime zone t / MS_PER_DAY) * MS_PER_DAY
            + (h * 60 + m) * MS_PER_MINUTE).

(** [d.getDay()] in local time: 0 is Sunday; 1970-01-01 was a Thursday. *)
Definition getDay (zone : Zone) (t : Z) : Z :=
  (LocalTime zone t / MS_PER_DAY + 4) mod 7.

(** A zone in which, from the instant [since] on, a step of whole calendar
    days changes the offset by an hour at most, as with daylight saving: a
    local calendar day then lasts 23 to 25 hours. *)
Definition regular (zone : Zone) (since : Z) : Prop :=
  forall t n,
    since <= t -> 0 <= n ->
    Z.abs (offset_at zone t - offset_for zone (LocalTime zone t + n * MS_PER_DAY))
    <= MS_PER_HOUR.

(** [Array.prototype.sort(cmp)] is stable (ECMAScript 2019): elements that
    compare equal keep their order.  [before a b] is [cmp(a, b) <= 0]
    (the element [a], met earlier, stays in front of [b]).  The result of
    a stable sort is unique, so insertion from the right stands for it. *)
Section Sort.
Context {A : Type} (before : A -> A -> bool).

Fixpoint sort_insert (x : A) (l : list A) : list A :=
  match l with
  | [] => [x]
  | y :: ys => if before x y then x :: y :: ys else y :: sort_insert x ys
  end.

Fixpoint sort (l : list A) : list A :=
  match l with
  | [] => []
  | x :: xs => sort_insert x (sort xs)
  end.
End Sort.

End JS.

Module JSObject.

(** The property names that every object inherits from [Object.prototype].
    A lookup [o[key]] with one of them finds a function (for [__proto__] the
    prototype itself), which is truthy, also in an object that has no entry
    of its own under that name. *)
Definition Object_prototype_keys : list string :=
  [ "constructor"; "__defineGetter__"; "__defineSetter__"; "hasOwnProperty";
    "__lookupGetter__"; "__lookupSetter__"; "isPrototypeOf";
    "propertyIsEnumerable"; "toString"; "valueOf"; "__proto__";
    "toLocaleString" ]%string.

Definition inherited (key : string) : bool :=
  existsb (String.eqb key) Object_prototype_keys.

End JSObject.

(* ------------------------------------------------------------------------- *)
(** ** The scheduler plugin *)
(* ------------------------------------------------------------------------- *)

Module Scheduler.
Import JS JSObject.

(** *** Constants *)

(** Service durations in minutes. *)
Definition SERVICE_DURATIONS : gmap string Z :=
  list_to_map
    [ ("full_detail", 180); ("interior", 90); ("exterior", 60);
      ("coating", 300); ("wash", 45) ]%string.

(** Buffer time between appointments (travel + setup). *)
Definition BUFFER_MINUTES : Z := 30.

(** *** Types *)

Record Config := mkConfig {
  defaultServiceDuration : Z;
  workingHours_start : Z;
  workingHours_end : Z;
  rebookingWindowDays : Z
}.

(** The service types that the availability tool accepts. *)
Inductive ServiceType := full_detail | interior | exterior | coating | wash.

Definition service_key (s : ServiceType) : string :=
  match s with
  | full_detail => "full_detail"
  | interior => "interior"
  | exterior => "exterior"
  | coating => "coating"
  | wash => "wash"
  end.

Inductive Status :=
  scheduled | confirmed | in_progress | completed | cancelled | no_show.

Definition Status_eqb (a b : Status) : bool :=
  match a, b with
  | scheduled, scheduled | confirmed, confirmed | in_progress, in_progress
  | completed, completed | cancelled, cancelled | no_show, no_show => true
  | _, _ => false
  end.

(** A document of the [sahr_bookings] collection, with the fields that the
    scheduler's queries touch and the service type that the record store
    keeps with every booking. *)
Record BookingDoc := mkBookingDoc {
  doc_id : string;
  doc_customerName : string;
  doc_appointmentDate : isodate;
  doc_appointmentTime : HHMM;
  doc_location : option string;
  doc_status : Status;
  doc_serviceType : string
}.

Record BookingConflict := mkBookingConflict {
  bookingId : string;
  customerName : string;
  date : isodate;
  time : HHMM;
  location : string
}.

(** [reason] keeps the conflicting booking itself; the tool prints it as
    [Booked: <customerName> at <time>]. *)
Record TimeSlot := mkTimeSlot {
  slot_date : isodate;
  slot_time : HHMM;
  available : bool;
  reason : option BookingConflict
}.

(** *** Helpers *)

Definition parseDateTime (zone : Zone) (dateStr : isodate) (timeStr : HHMM) : Z :=
  let date := Date_of_isodate dateStr in
  setHours zone date (hours timeStr) (minutes timeStr).

Definition addMinutes (date minutes : Z) : Z := date + minutes * 60 * 1000.

(** [SERVICE_DURATIONS[serviceType || "full_detail"] || config.defaultServiceDuration]
    for a service type that is one of the table's keys or none. *)
Definition serviceDuration_of (config : Config) (serviceType : option string) : Z :=
  or_num (SERVICE_DURATIONS !! or_str serviceType "full_detail")
         (defaultServiceDuration config).

(** The same lookup for a service type that is any string.  Under a name
    that every object inherits the table yields a function, which is
    truthy and so is kept; wherever it is used as a number it is [NaN],
    here [None]. *)
Definition serviceDuration_any (config : Config) (serviceType : option string)
    : option Z :=
  if inherited (or_str serviceType "full_detail") then None
  else Some (serviceDuration_of config serviceType).

(** *** Queries on [sahr_bookings] *)

Definition status_in (s : Status) (l : list Status) : bool :=
  existsb (Status_eqb s) l.

(** [where("appointmentDate", ">=", lo), where("appointmentDate", "<=", hi),
    where("status", "in", statuses)] *)
Definition where_range_status (lo hi : isodate) (statuses : list Status)
    (coll : list BookingDoc) : list BookingDoc :=
  List.filter
    (fun d => (lo <=? doc_appointmentDate d) && (doc_appointmentDate d <=? hi)
              && status_in (doc_status d) statuses)
    coll.

(** [orderBy("appointmentDate"), orderBy("appointmentTime")] *)
Definition date_time_before (a b : BookingDoc) : bool :=
  (doc_appointmentDate a <? doc_appointmentDate b)
  || ((doc_appointmentDate a =? doc_appointmentDate b)
      && ((hours (doc_appointmentTime a) <? hours (doc_appointmentTime b))
          || ((hours (doc_appointmentTime a) =? hours (doc_appointmentTime b))
              && (minutes (doc_appointmentTime a) <=? minutes (doc_appointmentTime b))))).

Definition to_conflict (d : BookingDoc) : BookingConflict :=
  {| bookingId := doc_id d;
     customerName := doc_customerName d;
     date := doc_appointmentDate d;
     time := doc_appointmentTime d;
     location := or_str (doc_location d) "TBD" |}.

(** *** Tool: check availability *)

Record AvailabilityParams := mkAvailabilityParams {
  p_date : isodate;
  p_endDate : option isodate;
  p_serviceType : option ServiceType
}.

(** [slotStart < bookingEnd && slotEnd > bookingStart] *)
Definition overlap (slotStart slotEnd bookingStart bookingEnd : Z) : bool :=
  (slotStart <? bookingEnd) && (slotEnd >? bookingStart).

(** The body of the inner loop: does [booking] conflict with the slot? *)
Definition conflicts_with (zone : Zone) (serviceDuration slotStart slotEnd : Z)
    (booking : BookingConflict) : bool :=
  let bookingStart := parseDateTime zone (date booking) (time booking) in
  let bookingEnd := addMinutes bookingStart (serviceDuration + BUFFER_MINUTES) in
  overlap slotStart slotEnd bookingStart bookingEnd.

(** The inner loop over [dayBookings]: the first booking that conflicts. *)
Definition find_conflict (zone : Zone) (serviceDuration slotStart slotEnd : Z)
    (dayBookings : list BookingConflict) : option BookingConflict :=
  List.find (conflicts_with zone serviceDuration slotStart slotEnd) dayBookings.

Definition make_slot (zone : Zone) (serviceDuration : Z) (dateStr : isodate)
    (dayBookings : list BookingConflict) (hour : Z) : TimeSlot :=
  let timeStr := mkHHMM hour 0 in
  let slotStart := parseDateTime zone dateStr timeStr in
  let slotEnd := addMinutes slotStart (serviceDuration + BUFFER_MINUTES) in
  let conflict := find_conflict zone serviceDuration slotStart slotEnd dayBookings in
  {| slot_date := dateStr;
     slot_time := timeStr;
     available := negb (bool_decide (is_Some conflict));
     reason := conflict |}.

(** The loop guard [hour <= config.workingHours.end - serviceDuration / 60]. *)
Definition hour_guard (config : Config) (serviceDuration hour : Z) : bool :=
  Qle_bool (inject_Z hour)
           (inject_Z (workingHours_end config) - Qmake serviceDuration 60).

(** [for (hour = start; guard; hour++)], at most [fuel] rounds. *)
Fixpoint hour_loop (fuel : nat) (config : Config) (zone : Zone)
    (serviceDuration : Z) (dateStr : isodate)
    (dayBookings : list BookingConflict) (hour : Z) : list TimeSlot :=
  match fuel with
  | O => []
  | S fuel' =>
      if hour_guard config serviceDuration hour
      then make_slot zone serviceDuration dateStr dayBookings hour
           :: hour_loop fuel' config zone serviceDuration dateStr dayBookings
                        (hour + 1)
      else []
  end.

(** Rounds after which the guard of the hour loop has failed. *)
Definition hour_fuel (config : Config) (serviceDuration : Z) : nat :=
  Z.to_nat
    (Qfloor (inject_Z (workingHours_end config) - Qmake serviceDuration 60)
     - workingHours_start config + 1).

(** [while (currentDate <= endDate) { ...; currentDate.setDate(+1) }],
    at most [fuel] rounds. *)
Fixpoint day_loop (fuel : nat) (config : Config) (zone : Zone)
    (serviceDuration : Z) (existingBookings : list BookingConflict)
    (endDate currentDate : Z) : list TimeSlot :=
  match fuel with
  | O => []
  | S fuel' =>
      if currentDate <=? endDate then
        let dateStr := toISODate currentDate in
        let dayBookings :=
          List.filter (fun b => date b =? dateStr) existingBookings in
        hour_loop (hour_fuel config serviceDuration) config zone serviceDuration
                  dateStr dayBookings (workingHours_start config)
        ++ day_loop fuel' config zone serviceDuration existingBookings endDate
                    (addDays zone currentDate 1)
      else []
  end.

(** Rounds after which the guard of a day loop has failed, in every zone in
    which the step to the next calendar day is an hour at least. *)
Definition day_fuel (startDate endDate : Z) : nat :=
  Z.to_nat ((endDate - startDate) / MS_PER_HOUR + 1).

Record AvailabilityDetails := mkAvailabilityDetails {
  slots : list TimeSlot;
  existingBookings : list BookingConflict
}.

Definition check_availability (config : Config) (zone : Zone)
    (sahr_bookings : list BookingDoc) (params : AvailabilityParams)
    : AvailabilityDetails :=
  let startDate := Date_of_isodate (p_date params) in
  let endDate :=
    match p_endDate params with
    | Some e => Date_of_isodate e
    | None => startDate
    end in
  let serviceDuration :=
    serviceDuration_of config (service_key <$> p_serviceType params) in
  let snapshot :=
    sort date_time_before
      (where_range_status (p_date params)
         (default (p_date params) (p_endDate params))
         [scheduled; confirmed; in_progress] sahr_bookings) in
  let existingBookings := to_conflict <$> snapshot in
  {| slots := day_loop (day_fuel startDate endDate) config zone serviceDuration
                       existingBookings endDate startDate;
     existingBookings := existingBookings |}.

(** *** Tool: suggest booking times *)

Inductive Weekday :=
  sunday | monday | tuesday | wednesday | thursday | friday | saturday.

Definition Weekday_eqb (a b : Weekday) : bool :=
  match a, b with
  | sunday, sunday | monday, monday | tuesday, tuesday
  | wednesday, wednesday | thursday, thursday | friday, friday
  | saturday, saturday => true
  | _, _ => false
  end.

(** [getDayName(date).toLowerCase()] *)
Definition getDayName (zone : Zone) (date : Z) : Weekday :=
  match getDay zone date with
  | 0 => sunday
  | 1 => monday
  | 2 => tuesday
  | 3 => wednesday
  | 4 => thursday
  | 5 => friday
  | _ => saturday
  end.

Inductive TimeRange := morning | afternoon | evening.
Inductive Urgency := asap | this_week | next_week | flexible.

Definition Urgency_eqb (a b : Urgency) : bool :=
  match a, b with
  | asap, asap | this_week, this_week | next_week, next_week
  | flexible, flexible => true
  | _, _ => false
  end.

Record SuggestParams := mkSuggestParams {
  sp_customerName : string;
  sp_preferredDays : option (list Weekday);
  sp_preferredTimeRange : option TimeRange;
  sp_serviceType : option string;
  sp_urgency : option Urgency
}.

Record Suggestion := mkSuggestion {
  sg_date : isodate;
  sg_time : HHMM;
  score : Z;
  sg_reason : string
}.

(** The [timeRanges] table: [(start, end)] of each band. *)
Definition timeRanges (r : TimeRange) : Z * Z :=
  match r with
  | morning => (9, 12)
  | afternoon => (12, 17)
  | evening => (17, 21)
  end.

(** The [switch (params.urgency)]: [(startDate, endDate)]. *)
Definition urgency_window (zone : Zone) (today : Z) (urgency : option Urgency)
    : Z * Z :=
  match urgency with
  | Some asap => (today, addDays zone today 3)
  | Some this_week => (today, addDays zone today 7)
  | Some next_week => (addDays zone today 7, addDays zone today 14)
  | _ => (today, addDays zone today 14)
  end.

(** [existingBookings.some(...)]: the coarse, hour-based conflict rule. *)
Definition hasConflict (serviceDuration : Z) (existingBookings : list (isodate * HHMM))
    (dateStr : isodate) (hour : Z) : bool :=
  existsb
    (fun b =>
       if negb (fst b =? dateStr) then false
       else
         let bookingHour := hours (snd b) in
         let bookingEnd := bookingHour + Qceiling (Qmake serviceDuration 60) in
         (hour >=? bookingHour) && (hour <? bookingEnd))
    existingBookings.

(** The same test with the duration as the tool looked it up: with [NaN]
    for a duration [hour < bookingEnd] is false for every booking. *)
Definition hasConflict_any (serviceDuration : option Z)
    (existingBookings : list (isodate * HHMM)) (dateStr : isodate) (hour : Z)
    : bool :=
  match serviceDuration with
  | Some duration => hasConflict duration existingBookings dateStr hour
  | None => false
  end.

(** [!params.preferredDays || params.preferredDays.includes(dayName)] *)
Definition dayMatch (preferredDays : option (list Weekday)) (dayName : Weekday) : bool :=
  match preferredDays with
  | None => true
  | Some l => existsb (Weekday_eqb dayName) l
  end.

(** [reasons.join(", ") || "available"] *)
Fixpoint join_reasons (reasons : list string) : string :=
  match reasons with
  | [] => EmptyString
  | [r] => r
  | r :: rs => (r ++ ", " ++ join_reasons rs)%string
  end.

(** The body of the hour loop for a slot without conflict. *)
Definition make_suggestion (params : SuggestParams) (zone : Zone)
    (today currentDate : Z) (hour : Z) : Suggestion :=
  let dateStr := toISODate currentDate in
  let dayName := getDayName zone currentDate in
  let dm := dayMatch (sp_preferredDays params) dayName in
  let score := 100 in
  let reasons := [] in
  let '(score, reasons) :=
    if dm then (score + 20, reasons ++ ["matches preferred day"%string])
    else (score, reasons) in
  let '(score, reasons) :=
    match sp_urgency params with
    | Some asap =>
        let daysFromNow := (currentDate - today) / MS_PER_DAY in
        (score + Z.max 0 (30 - daysFromNow * 5),
         if daysFromNow <=? 2 then reasons ++ ["soon"%string] else reasons)
    | _ => (score, reasons)
    end in
  let '(score, reasons) :=
    if (hour =? 17) || (hour =? 18)
    then (score + 10, reasons ++ ["popular time"%string])
    else (score, reasons) in
  {| sg_date := dateStr;
     sg_time := mkHHMM hour 0;
     score := score;
     sg_reason := or_str (Some (join_reasons reasons)) "available" |}.

(** [for (hour = start; hour < end; hour++)], at most [fuel] rounds. *)
Fixpoint suggest_hour_loop (fuel : nat) (params : SuggestParams)
    (zone : Zone) (today : Z) (serviceDuration : option Z)
    (existingBookings : list (isodate * HHMM))
    (currentDate rangeEnd hour : Z) : list Suggestion :=
  match fuel with
  | O => []
  | S fuel' =>
      if hour <? rangeEnd then
        let rest :=
          suggest_hour_loop fuel' params zone today serviceDuration
                            existingBookings currentDate rangeEnd (hour + 1) in
        if hasConflict_any serviceDuration existingBookings
                           (toISODate currentDate) hour
        then rest
        else make_suggestion params zone today currentDate hour :: rest
      else []
  end.

(** [while (currentDate <= endDate)], at most [fuel] rounds. *)
Fixpoint suggest_day_loop (fuel : nat) (params : SuggestParams)
    (zone : Zone) (today : Z) (serviceDuration : option Z)
    (existingBookings : list (isodate * HHMM))
    (preferredRange : Z * Z) (endDate currentDate : Z) : list Suggestion :=
  match fuel with
  | O => []
  | S fuel' =>
      if currentDate <=? endDate then
        suggest_hour_loop (Z.to_nat (snd preferredRange - fst preferredRange))
                          params zone today serviceDuration existingBookings
                          currentDate (snd preferredRange) (fst preferredRange)
        ++ suggest_day_loop fuel' params zone today serviceDuration
                            existingBookings preferredRange endDate
                            (addDays zone currentDate 1)
      else []
  end.

(** [(a, b) => b.score - a.score] yields a value [<= 0]. *)
Definition by_score_desc (a b : Suggestion) : bool := score b - score a <=? 0.

(** The suggestions in generation order, before ranking. *)
Definition generate_suggestions (config : Config) (zone : Zone) (today : Z)
    (sahr_bookings : list BookingDoc) (params : SuggestParams) : list Suggestion :=
  let serviceDuration := serviceDuration_any config (sp_serviceType params) in
  let '(startDate, endDate) := urgency_window zone today (sp_urgency params) in
  let preferredRange := timeRanges (default afternoon (sp_preferredTimeRange params)) in
  let snapshot :=
    where_range_status (toISODate startDate) (toISODate endDate)
                       [scheduled; confirmed] sahr_bookings in
  let existingBookings :=
    (fun d => (doc_appointmentDate d, doc_appointmentTime d)) <$> snapshot in
  suggest_day_loop (day_fuel startDate endDate) params zone today serviceDuration
                   existingBookings preferredRange endDate startDate.

(** [details.suggestions]: sorted by score, top five. *)
Definition suggest_times (config : Config) (zone : Zone) (today : Z)
    (sahr_bookings : list BookingDoc) (params : SuggestParams) : list Suggestion :=
  let suggestions := generate_suggestions config zone today sahr_bookings params in
  take 5 (sort by_score_desc suggestions).

(** *** Tool: suggest rebooking *)

Inductive Frequency :=
  weekly | biweekly | monthly | every_1_5_months | every_2_months | quarterly.

Definition frequency_key (f : Frequency) : string :=
  match f with
  | weekly => "weekly"
  | biweekly => "biweekly"
  | monthly => "monthly"
  | every_1_5_months => "every_1.5_months"
  | every_2_months => "every_2_months"
  | quarterly => "quarterly"
  end.

(** Rebooking intervals by frequency preference, in days. *)
Definition REBOOKING_INTERVALS : gmap string Z :=
  list_to_map
    [ ("weekly", 7); ("biweekly", 14); ("monthly", 30);
      ("every_1.5_months", 45); ("every_2_months", 60); ("quarterly", 90) ]%string.

Record RebookingParams := mkRebookingParams {
  rp_customerName : string;
  rp_lastBookingDate : isodate;
  rp_frequency : option Frequency
}.

(** [details.suggestedDate]; [None] stands for an invalid date (an interval
    that the table does not hold). *)
Definition suggest_rebooking (zone : Zone) (today : Z) (params : RebookingParams)
    : option isodate :=
  let lastBooking := Date_of_isodate (rp_lastBookingDate params) in
  interval ← REBOOKING_INTERVALS
               !! or_str (frequency_key <$> rp_frequency params) "monthly";
  let suggestedDate := addDays zone lastBooking interval in
  let suggestedDate :=
    if suggestedDate <? today then addDays zone today 7 else suggestedDate in
  Some (toISODate suggestedDate).

End Scheduler.

(* ------------------------------------------------------------------------- *)
(** ** The finance-sync plugin *)
(* ------------------------------------------------------------------------- *)

Module FinanceSync.
Import JS.

(** *** Constants *)

Definition SERVICE_CATEGORIES : gmap string string :=
  list_to_map
    [ ("full_detail", "auto-detailing"); ("interior", "auto-detailing");
      ("exterior", "auto-detailing"); ("coating", "auto-detailing");
      ("wash", "auto-detailing") ]%string.

Definition PAYMENT_ACCOUNTS : gmap string string :=
  list_to_map
    [ ("etransfer", "sahr-etransfer"); ("e-transfer", "sahr-etransfer");
      ("stripe", "sahr-stripe"); ("cash", "sahr-cash");
      ("debit", "sahr-debit"); ("credit", "sahr-debit") ]%string.

(** *** Types *)

Record Config := mkConfig {
  entityId : string;
  defaultAccount : string;
  autoSync : bool
}.

Record Metadata := mkMetadata {
  md_bookingId : string;
  md_customerId : option string;
  md_customerName : string;
  md_serviceType : option string;
  md_tipAmount : option Z
}.

(** A ledger transaction.  The fields [id], [importedAt] and
    [metadata.syncedAt] hold a random identifier and clock readings; no
    decision of the plugin reads them and they are left out. *)
Record Transaction := mkTransaction {
  tx_date : string;
  description : string;
  amount : Z;
  currency : string;
  accountId : string;
  category : string;
  categorySource : string;
  entity : string;
  source : string;
  metadata : Metadata
}.

Record BookingData := mkBookingData {
  customerId : string;
  customerName : string;
  serviceType : string;
  appointmentDate : string;
  price : Z;
  tipAmount : option Z;
  status : string;
  paymentMethod : option string;
  financeSynced : option bool;
  financeTransactionId : option string;
  financeSyncedAt : option Z
}.

(** The document store: [sahr_bookings] by document id, and the documents
    added to [transactions], oldest first, each with the id it was given. *)
Record Firestore := mkFirestore {
  sahr_bookings : gmap string BookingData;
  transactions : list (string * Transaction)
}.

(** *** Helpers *)

Definition lower_ascii (c : ascii) : ascii :=
  let n := nat_of_ascii c in
  if ((65 <=? n) && (n <=? 90))%nat then ascii_of_nat (n + 32) else c.

(** [s.toLowerCase()] on ASCII text. *)
Fixpoint toLowerCase (s : string) : string :=
  match s with
  | EmptyString => EmptyString
  | String c r => String (lower_ascii c) (toLowerCase r)
  end.

Definition serviceNames : gmap string string :=
  list_to_map
    [ ("full_detail", "Full Detail"); ("interior", "Interior Detail");
      ("exterior", "Exterior Detail"); ("coating", "Ceramic Coating");
      ("wash", "Car Wash") ]%string.

Definition getServiceDescription (serviceType customerName : string) : string :=
  (or_str (serviceNames !! serviceType) "Detail" ++ " - " ++ customerName)%string.

(** [booking.tipAmount && booking.tipAmount > 0] *)
Definition has_tip (tipAmount : option Z) : bool :=
  match tipAmount with
  | Some t => negb (t =? 0) && (t >? 0)
  | None => false
  end.

Section Tools.

(** The identifier that the store gives to a document added to a
    collection ([addDoc] returns a reference with a generated id): any
    choice of the store, here as a function of the number of documents
    that the collection holds. *)
Variable newDocId : nat -> string.

(** [addDoc(collection(db, "transactions"), tx)] *)
Definition addDoc (db : Firestore) (tx : Transaction) : string * Firestore :=
  let id := newDocId (length (transactions db)) in
  (id, {| sahr_bookings := sahr_bookings db;
          transactions := transactions db ++ [(id, tx)] |}).

(** [updateDoc(bookingRef, { financeSynced: true, financeTransactionId,
    financeSyncedAt })] *)
Definition mark_synced (now : Z) (txId : string) (b : BookingData) : BookingData :=
  {| customerId := customerId b;
     customerName := customerName b;
     serviceType := serviceType b;
     appointmentDate := appointmentDate b;
     price := price b;
     tipAmount := tipAmount b;
     status := status b;
     paymentMethod := paymentMethod b;
     financeSynced := Some true;
     financeTransactionId := Some txId;
     financeSyncedAt := Some now |}.

Definition updateDoc_synced (db : Firestore) (bookingId : string) (now : Z)
    (txId : string) : Firestore :=
  {| sahr_bookings := alter (mark_synced now txId) bookingId (sahr_bookings db);
     transactions := transactions db |}.

Definition tip_transaction (config : Config) (bookingId : string)
    (withCustomerId : bool) (booking : BookingData) (accountId : string)
    (tip : Z) : Transaction :=
  {| tx_date := appointmentDate booking;
     description := ("Tip - " ++ customerName booking)%string;
     amount := tip;
     currency := "CAD";
     accountId := accountId;
     category := "tips";
     categorySource := "crm-sync";
     entity := entityId config;
     source := "sahr-crm";
     metadata :=
       {| md_bookingId := bookingId;
          md_customerId :=
            if withCustomerId then Some (customerId booking) else None;
          md_customerName := customerName booking;
          md_serviceType := None;
          md_tipAmount := Some tip |} |}.

(** *** Tool: sync booking to finance *)

Record SyncParams := mkSyncParams {
  sp_bookingId : string;
  overrideAmount : option Z;
  sp_paymentMethod : option string;
  notes : option string
}.

(** The three replies of the tool:
    - [**Error:** Booking <id> not found.]
    - [**Already Synced:** This booking was already synced as transaction <id>.]
    - [**Booking Synced to Finance**], with [details.transaction],
      [details.tipTransaction] and [details.firebaseId]. *)
Inductive SyncReply :=
| ErrorNotFound (bookingId : string)
| AlreadySynced (transactionId : string)
| Synced (transaction : Transaction) (tipTransaction : option Transaction)
         (firebaseId : string).

(** The lookups in [PAYMENT_ACCOUNTS] and [SERVICE_CATEGORIES] are modelled
    as lookups in tables of strings.  Under a payment method or a service
    type that every object inherits they yield a function, [addDoc] rejects
    the document and the tool fails; what is stated of a call that posts is
    stated for other keys ([FinanceProps.plain_lookup]). *)
Definition sync_booking (config : Config) (now : Z) (params : SyncParams)
    (db : Firestore) : SyncReply * Firestore :=
  match sahr_bookings db !! sp_bookingId params with
  | None => (ErrorNotFound (sp_bookingId params), db)
  | Some booking =>
      if truthy_bool (financeSynced booking)
         && truthy_str (financeTransactionId booking)
      then (AlreadySynced (default EmptyString (financeTransactionId booking)), db)
      else
        let paymentMethod :=
          or_str (sp_paymentMethod params)
                 (or_str (paymentMethod booking) "etransfer") in
        let accountId :=
          or_str (PAYMENT_ACCOUNTS !! toLowerCase paymentMethod)
                 (defaultAccount config) in
        let amount := or_num (overrideAmount params) (price booking) in
        let transaction :=
          {| tx_date := appointmentDate booking;
             description :=
               (getServiceDescription (serviceType booking) (customerName booking)
                ++ (if truthy_str (notes params)
                    then " (" ++ default EmptyString (notes params) ++ ")"
                    else EmptyString))%string;
             amount := amount;
             currency := "CAD";
             accountId := accountId;
             category :=
               or_str (SERVICE_CATEGORIES !! serviceType booking) "auto-detailing";
             categorySource := "crm-sync";
             entity := entityId config;
             source := "sahr-crm";
             metadata :=
               {| md_bookingId := sp_bookingId params;
                  md_customerId := Some (customerId booking);
                  md_customerName := customerName booking;
                  md_serviceType := Some (serviceType booking);
                  md_tipAmount := None |} |} in
        let '(txDocId, db) := addDoc db transaction in
        let db := updateDoc_synced db (sp_bookingId params) now txDocId in
        let '(tipTransaction, db) :=
          if has_tip (tipAmount booking) then
            let tipTx :=
              tip_transaction config (sp_bookingId params) true booking accountId
                              (default 0 (tipAmount booking)) in
            (Some tipTx, snd (addDoc db tipTx))
          else (None, db) in
        (Synced transaction tipTransaction txDocId, db)
  end.

(** *** Tool: bulk sync *)

Record BulkResult := mkBulkResult {
  br_bookingId : string;
  success : bool;
  transactionId : option string;
  error : option string
}.

Record BulkState := mkBulkState {
  results : list BulkResult;
  totalSynced : Z;
  totalAmount : Z;
  store : Firestore
}.

(** One round of [for (const bookingId of params.bookingIds)], for calls to
    the store that succeed: the [catch] branch, which answers a failed call
    with its error message, is reached only when [addDoc] rejects a
    document, as it does for a function found under an inherited key
    ([FinanceProps.plain_bookings] excludes these). *)
Definition bulk_sync_step (config : Config) (now : Z)
    (defaultPaymentMethod : option string) (st : BulkState) (bookingId : string)
    : BulkState :=
  let db := store st in
  match sahr_bookings db !! bookingId with
  | None =>
      {| results := results st
                    ++ [mkBulkResult bookingId false None (Some "Not found"%string)];
         totalSynced := totalSynced st;
         totalAmount := totalAmount st;
         store := db |}
  | Some booking =>
      if truthy_bool (financeSynced booking) then
        {| results := results st
                      ++ [mkBulkResult bookingId false None
                                       (Some "Already synced"%string)];
           totalSynced := totalSynced st;
           totalAmount := totalAmount st;
           store := db |}
      else
        let paymentMethod :=
          or_str (paymentMethod booking)
                 (or_str defaultPaymentMethod "etransfer") in
        let accountId :=
          or_str (PAYMENT_ACCOUNTS !! toLowerCase paymentMethod)
                 (defaultAccount config) in
        let transaction :=
          {| tx_date := appointmentDate booking;
             description :=
               getServiceDescription (serviceType booking) (customerName booking);
             amount := price booking;
             currency := "CAD";
             accountId := accountId;
             category :=
               or_str (SERVICE_CATEGORIES !! serviceType booking) "auto-detailing";
             categorySource := "crm-sync";
             entity := entityId config;
             source := "sahr-crm";
             metadata :=
               {| md_bookingId := bookingId;
                  md_customerId := Some (customerId booking);
                  md_customerName := customerName booking;
                  md_serviceType := Some (serviceType booking);
                  md_tipAmount := None |} |} in
        let '(txDocId, db) := addDoc db transaction in
        let db := updateDoc_synced db bookingId now txDocId in
        let '(db, totalAmount) :=
          if has_tip (tipAmount booking) then
            let tip := default 0 (tipAmount booking) in
            let tipTx :=
              tip_transaction config bookingId false booking accountId tip in
            (snd (addDoc db tipTx), totalAmount st + tip)
          else (db, totalAmount st) in
        {| results := results st
                      ++ [mkBulkResult bookingId true (Some txDocId) None];
           totalSynced := totalSynced st + 1;
           totalAmount := totalAmount + price booking;
           store := db |}
  end.

(** [details] of the tool ([results], [totalSynced], [totalAmount]) and
    the store it leaves. *)
Definition bulk_sync (config : Config) (now : Z) (bookingIds : list string)
    (defaultPaymentMethod : option string) (db : Firestore) : BulkState :=
  fold_left (bulk_sync_step config now defaultPaymentMethod) bookingIds
            {| results := []; totalSynced := 0; totalAmount := 0; store := db |}.

End Tools.

End FinanceSync.

(* ------------------------------------------------------------------------- *)
(** ** Notions used to state the properties *)
(* ------------------------------------------------------------------------- *)

Module Props.
Import JS Scheduler.

(** The last hour that passes the guard of the availability hour loop. *)
Definition last_hour (config : Config) (serviceDuration : Z) : Z :=
  (60 * workingHours_end config - serviceDuration) / 60.

(** The statuses that occupy capacity for the availability tool. *)
Definition active (s : Status) : bool :=
  status_in s [scheduled; confirmed; in_progress].

(** The duration that the availability tool works with. *)
Definition requested_duration (config : Config) (params : AvailabilityParams) : Z :=
  serviceDuration_of config (service_key <$> p_serviceType params).

(** The last day of the range that the availability tool walks. *)
Definition range_end (params : AvailabilityParams) : isodate :=
  default (p_date params) (p_endDate params).

(** The availability flag reported for the slot at [h:00], if any. *)
Definition reported (sl : list TimeSlot) (h : Z) : option bool :=
  available <$>
    List.find (fun s => (hours (slot_time s) =? h) && (minutes (slot_time s) =? 0)) sl.

(** The slots of one day. *)
Definition day_slots (config : Config) (zone : Zone) (dur : Z)
    (existing : list BookingConflict) (d : isodate) : list TimeSlot :=
  make_slot zone dur d (List.filter (fun b => date b =? d) existing)
  <$> seqZ (workingHours_start config)
           (last_hour config dur - workingHours_start config + 1).

(** The instants at which a day loop is entered:
    [for (c = currentDate; c <= endDate; c.setDate(c.getDate() + 1))]. *)
Fixpoint day_cursors (fuel : nat) (zone : Zone) (endDate currentDate : Z) : list Z :=
  match fuel with
  | O => []
  | S fuel' =>
      if currentDate <=? endDate
      then currentDate :: day_cursors fuel' zone endDate (addDays zone currentDate 1)
      else []
  end.

(** The instants at which the availability tool enters its day loop. *)
Definition visited (zone : Zone) (params : AvailabilityParams) : list Z :=
  day_cursors
    (day_fuel (Date_of_isodate (p_date params)) (Date_of_isodate (range_end params)))
    zone (Date_of_isodate (range_end params)) (Date_of_isodate (p_date params)).

(** The bookings that the availability tool reads from the store. *)
Definition existing_of (sahr_bookings : list BookingDoc) (params : AvailabilityParams)
    : list BookingConflict :=
  to_conflict <$>
    sort date_time_before
      (where_range_status (p_date params) (range_end params)
         [scheduled; confirmed; in_progress] sahr_bookings).

(** Two half-open intervals [[s1, e1)] and [[s2, e2)] share an instant. *)
Definition intervals_meet (s1 e1 s2 e2 : Z) : Prop :=
  exists t, (s1 <= t < e1) /\ (s2 <= t < e2).

(** The instants that delimit a candidate slot of the given duration. *)
Definition slot_start (zone : Zone) (s : TimeSlot) : Z :=
  parseDateTime zone (slot_date s) (slot_time s).

Definition booking_start (zone : Zone) (b : BookingDoc) : Z :=
  parseDateTime zone (doc_appointmentDate b) (doc_appointmentTime b).

(** The occupied interval of a booking according to the data model of the
    specification: from its start to its start plus the duration of its
    own service type plus the buffer. *)
Definition own_duration (config : Config) (b : BookingDoc) : Z :=
  serviceDuration_of config (Some (doc_serviceType b)).

(** Generation order of suggestions: date ascending, then hour ascending. *)
Definition enum_lt (a b : Suggestion) : Prop :=
  sg_date a < sg_date b
  \/ (sg_date a = sg_date b /\ hours (sg_time a) < hours (sg_time b)).

(** Ranking order: higher score first, generation order among equals. *)
Definition ranked (a b : Suggestion) : Prop :=
  score b < score a \/ (score a = score b /\ enum_lt a b).

(** What the suggestion tool works with. *)
Definition suggest_duration (config : Config) (params : SuggestParams) : option Z :=
  serviceDuration_any config (sp_serviceType params).

Definition suggest_start (zone : Zone) (today : Z) (params : SuggestParams) : Z :=
  fst (urgency_window zone today (sp_urgency params)).

Definition suggest_end (zone : Zone) (today : Z) (params : SuggestParams) : Z :=
  snd (urgency_window zone today (sp_urgency params)).

Definition suggest_range (params : SuggestParams) : Z * Z :=
  timeRanges (default afternoon (sp_preferredTimeRange params)).

Definition suggest_existing (zone : Zone) (today : Z)
    (sahr_bookings : list BookingDoc) (params : SuggestParams)
    : list (isodate * HHMM) :=
  (fun d => (doc_appointmentDate d, doc_appointmentTime d))
  <$> where_range_status (toISODate (suggest_start zone today params))
                         (toISODate (suggest_end zone today params))
                         [scheduled; confirmed] sahr_bookings.

(** The weekday of a calendar date. *)
Definition weekday_of (d : isodate) : Weekday :=
  match (d + 4) mod 7 with
  | 0 => sunday
  | 1 => monday
  | 2 => tuesday
  | 3 => wednesday
  | 4 => thursday
  | 5 => friday
  | _ => saturday
  end.

(** A booking of the store that the suggestion tool reads (status scheduled
    or confirmed, a date within the dates of the window) and that lies
    over hour [h] of day [d] when a service spans [span] hours. *)
Definition booked_over (zone : Zone) (today : Z) (params : SuggestParams)
    (span : Z) (b : BookingDoc) (d h : Z) : Prop :=
  status_in (doc_status b) [scheduled; confirmed] = true
  /\ (toISODate (suggest_start zone today params) <= doc_appointmentDate b
      <= toISODate (suggest_end zone today params))
  /\ doc_appointmentDate b = d
  /\ hours (doc_appointmentTime b) <= h < hours (doc_appointmentTime b) + span.

(** The instants at which the suggestion tool enters its day loop. *)
Definition suggest_cursors (zone : Zone) (today : Z) (params : SuggestParams)
    : list Z :=
  day_cursors (day_fuel (suggest_start zone today params)
                        (suggest_end zone today params))
              zone (suggest_end zone today params) (suggest_start zone today params).

(** The score of a slot as the specification words it: the weekday bonus
    is earned by matching a preference list that the caller supplied. *)
Definition claimed_score (preferredDays : option (list Weekday))
    (urgency : option Urgency) (dayName : Weekday) (daysFromNow hour : Z) : Z :=
  100
  + (match preferredDays with
     | Some l => if existsb (Weekday_eqb dayName) l then 20 else 0
     | None => 0
     end)
  + (match urgency with
     | Some asap => Z.max 0 (30 - 5 * daysFromNow)
     | _ => 0
     end)
  + (if (hour =? 17) || (hour =? 18) then 10 else 0).

(** The score of a slot as the tool computes it: the weekday bonus is also
    earned when the caller supplies no preference list. *)
Definition tool_score (preferredDays : option (list Weekday))
    (urgency : option Urgency) (dayName : Weekday) (daysFromNow hour : Z) : Z :=
  100
  + (match preferredDays with
     | Some l => if existsb (Weekday_eqb dayName) l then 20 else 0
     | None => 20
     end)
  + (match urgency with
     | Some asap => Z.max 0 (30 - 5 * daysFromNow)
     | _ => 0
     end)
  + (if (hour =? 17) || (hour =? 18) then 10 else 0).

(** The rebooking date as the specification words it: the planned date,
    unless that date has passed relative to today's date, and then today's
    date plus seven days. *)
Definition claimed_rebooking (today : Z) (last interval : Z) : isodate :=
  let planned := last + interval in
  if planned <? toISODate today then toISODate today + 7 else planned.

(** The rebooking interval of a frequency label, in days; monthly when no
    label is given. *)
Definition interval_days (frequency : option Frequency) : Z :=
  match frequency with
  | Some weekly => 7
  | Some biweekly => 14
  | Some monthly => 30
  | Some every_1_5_months => 45
  | Some every_2_months => 60
  | Some quarterly => 90
  | None => 30
  end.

End Props.

(* ------------------------------------------------------------------------- *)
(** ** Example data *)
(* ------------------------------------------------------------------------- *)

Module Examples.
Import JS Scheduler.

(** Mountain Standard Time, seven hours behind UTC. *)
Definition edmonton : Z := -7 * 60 * MS_PER_MINUTE.

(** The default configuration: 180 minutes, working hours 9 to 21. *)
Definition default_config : Config := mkConfig 180 9 21 42.

Definition jan15 : isodate := days_from_civil 2026 1 15.

Definition evening_booking : BookingDoc :=
  mkBookingDoc "bk-18" "Ann" jan15 (mkHHMM 18 0) None scheduled "full_detail".

Definition coating_booking : BookingDoc :=
  mkBookingDoc "bk-09" "Bob" jan15 (mkHHMM 9 0) (Some "wash bay"%string)
               confirmed "coating".

Definition full_detail_on_jan15 : AvailabilityParams :=
  mkAvailabilityParams jan15 None (Some full_detail).

Definition wash_on_jan15 : AvailabilityParams :=
  mkAvailabilityParams jan15 None (Some wash).

(** A full detail asked for on a day with one booking at 18:00. *)
Definition evening_slots : list TimeSlot :=
  slots (check_availability default_config edmonton [evening_booking]
                            full_detail_on_jan15).

(** A wash asked for on a day with a coating booked at 9:00. *)
Definition wash_slots : list TimeSlot :=
  slots (check_availability default_config edmonton [coating_booking]
                            wash_on_jan15).

(** 10:00 local time on 2026-01-15, a Thursday. *)
Definition thursday_morning : Z :=
  Date_of_isodate jan15 + 17 * 60 * MS_PER_MINUTE.

(** No preferences at all: afternoon band, two-week window. *)
Definition no_preferences : SuggestParams :=
  mkSuggestParams "Ann" None None None None.

Definition noon_suggestion : Suggestion :=
  mkSuggestion jan15 (mkHHMM 12 0) 120 "matches preferred day".

Definition jan01 : isodate := days_from_civil 2026 1 1.
Definition jan31 : isodate := days_from_civil 2026 1 31.

Definition monthly_since_jan01 : RebookingParams :=
  mkRebookingParams "Ann" jan01 (Some monthly).

(** Noon UTC on 2026-01-31, 5:00 local time in Edmonton. *)
Definition jan31_noon : Z := Date_of_isodate jan31 + 12 * MS_PER_HOUR.

Definition slot_at_11 : TimeSlot := mkTimeSlot jan15 (mkHHMM 11 0) true None.
Definition slot_at_9 : TimeSlot := mkTimeSlot jan15 (mkHHMM 9 0) true None.

(** Mountain Time with its clock changes of 2026 (America/Edmonton): seven
    hours behind UTC, and six hours from 2026-03-08T09:00Z, when 2:00
    becomes 3:00, to 2026-11-01T08:00Z, when 2:00 becomes 1:00.  The hour
    that the clocks skip and the hour that they repeat are read with the
    offset before the change. *)
Definition mdt_begins : Z :=
  Date_of_isodate (days_from_civil 2026 3 8) + 9 * MS_PER_HOUR.

Definition mdt_ends : Z :=
  Date_of_isodate (days_from_civil 2026 11 1) + 8 * MS_PER_HOUR.

Definition mountain_time : Zone :=
  {| offset_at := fun t =>
       if (mdt_begins <=? t) && (t <? mdt_ends)
       then -6 * MS_PER_HOUR else -7 * MS_PER_HOUR;
     offset_for := fun w =>
       if (mdt_begins - 6 * MS_PER_HOUR <=? w) && (w <? mdt_ends - 6 * MS_PER_HOUR)
       then -6 * MS_PER_HOUR else -7 * MS_PER_HOUR |}.

Definition feb15 : isodate := days_from_civil 2026 2 15.
Definition mar01 : isodate := days_from_civil 2026 3 1.
Definition mar07 : isodate := days_from_civil 2026 3 7.
Definition mar08 : isodate := days_from_civil 2026 3 8.
Definition mar09 : isodate := days_from_civil 2026 3 9.
Definition mar10 : isodate := days_from_civil 2026 3 10.
Definition oct31 : isodate := days_from_civil 2026 10 31.
Definition nov01 : isodate := days_from_civil 2026 11 1.
Definition nov02 : isodate := days_from_civil 2026 11 2.
Definition nov03 : isodate := days_from_civil 2026 11 3.

(** Requests across the two clock changes. *)
Definition wash_in_march : AvailabilityParams :=
  mkAvailabilityParams mar07 (Some mar10) (Some wash).

Definition wash_in_autumn : AvailabilityParams :=
  mkAvailabilityParams oct31 (Some nov03) (Some wash).

Definition monthly_since_feb15 : RebookingParams :=
  mkRebookingParams "Ann" feb15 (Some monthly).

End Examples.

Module FinanceExamples.
Import JS FinanceSync.

Definition config : Config := mkConfig "sahr-auto" "sahr-etransfer" false.

(** Document ids [tx0], [tx1], ... *)
Definition numbered_id (n : nat) : string :=
  String "t" (String "x" (String (ascii_of_nat (48 + n mod 10)) EmptyString)).

(** A completed booking with a tip that has not been synced. *)
Definition completed_booking : BookingData :=
  mkBookingData "c1" "Ann" "full_detail" "2026-01-15" 250 (Some 20) "completed"
                (Some "cash"%string) None None None.

(** A booking flagged as synced that carries no transaction id. *)
Definition flagged_booking : BookingData :=
  mkBookingData "c2" "Bob" "wash" "2026-01-16" 60 None "completed"
                None (Some true) None None.

Definition store0 : Firestore :=
  mkFirestore (<["b1" := completed_booking]> (<["b2" := flagged_booking]> ∅)) [].

Definition sync_b1 : SyncParams := mkSyncParams "b1" None None None.
Definition sync_b2 : SyncParams := mkSyncParams "b2" None None None.

End FinanceExamples.

(* ------------------------------------------------------------------------- *)
(** ** Further notions used to state properties of the scheduler *)
(* ------------------------------------------------------------------------- *)

Module SchedulerProps.
Import JS Scheduler Props.

(** Chronological order of slots: date ascending, then hour ascending. *)
Definition slot_lt (a b : TimeSlot) : Prop :=
  slot_date a < slot_date b
  \/ (slot_date a = slot_date b /\ hours (slot_time a) < hours (slot_time b)).

(** Order of times of day, and of bookings by date and then time. *)
Definition time_le (a b : HHMM) : Prop :=
  hours a < hours b \/ (hours a = hours b /\ minutes a <= minutes b).

Definition conflict_le (a b : BookingConflict) : Prop :=
  date a < date b \/ (date a = date b /\ time_le (time a) (time b)).

(** The test of the availability tool for the slot at [h:00] of day [d]. *)
Definition slot_conflicts (zone : Zone) (dur d h : Z) (c : BookingConflict) : bool :=
  conflicts_with zone dur (parseDateTime zone d (mkHHMM h 0))
    (addMinutes (parseDateTime zone d (mkHHMM h 0)) (dur + BUFFER_MINUTES)) c.

(** The store's bookings that the availability tool takes into account. *)
Definition counted (params : AvailabilityParams) (b : BookingDoc) : Prop :=
  active (doc_status b) = true
  /\ p_date params <= doc_appointmentDate b <= range_end params.

End SchedulerProps.

(* ------------------------------------------------------------------------- *)
(** ** The scheduler's helpers and its reminder list *)
(* ------------------------------------------------------------------------- *)

Module SchedulerHelpers.
Import JS Scheduler.

(** [a[i]] on an array: [undefined] outside of it. *)
Definition array_get {A} (a : list A) (i : Z) : option A :=
  if i <? 0 then None else a !! Z.to_nat i.

(** [getOrdinal]: [%] is the remainder of the truncated division. *)
Definition getOrdinal (n : Z) : string :=
  let s := ["th"; "st"; "nd"; "rd"]%string in
  let v := Z.rem n 100 in
  or_str (array_get s (Z.rem (v - 20) 10))
         (or_str (array_get s v) (default EmptyString (array_get s 0))).

(** [Math.round]: the nearest integer, halves upwards. *)
Definition Math_round (q : Q) : Z := Qfloor (q + (1 # 2)).

(** The labels of [getRelativeDay]: [today], [tomorrow], [yesterday],
    [this <weekday>] and the date [YYYY-MM-DD]. *)
Inductive RelativeDay :=
| Today
| Tomorrow
| Yesterday
| ThisWeekday (dayName : Weekday)
| OnDate (d : isodate).

Definition getRelativeDay (zone : Zone) (now date : Z) : RelativeDay :=
  let today := setHours zone now 0 0 in
  let target := setHours zone date 0 0 in
  let diffDays := Math_round (Qmake (target - today) (Z.to_pos MS_PER_DAY)) in
  if diffDays =? 0 then Today
  else if diffDays =? 1 then Tomorrow
  else if diffDays =? -1 then Yesterday
  else if (diffDays >? 0) && (diffDays <=? 7) then ThisWeekday (getDayName zone date)
  else OnDate (toISODate date).

(** *** Tool: list reminders *)

Inductive ReminderStatus := pending | sent | dismissed.

Definition ReminderStatus_eqb (a b : ReminderStatus) : bool :=
  match a, b with
  | pending, pending | sent, sent | dismissed, dismissed => true
  | _, _ => false
  end.

(** A document of [sahr_reminders]; [dismissed] stands for the status
    [cancelled], [r_scheduledFor] and [r_createdAt] are instants. *)
Record Reminder := mkReminder {
  r_id : string;
  r_customerId : string;
  r_customerName : string;
  r_type : string;
  r_scheduledFor : Z;
  r_message : string;
  r_status : ReminderStatus;
  r_bookingId : option string;
  r_createdAt : Z
}.

Record ListRemindersParams := mkListRemindersParams {
  lr_customerId : option string;
  lr_status : option ReminderStatus;
  lr_limit : option Z
}.

(** [a.slice(0, n)] for an integer [n]: a negative [n] counts from the end. *)
Definition slice_from_0 {A} (a : list A) (n : Z) : list A :=
  if n <? 0 then take (Z.to_nat (Z.of_nat (length a) + n)) a
  else take (Z.to_nat n) a.

(** The two queries: [where("customerId", "==", ...)] only for a customer id
    that is given and not empty, [where("status", "==", status || "pending")],
    [orderBy("scheduledFor")]. *)
Definition reminders_query (sahr_reminders : list Reminder)
    (params : ListRemindersParams) : list Reminder :=
  let wanted := default pending (lr_status params) in
  sort (fun a b => r_scheduledFor a <=? r_scheduledFor b)
    (List.filter
       (fun r =>
          (if truthy_str (lr_customerId params)
           then String.eqb (r_customerId r) (default EmptyString (lr_customerId params))
           else true)
          && ReminderStatus_eqb (r_status r) wanted)
       sahr_reminders).

(** [details.reminders] *)
Definition list_reminders (sahr_reminders : list Reminder)
    (params : ListRemindersParams) : list Reminder :=
  let reminders := reminders_query sahr_reminders params in
  match lr_limit params with
  | Some n => if n =? 0 then reminders else slice_from_0 reminders n
  | None => reminders
  end.

End SchedulerHelpers.

Module HelperProps.
Import JS Scheduler SchedulerHelpers.

(** The ordinal suffix of English: th for 11, 12 and 13 in the last two
    digits, otherwise st, nd, rd for a last digit 1, 2, 3, and th. *)
Definition english_suffix (n : Z) : string :=
  if (11 <=? n mod 100) && (n mod 100 <=? 13) then "th"
  else match n mod 10 with
       | 1 => "st"
       | 2 => "nd"
       | 3 => "rd"
       | _ => "th"
       end.

(** The local calendar day, as a day number, on which an instant falls. *)
Definition local_day (tz t : Z) : Z := (t + tz) / MS_PER_DAY.

(** What a reminder must satisfy to be listed. *)
Definition wanted_reminder (params : ListRemindersParams) (r : Reminder) : Prop :=
  r_status r = default pending (lr_status params)
  /\ (truthy_str (lr_customerId params) = true ->
      Some (r_customerId r) = lr_customerId params).

Definition jan15_reminders : list Reminder :=
  [ mkReminder "r1" "c1" "Ann" "follow_up" 500 "call back" pending None 10;
    mkReminder "r2" "c2" "Bob" "rebooking" 300 "time to rebook" pending None 20;
    mkReminder "r3" "c1" "Ann" "custom" 100 "thanks" sent None 30 ]%string.

End HelperProps.

(* ------------------------------------------------------------------------- *)
(** ** The finance plugin's ledger tools *)
(* ------------------------------------------------------------------------- *)

Module Ledger.
Import JS JSObject FinanceSync.

(** The [transactions] collection as its readers see it: [metadata] and
    each of its fields may be missing.  The fields [id], [importedAt] and
    [metadata.syncedAt] are left out as in [Transaction]. *)
Record TxMetadata := mkTxMetadata {
  m_bookingId : option string;
  m_customerId : option string;
  m_customerName : option string;
  m_serviceType : option string;
  m_tipAmount : option Z
}.

Record Tx := mkTx {
  t_date : string;
  t_description : string;
  t_amount : Z;
  t_currency : string;
  t_accountId : string;
  t_category : string;
  t_categorySource : string;
  t_entity : string;
  t_source : string;
  t_metadata : option TxMetadata
}.

(** A transaction posted by the sync tools, as a document of the ledger. *)
Definition of_sync (tx : Transaction) : Tx :=
  {| t_date := tx_date tx;
     t_description := description tx;
     t_amount := amount tx;
     t_currency := currency tx;
     t_accountId := accountId tx;
     t_category := category tx;
     t_categorySource := categorySource tx;
     t_entity := entity tx;
     t_source := source tx;
     t_metadata :=
       Some {| m_bookingId := Some (md_bookingId (metadata tx));
               m_customerId := md_customerId (metadata tx);
               m_customerName := Some (md_customerName (metadata tx));
               m_serviceType := md_serviceType (metadata tx);
               m_tipAmount := md_tipAmount (metadata tx) |} |}.

(** The documents of [transactions], oldest first, each with its id. *)
Definition ledger_of (db : Firestore) : list (string * Tx) :=
  (fun doc => (fst doc, of_sync (snd doc))) <$> transactions db.

(** [new Date().toISOString().split("T")[0]] *)
Definition today_string (now : Z) : string := show_isodate (toISODate now).

(** [addDoc(collection(db, "transactions"), tx)] *)
Definition post (newDocId : nat -> string) (ledger : list (string * Tx)) (tx : Tx)
    : string * list (string * Tx) :=
  let id := newDocId (length ledger) in
  (id, ledger ++ [(id, tx)]).

(** *** Tool: record tip *)

Record TipParams := mkTipParams {
  tp_customerName : string;
  tp_customerId : option string;
  tp_amount : Z;
  tp_date : option string;
  tp_bookingId : option string;
  tp_paymentMethod : option string
}.

(** [details.transaction], [details.firebaseId] and the ledger afterwards.
    [addDoc] rejects a document in which a field is [undefined], as
    [metadata.customerId] and [metadata.bookingId] are when the call leaves
    them out: the tool then fails and posts nothing.  The lookup in
    [PAYMENT_ACCOUNTS] is that of a table of strings: a payment method that
    names an inherited property is outside of this model. *)
Definition record_tip (newDocId : nat -> string) (config : Config) (now : Z)
    (params : TipParams) (ledger : list (string * Tx))
    : option (Tx * string * list (string * Tx)) :=
  let date := or_str (tp_date params) (today_string now) in
  let accountId :=
    or_str (PAYMENT_ACCOUNTS
              !! or_str (toLowerCase <$> tp_paymentMethod params) "etransfer")
           (defaultAccount config) in
  let transaction :=
    {| t_date := date;
       t_description := ("Tip - " ++ tp_customerName params)%string;
       t_amount := tp_amount params;
       t_currency := "CAD";
       t_accountId := accountId;
       t_category := "tips";
       t_categorySource := "crm-sync";
       t_entity := entityId config;
       t_source := "sahr-crm";
       t_metadata :=
         Some {| m_bookingId := tp_bookingId params;
                 m_customerId := tp_customerId params;
                 m_customerName := Some (tp_customerName params);
                 m_serviceType := None;
                 m_tipAmount := Some (tp_amount params) |} |} in
  match tp_customerId params, tp_bookingId params with
  | Some _, Some _ =>
      let '(id, ledger) := post newDocId ledger transaction in
      Some (transaction, id, ledger)
  | _, _ => None
  end.

(** *** Tool: record expense *)

Inductive ExpenseCategory :=
  supplies | equipment | fuel | insurance | marketing | maintenance | other.

Definition expense_key (c : ExpenseCategory) : string :=
  match c with
  | supplies => "supplies"
  | equipment => "equipment"
  | fuel => "fuel"
  | insurance => "insurance"
  | marketing => "marketing"
  | maintenance => "maintenance"
  | other => "other"
  end.

Record ExpenseParams := mkExpenseParams {
  ep_description : string;
  ep_amount : Z;
  ep_category : ExpenseCategory;
  ep_date : option string;
  ep_vendor : option string
}.

Definition record_expense (newDocId : nat -> string) (config : Config) (now : Z)
    (params : ExpenseParams) (ledger : list (string * Tx))
    : Tx * string * list (string * Tx) :=
  let date := or_str (ep_date params) (today_string now) in
  let transaction :=
    {| t_date := date;
       t_description :=
         if truthy_str (ep_vendor params)
         then (ep_description params ++ " - "
               ++ default EmptyString (ep_vendor params))%string
         else ep_description params;
       t_amount := - Z.abs (ep_amount params);
       t_currency := "CAD";
       t_accountId := defaultAccount config;
       t_category := expense_key (ep_category params);
       t_categorySource := "crm-sync";
       t_entity := entityId config;
       t_source := "sahr-crm";
       t_metadata :=
         Some {| m_bookingId := None; m_customerId := None; m_customerName := None;
                 m_serviceType := None; m_tipAmount := None |} |} in
  let '(id, ledger) := post newDocId ledger transaction in
  (transaction, id, ledger).

(** *** Tool: revenue report *)

Record ReportParams := mkReportParams {
  rp_startDate : string;
  rp_endDate : string;
  includeCustomerBreakdown : option bool
}.

(** [where("entity", "==", config.entityId), where("date", ">=", startDate),
    where("date", "<=", endDate), orderBy("date")]: strings compare
    character by character. *)
Definition report_query (config : Config) (params : ReportParams)
    (ledger : list (string * Tx)) : list Tx :=
  sort (fun a b => String.leb (t_date a) (t_date b))
    (List.filter
       (fun t => String.eqb (t_entity t) (entityId config)
                 && String.leb (rp_startDate params) (t_date t)
                 && String.leb (t_date t) (rp_endDate params))
       (snd <$> ledger)).

(** [ts.reduce((sum, t) => sum + t.amount, 0)] *)
Definition sum_amounts (ts : list Tx) : Z :=
  fold_left (fun sum t => sum + t_amount t) ts 0.

(** A [Record<string, { count, revenue }>] that is filled key by key, as
    the list of its own entries. *)
Fixpoint tally (key : string) (a : Z) (acc : list (string * (Z * Z)))
    : list (string * (Z * Z)) :=
  match acc with
  | [] => [(key, (0 + 1, 0 + a))]
  | (k, (count, revenue)) :: rest =>
      if String.eqb k key then (k, (count + 1, revenue + a)) :: rest
      else (k, (count, revenue)) :: tally key a rest
  end.

(** [if (!o[key]) o[key] = { count: 0, revenue: 0 }; o[key].count++;
    o[key].revenue += a] on an object that started empty: under an inherited
    name the lookup finds something that is not the object's own, no entry
    is made, and the object stays as it is. *)
Definition tally_key (key : string) (a : Z) (acc : list (string * (Z * Z)))
    : list (string * (Z * Z)) :=
  if inherited key then acc else tally key a acc.

(** [t.metadata?.serviceType || "unknown"] and
    [t.metadata?.customerName || "Unknown"] *)
Definition service_key (t : Tx) : string :=
  or_str (t_metadata t ≫= m_serviceType) "unknown".

Definition customer_key (t : Tx) : string :=
  or_str (t_metadata t ≫= m_customerName) "Unknown".

Record Report := mkReport {
  totalRevenue : Z;
  totalTips : Z;
  totalExpenses : Z;
  netIncome : Z;
  bookingCount : Z;
  byServiceType : list (string * (Z * Z));
  byCustomer : list (string * (Z * Z))
}.

(** [details] of the report; an entry of [byServiceType] is
    [(type, (count, revenue))], one of [byCustomer] is
    [(name, (bookings, revenue))]. *)
Definition revenue_report (config : Config) (params : ReportParams)
    (ledger : list (string * Tx)) : Report :=
  let transactions := report_query config params ledger in
  let incomeTransactions := List.filter (fun t => t_amount t >? 0) transactions in
  let expenseTransactions := List.filter (fun t => t_amount t <? 0) transactions in
  let tipTransactions :=
    List.filter (fun t => String.eqb (t_category t) "tips") transactions in
  let serviceTransactions :=
    List.filter (fun t => String.eqb (t_category t) "auto-detailing")
                incomeTransactions in
  let totalRevenue := sum_amounts serviceTransactions in
  let totalTips := sum_amounts tipTransactions in
  let totalExpenses := Z.abs (sum_amounts expenseTransactions) in
  let netIncome := totalRevenue + totalTips - totalExpenses in
  let byServiceType :=
    fold_left
      (fun acc t => tally_key (service_key t) (t_amount t) acc)
      serviceTransactions [] in
  let byCustomer :=
    if truthy_bool (includeCustomerBreakdown params)
    then fold_left
           (fun acc t => tally_key (customer_key t) (t_amount t) acc)
           serviceTransactions []
    else [] in
  {| totalRevenue := totalRevenue;
     totalTips := totalTips;
     totalExpenses := totalExpenses;
     netIncome := netIncome;
     bookingCount := Z.of_nat (length serviceTransactions);
     byServiceType := byServiceType;
     byCustomer := byCustomer |}.

(** *** Tool: customer lifetime value *)

Record LtvParams := mkLtvParams {
  lp_customerId : option string;
  lp_customerName : string
}.

(** [where("entity", "==", config.entityId),
    where("metadata.customerName", "==", params.customerName),
    orderBy("date")] *)
Definition ltv_query (config : Config) (params : LtvParams)
    (ledger : list (string * Tx)) : list Tx :=
  sort (fun a b => String.leb (t_date a) (t_date b))
    (List.filter
       (fun t => String.eqb (t_entity t) (entityId config)
                 && match t_metadata t ≫= m_customerName with
                    | Some name => String.eqb name (lp_customerName params)
                    | None => false
                    end)
       (snd <$> ledger)).

(** The money fields of [details]; the fields [tenureMonths],
    [monthlyValue], [firstBooking] and [lastBooking] need the engine's
    reading of the date strings and are left out. *)
Record Ltv := mkLtv {
  l_customerName : string;
  l_totalRevenue : Z;
  l_totalTips : Z;
  ltv : Z;
  l_bookingCount : Z;
  avgBookingValue : Q
}.

Definition customer_ltv (config : Config) (params : LtvParams)
    (ledger : list (string * Tx)) : Ltv :=
  let transactions := ltv_query config params ledger in
  let serviceTransactions :=
    List.filter (fun t => String.eqb (t_category t) "auto-detailing") transactions in
  let tipTransactions :=
    List.filter (fun t => String.eqb (t_category t) "tips") transactions in
  let totalRevenue := sum_amounts serviceTransactions in
  let totalTips := sum_amounts tipTransactions in
  let bookingCount := Z.of_nat (length serviceTransactions) in
  let avgBookingValue :=
    if bookingCount >? 0
    then (inject_Z totalRevenue / inject_Z bookingCount)%Q
    else 0%Q in
  {| l_customerName := lp_customerName params;
     l_totalRevenue := totalRevenue;
     l_totalTips := totalTips;
     ltv := totalRevenue + totalTips;
     l_bookingCount := bookingCount;
     avgBookingValue := avgBookingValue |}.

End Ledger.

Module LedgerProps.
Import JS JSObject FinanceSync Ledger.

(** A transaction that the report's query selects. *)
Definition in_report (config : Config) (params : ReportParams) (t : Tx) : bool :=
  String.eqb (t_entity t) (entityId config)
  && String.leb (rp_startDate params) (t_date t)
  && String.leb (t_date t) (rp_endDate params).

(** The sums of the counts and of the revenues of a tally. *)
Definition tally_count (acc : list (string * (Z * Z))) : Z :=
  foldr (fun e n => fst (snd e) + n) 0 acc.

Definition tally_revenue (acc : list (string * (Z * Z))) : Z :=
  foldr (fun e n => snd (snd e) + n) 0 acc.

(** The sum of the amounts of the transactions that satisfy a test. *)
Definition sum_where (p : Tx -> bool) (ts : list Tx) : Z :=
  foldr (fun t n => (if p t then t_amount t else 0) + n) 0 ts.

(** The three kinds of transaction that the report adds up. *)
Definition is_service (config : Config) (params : ReportParams) (t : Tx) : bool :=
  in_report config params t
  && ((t_amount t >? 0) && String.eqb (t_category t) "auto-detailing").

Definition is_tip (config : Config) (params : ReportParams) (t : Tx) : bool :=
  in_report config params t && String.eqb (t_category t) "tips".

Definition is_expense (config : Config) (params : ReportParams) (t : Tx) : bool :=
  in_report config params t && (t_amount t <? 0).

(** The number of transactions that satisfy a test. *)
Definition count_where (p : Tx -> bool) (ts : list Tx) : Z :=
  foldr (fun t n => (if p t then 1 else 0) + n) 0 ts.

(** A transaction that the query of the lifetime value selects. *)
Definition of_customer (config : Config) (params : LtvParams) (t : Tx) : bool :=
  String.eqb (t_entity t) (entityId config)
  && match t_metadata t ≫= m_customerName with
     | Some name => String.eqb name (lp_customerName params)
     | None => false
     end.

Definition customer_service (config : Config) (params : LtvParams) (t : Tx) : bool :=
  of_customer config params t && String.eqb (t_category t) "auto-detailing".

Definition customer_tip (config : Config) (params : LtvParams) (t : Tx) : bool :=
  of_customer config params t && String.eqb (t_category t) "tips".

(** A service transaction with an amount that is not above zero. *)
Definition unpaid_service (t : Tx) : bool :=
  String.eqb (t_category t) "auto-detailing" && (t_amount t <=? 0).

Definition example_config : Config := mkConfig "sahr-auto" "sahr-etransfer" false.

Definition january : ReportParams :=
  mkReportParams "2026-01-01" "2026-01-31" (Some true).

Definition wax_expense : ExpenseParams :=
  mkExpenseParams "Wax" 40 supplies (Some "2026-01-10"%string) None.

Definition negative_tip : TipParams :=
  mkTipParams "Ann" (Some "c1"%string) (-5) (Some "2026-01-12"%string)
              (Some "b1"%string) None.

(** A ledger with one paid wash. *)
Definition one_wash : list (string * Tx) :=
  [ ("tx0"%string,
     mkTx "2026-01-16" "Car Wash - Bob" 60 "CAD" "sahr-etransfer" "auto-detailing"
          "crm-sync" "sahr-auto" "sahr-crm"
          (Some (mkTxMetadata (Some "b2"%string) (Some "c2"%string)
                              (Some "Bob"%string) (Some "wash"%string) None))) ].

Definition ann : LtvParams := mkLtvParams None "Ann".

Definition bob : LtvParams := mkLtvParams None "Bob".

(** A ledger with one service transaction that was synced for nothing. *)
Definition free_detail : list (string * Tx) :=
  [ ("tx0"%string,
     mkTx "2026-01-15" "Full Detail - Ann" 0 "CAD" "sahr-cash" "auto-detailing"
          "crm-sync" "sahr-auto" "sahr-crm"
          (Some (mkTxMetadata (Some "b1"%string) (Some "c1"%string)
                              (Some "Ann"%string) (Some "full_detail"%string)
                              None))) ].

End LedgerProps.

(* ------------------------------------------------------------------------- *)
(** ** Further notions used to state properties of the finance tools *)
(* ------------------------------------------------------------------------- *)

Module FinanceProps.
Import JS JSObject FinanceSync.

(** The tables [SERVICE_CATEGORIES], [PAYMENT_ACCOUNTS] and [serviceNames]
    are object literals: under a name that every object inherits a lookup
    yields a function and not one of their strings.  A payment method and a
    service type for which the lookups find what the tables hold. *)
Definition plain_lookup (paymentMethod serviceType : string) : bool :=
  negb (inherited (toLowerCase paymentMethod)) && negb (inherited serviceType).

(** The bookings of a list as the bulk tool looks them up. *)
Definition plain_bookings (db : Firestore) (defaultPaymentMethod : option string)
    (bookingIds : list string) : bool :=
  forallb
    (fun id =>
       match sahr_bookings db !! id with
       | Some b =>
           plain_lookup
             (or_str (paymentMethod b) (or_str defaultPaymentMethod "etransfer"))
             (serviceType b)
       | None => true
       end)
    bookingIds.

(** The account that a payment method resolves to. *)
Definition account_of (config : Config) (paymentMethod : string) : string :=
  or_str (PAYMENT_ACCOUNTS !! toLowerCase paymentMethod) (defaultAccount config).

Definition known_accounts : list string :=
  ["sahr-etransfer"; "sahr-stripe"; "sahr-cash"; "sahr-debit"]%string.

(** A booking that the bulk tool passes over. *)
Definition flagged (b : BookingData) : Prop := truthy_bool (financeSynced b) = true.

(** No booking of the list is left unflagged in the store. *)
Definition all_settled (db : Firestore) (bookingIds : list string) : Prop :=
  forall id b, id ∈ bookingIds -> sahr_bookings db !! id = Some b -> flagged b.

(** The reply of the bulk tool for a booking that it passes over. *)
Definition passed_over (db : Firestore) (bookingId : string) : BulkResult :=
  match sahr_bookings db !! bookingId with
  | None => mkBulkResult bookingId false None (Some "Not found"%string)
  | Some _ => mkBulkResult bookingId false None (Some "Already synced"%string)
  end.

(** The sum of the amounts of posted transactions. *)
Definition total_amount (txs : list (string * Transaction)) : Z :=
  foldr (fun tx acc => amount (snd tx) + acc) 0 txs.

(** What the ledger shows of a posted transaction, the document id and the
    metadata left aside. *)
Definition posted_line (tx : string * Transaction)
    : string * Z * string * string * string :=
  (tx_date (snd tx), amount (snd tx), category (snd tx),
   accountId (snd tx), description (snd tx)).

(** The service transaction that the bulk tool posts for a booking. *)
Definition bulk_transaction (config : Config) (bookingId : string)
    (booking : BookingData) (defaultPaymentMethod : option string) : Transaction :=
  {| tx_date := appointmentDate booking;
     description :=
       getServiceDescription (serviceType booking) (customerName booking);
     amount := price booking;
     currency := "CAD";
     accountId :=
       account_of config
         (or_str (paymentMethod booking) (or_str defaultPaymentMethod "etransfer"));
     category :=
       or_str (SERVICE_CATEGORIES !! serviceType booking) "auto-detailing";
     categorySource := "crm-sync";
     entity := entityId config;
     source := "sahr-crm";
     metadata :=
       {| md_bookingId := bookingId;
          md_customerId := Some (customerId booking);
          md_customerName := customerName booking;
          md_serviceType := Some (serviceType booking);
          md_tipAmount := None |} |}.

(** The bulk tool continued from a state. *)
Definition bulk_from (newDocId : nat -> string) (config : Config) (now : Z)
    (defaultPaymentMethod : option string) (st : BulkState)
    (bookingIds : list string) : BulkState :=
  fold_left (bulk_sync_step newDocId config now defaultPaymentMethod) bookingIds st.

End FinanceProps.

Module MoreExamples.
Import JS Scheduler Props Examples.

(** The 15:00 slot of the day with the booking at 18:00. *)
Definition slot_at_15 : TimeSlot :=
  mkTimeSlot jan15 (mkHHMM 15 0) false (Some (to_conflict evening_booking)).

(** A caller in a hurry who prefers evenings. *)
Definition asap_evening : SuggestParams :=
  mkSuggestParams "Ann" None (Some evening) None (Some asap).

Definition evening_suggestion : Suggestion :=
  mkSuggestion jan15 (mkHHMM 17 0) 160
               "matches preferred day, soon, popular time".

(** A store in which every afternoon hour of the asap window is taken. *)
Definition busy_afternoons : list BookingDoc :=
  (fun d => mkBookingDoc "bk" "Ann" d (mkHHMM 12 0) None scheduled "coating")
  <$> seqZ jan15 4.

Definition asap_afternoon : SuggestParams :=
  mkSuggestParams "Ann" None (Some afternoon) (Some "coating"%string) (Some asap).

End MoreExamples.

(* ------------------------------------------------------------------------- *)
(** ** Facts about the runtime notions *)
(* ------------------------------------------------------------------------- *)

Section RuntimeFacts.
Import JS.

Lemma elem_of_List_filter {A} (f : A -> bool) (l : list A) (x : A) :
  x ∈ List.filter f l <-> x ∈ l /\ f x = true.
Proof. rewrite !list_elem_of_In. apply filter_In. Qed.

Lemma MS_PER_DAY_pos : 0 < MS_PER_DAY.
Proof. reflexivity. Qed.

Lemma toISODate_of_isodate d : toISODate (Date_of_isodate d) = d.
Proof. unfold toISODate, Date_of_isodate. apply Z.div_mul. discriminate. Qed.

(** In a zone without clock changes the runtime notions are plain
    arithmetic. *)
Lemma addDays_fixed (tz t n : Z) : addDays tz t n = t + n * MS_PER_DAY.
Proof. unfold addDays, UTC, LocalTime. cbn [offset_at offset_for fixed]. lia. Qed.

Lemma setHours_fixed (tz t h m : Z) :
  setHours tz t h m
  = ((t + tz) / MS_PER_DAY) * MS_PER_DAY - tz + (h * 60 + m) * MS_PER_MINUTE.
Proof. unfold setHours, UTC, LocalTime. cbn [offset_at offset_for fixed]. lia. Qed.

Lemma getDay_fixed (tz t : Z) : getDay tz t = ((t + tz) / MS_PER_DAY + 4) mod 7.
Proof. reflexivity. Qed.

Lemma fixed_regular (tz since : Z) : regular tz since.
Proof.
  intros t n _ _. cbn [offset_at offset_for fixed].
  replace (tz - tz) with 0 by lia. unfold MS_PER_HOUR, MS_PER_MINUTE. lia.
Qed.

Lemma toISODate_addDays (tz t n : Z) : toISODate (addDays tz t n) = toISODate t + n.
Proof. rewrite addDays_fixed. unfold toISODate. apply Z.div_add. discriminate. Qed.

Lemma addDays_of_isodate (tz d n : Z) :
  addDays tz (Date_of_isodate d) n = Date_of_isodate (d + n).
Proof. rewrite addDays_fixed. unfold Date_of_isodate. lia. Qed.

Lemma addDays_addDays (tz t m n : Z) :
  addDays tz (addDays tz t m) n = addDays tz t (m + n).
Proof. rewrite !addDays_fixed. lia. Qed.

(** In a regular zone a step of [n] days is within an hour of [n] times 24
    hours. *)
Lemma addDays_regular zone since t n :
  regular zone since -> since <= t -> 0 <= n ->
  t + n * MS_PER_DAY - MS_PER_HOUR <= addDays zone t n
  <= t + n * MS_PER_DAY + MS_PER_HOUR.
Proof.
  intros Hreg Ht Hn. unfold addDays, UTC.
  specialize (Hreg t n Ht Hn). unfold LocalTime in *. lia.
Qed.

Lemma toISODate_mono t u : t <= u -> toISODate t <= toISODate u.
Proof. intros Htu. unfold toISODate. apply Z.div_le_mono; [reflexivity|exact Htu]. Qed.

Lemma Date_of_isodate_le d e :
  Date_of_isodate d <= Date_of_isodate e <-> d <= e.
Proof.
  unfold Date_of_isodate. pose proof MS_PER_DAY_pos. split; [nia | nia].
Qed.

Lemma StronglySorted_bind {A B} (R1 : relation A) (R2 : relation B)
    (f : A -> list B) (l : list A) :
  StronglySorted R1 l ->
  (forall x, x ∈ l -> StronglySorted R2 (f x)) ->
  (forall x y a b, R1 x y -> a ∈ f x -> b ∈ f y -> R2 a b) ->
  StronglySorted R2 (l ≫= f).
Proof.
  intros Hl Hf Hcross. induction Hl as [|x l Hl IH Hx]; [constructor|].
  rewrite bind_cons. apply StronglySorted_app_2.
  - intros a b Ha Hb. apply list_elem_of_bind in Hb as (y & Hb & Hy).
    rewrite Forall_forall in Hx. eapply Hcross; [apply Hx, Hy|exact Ha|exact Hb].
  - apply Hf. apply list_elem_of_here.
  - apply IH. intros y Hy. apply Hf. apply list_elem_of_further. exact Hy.
Qed.

Lemma elem_of_sort_insert {A} (before : A -> A -> bool) x y l :
  y ∈ sort_insert before x l <-> y = x \/ y ∈ l.
Proof.
  induction l as [|z l IH]; cbn [sort_insert].
  - rewrite elem_of_cons. reflexivity.
  - destruct (before x z).
    + rewrite elem_of_cons. reflexivity.
    + rewrite !elem_of_cons, IH. tauto.
Qed.

Lemma elem_of_sort {A} (before : A -> A -> bool) y l :
  y ∈ sort before l <-> y ∈ l.
Proof.
  induction l as [|x l IH]; cbn [sort]; [reflexivity|].
  rewrite elem_of_sort_insert, elem_of_cons, IH. reflexivity.
Qed.

Lemma sort_insert_sorted {A} (before : A -> A -> bool) x l :
  (forall a b, before a b = false -> before b a = true) ->
  (forall a b c, before a b = true -> before b c = true -> before a c = true) ->
  StronglySorted (fun a b => before a b = true) l ->
  StronglySorted (fun a b => before a b = true) (sort_insert before x l).
Proof.
  intros Htotal Htrans. induction 1 as [|y l Hl IH Hy]; cbn [sort_insert].
  - repeat constructor.
  - destruct (before x y) eqn:Hxy.
    + constructor; [constructor; assumption|].
      constructor; [exact Hxy|].
      eapply Forall_impl; [exact Hy|]. intros z Hyz. eapply Htrans; eassumption.
    + constructor; [exact IH|].
      apply Forall_forall. intros z Hz.
      apply elem_of_sort_insert in Hz as [->|Hz]; [apply Htotal, Hxy|].
      rewrite Forall_forall in Hy. apply Hy, Hz.
Qed.

Lemma sort_sorted {A} (before : A -> A -> bool) l :
  (forall a b, before a b = false -> before b a = true) ->
  (forall a b c, before a b = true -> before b c = true -> before a c = true) ->
  StronglySorted (fun a b => before a b = true) (sort before l).
Proof.
  intros Htotal Htrans. induction l as [|x l IH]; cbn [sort]; [constructor|].
  apply sort_insert_sorted; assumption.
Qed.

Lemma StronglySorted_weaken {A} (R R' : relation A) l :
  (forall a b, R a b -> R' a b) -> StronglySorted R l -> StronglySorted R' l.
Proof.
  intros HR. induction 1 as [|x l Hl IH Hx]; constructor; [exact IH|].
  eapply Forall_impl; [exact Hx|]. intros y. apply HR.
Qed.

End RuntimeFacts.

(* ------------------------------------------------------------------------- *)
(** ** The availability tool *)
(* ------------------------------------------------------------------------- *)

Section AvailabilityFacts.
Import JS Scheduler Props.

Lemma hour_guard_spec config dur h :
  hour_guard config dur h = true <-> 60 * h + dur <= 60 * workingHours_end config.
Proof.
  unfold hour_guard. rewrite Qle_bool_iff.
  unfold Qle, Qminus, Qplus, Qopp, inject_Z. simpl. lia.
Qed.

Lemma hour_guard_last_hour config dur h :
  hour_guard config dur h = true <-> h <= last_hour config dur.
Proof.
  rewrite hour_guard_spec. unfold last_hour.
  pose proof (Z.div_mod (60 * workingHours_end config - dur) 60 ltac:(lia)).
  pose proof (Z.mod_pos_bound (60 * workingHours_end config - dur) 60 ltac:(lia)).
  lia.
Qed.

Lemma hour_fuel_eq config dur :
  hour_fuel config dur
  = Z.to_nat (last_hour config dur - workingHours_start config + 1).
Proof.
  unfold hour_fuel, last_hour, Qfloor, Qminus, Qplus, Qopp, inject_Z. simpl.
  change (Z.pos (1 * 60)) with 60.
  replace (workingHours_end config * 60 + - dur * 1)
    with (60 * workingHours_end config - dur) by lia.
  reflexivity.
Qed.

(** With enough fuel the hour loop walks the whole range. *)
Lemma hour_loop_closed fuel config tz dur d bs h :
  last_hour config dur - h + 1 <= Z.of_nat fuel ->
  hour_loop fuel config tz dur d bs h
  = make_slot tz dur d bs <$> seqZ h (last_hour config dur - h + 1).
Proof.
  revert h. induction fuel as [|fuel IH]; intros h Hfuel.
  - rewrite seqZ_nil by lia. reflexivity.
  - cbn [hour_loop].
    destruct (hour_guard config dur h) eqn:Hg.
    + apply hour_guard_last_hour in Hg.
      rewrite seqZ_cons by lia. rewrite fmap_cons. f_equal.
      rewrite IH by lia. do 2 f_equal; lia.
    + assert (~ h <= last_hour config dur) as Hn
        by (rewrite <- hour_guard_last_hour; congruence).
      rewrite seqZ_nil by lia. reflexivity.
Qed.

Lemma day_loop_closed fuel config (tz : Z) dur existing d e :
  e - d + 1 <= Z.of_nat fuel ->
  day_loop fuel config tz dur existing (Date_of_isodate e) (Date_of_isodate d)
  = seqZ d (e - d + 1) ≫= day_slots config tz dur existing.
Proof.
  revert d. induction fuel as [|fuel IH]; intros d Hfuel.
  - rewrite seqZ_nil by lia. reflexivity.
  - cbn [day_loop].
    destruct (Date_of_isodate d <=? Date_of_isodate e) eqn:Hle.
    + apply Z.leb_le in Hle. apply (proj1 (Date_of_isodate_le d e)) in Hle.
      rewrite seqZ_cons by lia. rewrite bind_cons.
      rewrite toISODate_of_isodate, addDays_of_isodate.
      f_equal.
      * rewrite hour_loop_closed by (rewrite hour_fuel_eq; lia). reflexivity.
      * rewrite IH by lia. do 2 f_equal; lia.
    + apply Z.leb_gt in Hle.
      assert (~ d <= e) by (rewrite <- Date_of_isodate_le; lia).
      rewrite seqZ_nil by lia. reflexivity.
Qed.

Lemma day_fuel_of_isodate d e :
  e - d + 1 <= Z.of_nat (day_fuel (Date_of_isodate d) (Date_of_isodate e)).
Proof.
  unfold day_fuel, Date_of_isodate.
  replace (e * MS_PER_DAY - d * MS_PER_DAY) with ((e - d) * 24 * MS_PER_HOUR)
    by (unfold MS_PER_DAY, MS_PER_HOUR, MS_PER_MINUTE; lia).
  rewrite Z.div_mul by discriminate. lia.
Qed.

(** The day loop, cursor by cursor, in any zone. *)
Lemma day_loop_cursors fuel config zone dur existing endDate cur :
  day_loop fuel config zone dur existing endDate cur
  = day_cursors fuel zone endDate cur
    ≫= (fun c => day_slots config zone dur existing (toISODate c)).
Proof.
  revert cur. induction fuel as [|fuel IH]; intros cur; [reflexivity|].
  cbn [day_loop day_cursors]. destruct (cur <=? endDate); [|reflexivity].
  rewrite bind_cons, IH. f_equal.
  rewrite hour_loop_closed by (rewrite hour_fuel_eq; lia). reflexivity.
Qed.

Lemma availability_slots_visited config zone sahr_bookings params :
  slots (check_availability config zone sahr_bookings params)
  = visited zone params
    ≫= (fun c => day_slots config zone (requested_duration config params)
                   (existing_of sahr_bookings params) (toISODate c)).
Proof.
  unfold check_availability, visited, range_end, requested_duration, existing_of,
    range_end.
  cbn [slots]. rewrite day_loop_cursors.
  destruct (p_endDate params) as [e|]; reflexivity.
Qed.

(** The cursors of a day loop do not pass its end; more fuel changes
    nothing in a regular zone. *)
Lemma day_cursors_le fuel zone endDate cur c :
  c ∈ day_cursors fuel zone endDate cur -> c <= endDate.
Proof.
  revert cur. induction fuel as [|fuel IH]; intros cur; cbn [day_cursors].
  - intros H. inversion H.
  - destruct (Z.leb_spec cur endDate) as [Hle|Hgt]; [|intros H; inversion H].
    rewrite elem_of_cons. intros [->|Hc]; [assumption|]. eapply IH, Hc.
Qed.

Lemma day_cursors_ge fuel zone since endDate cur c :
  regular zone since -> since <= cur ->
  c ∈ day_cursors fuel zone endDate cur -> cur <= c.
Proof.
  intros Hreg. revert cur.
  induction fuel as [|fuel IH]; intros cur Hsince; cbn [day_cursors].
  - intros H. inversion H.
  - destruct (cur <=? endDate); [|intros H; inversion H].
    pose proof (addDays_regular zone since cur 1 Hreg Hsince ltac:(lia)) as Hstep.
    assert (cur <= addDays zone cur 1) as Hnext
      by (unfold MS_PER_DAY, MS_PER_HOUR, MS_PER_MINUTE in *; lia).
    rewrite elem_of_cons. intros [->|Hc]; [lia|].
    apply IH in Hc; lia.
Qed.

Lemma day_cursors_fuel fuel extra zone since endDate cur :
  regular zone since -> since <= cur ->
  (endDate - cur) / MS_PER_HOUR + 1 <= Z.of_nat fuel ->
  day_cursors (fuel + extra) zone endDate cur = day_cursors fuel zone endDate cur.
Proof.
  intros Hreg. revert cur. induction fuel as [|fuel IH]; intros cur Hsince Hfuel.
  - assert (endDate < cur) as Hlt.
    { destruct (Z.lt_ge_cases endDate cur) as [Hlt|Hge]; [exact Hlt|].
      assert (0 <= (endDate - cur) / MS_PER_HOUR)
        by (apply Z.div_pos; [lia|reflexivity]).
      lia. }
    destruct extra as [|extra]; [reflexivity|]. cbn [Nat.add day_cursors].
    destruct (Z.leb_spec cur endDate); [lia|reflexivity].
  - cbn [Nat.add day_cursors]. destruct (Z.leb_spec cur endDate); [|reflexivity].
    pose proof (addDays_regular zone since cur 1 Hreg Hsince ltac:(lia)) as Hstep.
    f_equal. apply IH;
      [unfold MS_PER_DAY, MS_PER_HOUR, MS_PER_MINUTE in *; lia|].
    assert ((endDate - addDays zone cur 1) / MS_PER_HOUR
            <= (endDate - cur - 23 * MS_PER_HOUR) / MS_PER_HOUR) as Hdiv
      by (apply Z.div_le_mono; [reflexivity|];
          unfold MS_PER_DAY, MS_PER_HOUR, MS_PER_MINUTE in *; lia).
    replace (endDate - cur - 23 * MS_PER_HOUR)
      with (endDate - cur + (-23) * MS_PER_HOUR) in Hdiv by lia.
    rewrite Z.div_add in Hdiv by discriminate. lia.
Qed.

(** In a zone without clock changes the cursors are 24 hours apart. *)
Lemma day_cursors_fixed fuel (tz : Z) endDate cur :
  (endDate - cur) / MS_PER_DAY + 1 <= Z.of_nat fuel ->
  day_cursors fuel tz endDate cur
  = (fun k => cur + k * MS_PER_DAY) <$> seqZ 0 ((endDate - cur) / MS_PER_DAY + 1).
Proof.
  revert cur. induction fuel as [|fuel IH]; intros cur Hfuel.
  - rewrite seqZ_nil by lia. reflexivity.
  - cbn [day_cursors]. destruct (Z.leb_spec cur endDate) as [Hle|Hgt].
    + assert (0 <= (endDate - cur) / MS_PER_DAY)
        by (apply Z.div_pos; [lia|reflexivity]).
      rewrite addDays_fixed.
      assert ((endDate - (cur + 1 * MS_PER_DAY)) / MS_PER_DAY
              = (endDate - cur) / MS_PER_DAY - 1) as Hnext.
      { replace (endDate - (cur + 1 * MS_PER_DAY))
          with (endDate - cur + (-1) * MS_PER_DAY) by lia.
        rewrite Z.div_add by discriminate. lia. }
      rewrite IH by lia. rewrite Hnext.
      rewrite (seqZ_cons 0 ((endDate - cur) / MS_PER_DAY + 1)) by lia.
      rewrite fmap_cons. f_equal; [lia|].
      replace (Z.succ 0) with (1 + 0) by lia.
      rewrite <- fmap_add_seqZ, <- list_fmap_compose.
      replace (Z.pred ((endDate - cur) / MS_PER_DAY + 1))
        with ((endDate - cur) / MS_PER_DAY - 1 + 1) by lia.
      apply list_fmap_ext. intros _ k _. cbn. lia.
    + assert ((endDate - cur) / MS_PER_DAY < 0)
        by (apply Z.div_lt_upper_bound; [reflexivity|lia]).
      rewrite seqZ_nil by lia. reflexivity.
Qed.

(** The slots of the availability tool, day by day and hour by hour, in a
    zone without clock changes. *)
Lemma check_availability_slots config (tz : Z) sahr_bookings params :
  slots (check_availability config tz sahr_bookings params)
  = seqZ (p_date params) (range_end params - p_date params + 1)
    ≫= day_slots config tz (requested_duration config params)
                 (existing_of sahr_bookings params).
Proof.
  unfold check_availability, range_end, requested_duration, existing_of, range_end.
  cbn [slots].
  destruct (p_endDate params) as [e|]; cbn [default from_option id].
  - rewrite day_loop_closed by apply day_fuel_of_isodate. reflexivity.
  - rewrite day_loop_closed by apply day_fuel_of_isodate. reflexivity.
Qed.

Lemma overlap_spec s1 e1 s2 e2 :
  overlap s1 e1 s2 e2 = true <-> s1 < e2 /\ e1 > s2.
Proof. unfold overlap. rewrite andb_true_iff, Z.ltb_lt, Z.gtb_gt. reflexivity. Qed.

Lemma overlap_meet s1 e1 s2 e2 :
  s1 < e1 -> s2 < e2 ->
  (overlap s1 e1 s2 e2 = true <-> intervals_meet s1 e1 s2 e2).
Proof.
  intros H1 H2. rewrite overlap_spec. unfold intervals_meet. split.
  - intros [Ha Hb]. exists (Z.max s1 s2). lia.
  - intros (t & Ha & Hb). lia.
Qed.

Lemma requested_duration_cases config params :
  requested_duration config params ∈ [180; 90; 60; 300; 45].
Proof.
  unfold requested_duration.
  destruct (p_serviceType params) as [[]|]; vm_compute; set_solver.
Qed.

Lemma requested_duration_pos config params :
  0 < requested_duration config params.
Proof.
  pose proof (requested_duration_cases config params) as H.
  set_unfold in H. lia.
Qed.

(** A slot of the tool is [make_slot] at a day of the range and an hour that
    passes the guard, and conversely. *)
Lemma elem_of_slots config (tz : Z) sahr_bookings params s :
  s ∈ slots (check_availability config tz sahr_bookings params)
  <-> exists d h,
        (p_date params <= d <= range_end params)
        /\ (workingHours_start config <= h
            <= last_hour config (requested_duration config params))
        /\ s = make_slot tz (requested_duration config params) d
                 (List.filter (fun b => date b =? d)
                              (existing_of sahr_bookings params)) h.
Proof.
  rewrite check_availability_slots, list_elem_of_bind.
  unfold day_slots. split.
  - intros (d & Hs & Hd). apply list_elem_of_fmap in Hs as (h & -> & Hh).
    apply elem_of_seqZ in Hd. apply elem_of_seqZ in Hh.
    exists d, h. repeat split; lia.
  - intros (d & h & Hd & Hh & ->). exists d. split.
    + apply list_elem_of_fmap. exists h. split; [reflexivity|].
      apply elem_of_seqZ. lia.
    + apply elem_of_seqZ. lia.
Qed.

(** The store's active bookings of a day of the range are among the
    bookings of that day that the tool compares with. *)
Lemma active_booking_in_dayBookings sahr_bookings params b d :
  b ∈ sahr_bookings -> active (doc_status b) = true ->
  doc_appointmentDate b = d -> p_date params <= d <= range_end params ->
  to_conflict b
  ∈ List.filter (fun c => date c =? d) (existing_of sahr_bookings params).
Proof.
  intros Hb Hact Hd Hrange. apply elem_of_List_filter. split.
  - unfold existing_of. apply list_elem_of_fmap. exists b. split; [reflexivity|].
    apply elem_of_sort. unfold where_range_status.
    apply elem_of_List_filter. split; [assumption|].
    unfold active in Hact. rewrite Hact, Hd.
    rewrite !andb_true_iff, !Z.leb_le. lia.
  - cbn. apply Z.eqb_eq. assumption.
Qed.

Lemma dayBookings_from_store sahr_bookings params c d :
  c ∈ List.filter (fun c => date c =? d) (existing_of sahr_bookings params) ->
  exists b, b ∈ sahr_bookings /\ c = to_conflict b
            /\ active (doc_status b) = true /\ doc_appointmentDate b = d.
Proof.
  intros Hc. apply elem_of_List_filter in Hc as [Hc Hd].
  unfold existing_of in Hc. apply list_elem_of_fmap in Hc as (b & -> & Hb).
  apply elem_of_sort in Hb. unfold where_range_status in Hb.
  apply elem_of_List_filter in Hb as [Hb Hf].
  rewrite !andb_true_iff in Hf. destruct Hf as [_ Hs].
  exists b. repeat split; try assumption.
  cbn in Hd. apply Z.eqb_eq in Hd. assumption.
Qed.

Lemma make_slot_available tz dur d bs h :
  available (make_slot tz dur d bs h) = true
  <-> forall c, c ∈ bs ->
        conflicts_with tz dur (parseDateTime tz d (mkHHMM h 0))
          (addMinutes (parseDateTime tz d (mkHHMM h 0)) (dur + BUFFER_MINUTES)) c
        = false.
Proof.
  unfold make_slot. cbn [available]. unfold find_conflict.
  destruct (List.find _ bs) as [c|] eqn:Hfind.
  - apply find_some in Hfind as [Hin Hf].
    split; [intros Ht; cbn in Ht; discriminate|].
    intros Hall. apply list_elem_of_In in Hin. apply Hall in Hin. congruence.
  - split; [|reflexivity]. intros _ c Hc.
    apply list_elem_of_In in Hc.
    apply (find_none _ _ Hfind) in Hc. exact Hc.
Qed.

Lemma make_slot_reason tz dur d bs h c :
  reason (make_slot tz dur d bs h) = Some c ->
  c ∈ bs
  /\ conflicts_with tz dur (parseDateTime tz d (mkHHMM h 0))
       (addMinutes (parseDateTime tz d (mkHHMM h 0)) (dur + BUFFER_MINUTES)) c
     = true.
Proof.
  unfold make_slot. cbn [reason]. unfold find_conflict. intros Hfind.
  apply find_some in Hfind as [Hin Hf]. rewrite list_elem_of_In. split; assumption.
Qed.

Lemma make_slot_flag tz dur d bs h :
  available (make_slot tz dur d bs h)
  = negb (bool_decide (is_Some (reason (make_slot tz dur d bs h)))).
Proof. reflexivity. Qed.

(** Instants of one calendar day compare as their minutes do. *)
Lemma parseDateTime_minutes (tz : Z) d t :
  parseDateTime tz d t
  = parseDateTime tz d (mkHHMM 0 0) + (hours t * 60 + minutes t) * MS_PER_MINUTE.
Proof. unfold parseDateTime. rewrite !setHours_fixed. cbn [hours minutes]. lia. Qed.

Lemma conflicts_with_same_day (tz : Z) dur d h c :
  date c = d ->
  conflicts_with tz dur (parseDateTime tz d (mkHHMM h 0))
    (addMinutes (parseDateTime tz d (mkHHMM h 0)) (dur + BUFFER_MINUTES)) c
  = overlap (h * 60) (h * 60 + dur + BUFFER_MINUTES)
            (hours (time c) * 60 + minutes (time c))
            (hours (time c) * 60 + minutes (time c) + dur + BUFFER_MINUTES).
Proof.
  intros <-. unfold conflicts_with.
  rewrite (parseDateTime_minutes tz (date c) (mkHHMM h 0)).
  rewrite (parseDateTime_minutes tz (date c) (time c)).
  cbn [hours minutes]. unfold addMinutes, overlap, MS_PER_MINUTE.
  f_equal.
  - apply eq_iff_eq_true. rewrite !Z.ltb_lt. lia.
  - apply eq_iff_eq_true. rewrite !Z.gtb_gt. lia.
Qed.

End AvailabilityFacts.

Section AvailabilityClaims.
Import JS Scheduler Props.

Lemma guard_in_Q config dur h :
  (inject_Z h <= inject_Z (workingHours_end config) - Qmake dur 60)%Q
  <-> h <= last_hour config dur.
Proof.
  rewrite <- hour_guard_last_hour. unfold hour_guard.
  rewrite Qle_bool_iff. reflexivity.
Qed.

Lemma reported_None sl h :
  (forall s, s ∈ sl -> slot_time s <> mkHHMM h 0) -> reported sl h = None.
Proof.
  intros Hall. unfold reported.
  destruct (List.find _ sl) as [s|] eqn:Hfind; [|reflexivity].
  apply find_some in Hfind as [Hin Hf]. apply list_elem_of_In in Hin.
  apply andb_true_iff in Hf as [Hh Hm].
  apply Z.eqb_eq in Hh. apply Z.eqb_eq in Hm.
  exfalso. apply (Hall s Hin). destruct (slot_time s). cbn in *. congruence.
Qed.

(** C8.  The availability checker's conflict test between a candidate slot
    occupying [[s1, e1)] and a booking occupying [[s2, e2)] is the half-open
    interval overlap [s1 < e2 /\ e1 > s2], for all intervals (and for
    non-empty intervals that is: they share an instant); a slot is
    reported unavailable exactly when the test holds for some booking of
    the day, and the booking given as the reason passes the test. *)
Theorem conflict_test_is_half_open_overlap :
  (forall s1 e1 s2 e2, overlap s1 e1 s2 e2 = true <-> s1 < e2 /\ e1 > s2)
  /\ (forall s1 e1 s2 e2, s1 < e1 -> s2 < e2 ->
        (overlap s1 e1 s2 e2 = true <-> intervals_meet s1 e1 s2 e2))
  /\ (forall tz dur s1 e1 c,
        let s2 := parseDateTime tz (date c) (time c) in
        let e2 := addMinutes s2 (dur + BUFFER_MINUTES) in
        conflicts_with tz dur s1 e1 c = true <-> s1 < e2 /\ e1 > s2)
  /\ (forall tz dur d bs h,
        let s1 := parseDateTime tz d (mkHHMM h 0) in
        let e1 := addMinutes s1 (dur + BUFFER_MINUTES) in
        (available (make_slot tz dur d bs h) = false
         <-> exists c, c ∈ bs
               /\ s1 < addMinutes (parseDateTime tz (date c) (time c))
                                  (dur + BUFFER_MINUTES)
               /\ e1 > parseDateTime tz (date c) (time c))
        /\ (forall c, reason (make_slot tz dur d bs h) = Some c ->
              c ∈ bs
              /\ s1 < addMinutes (parseDateTime tz (date c) (time c))
                                 (dur + BUFFER_MINUTES)
              /\ e1 > parseDateTime tz (date c) (time c))).
Proof.
  split; [exact overlap_spec|].
  split; [exact overlap_meet|].
  split; [intros; unfold conflicts_with; apply overlap_spec|].
  intros tz dur d bs h s1 e1. split.
  - rewrite <- not_true_iff_false.
    pose proof (make_slot_available tz dur d bs h) as Hav.
    fold s1 in Hav. fold e1 in Hav. rewrite Hav. split.
    + intros Hn.
      destruct (List.find (conflicts_with tz dur s1 e1) bs) as [c|] eqn:Hfind.
      * apply find_some in Hfind as [Hin Hc]. exists c.
        rewrite list_elem_of_In. split; [assumption|].
        unfold conflicts_with in Hc. apply overlap_spec in Hc. exact Hc.
      * exfalso. apply Hn. intros c Hc. apply list_elem_of_In in Hc.
        exact (find_none _ _ Hfind c Hc).
    + intros (c & Hin & Hlt & Hgt) Hall. specialize (Hall c Hin).
      unfold conflicts_with in Hall.
      assert (overlap s1 e1 (parseDateTime tz (date c) (time c))
                (addMinutes (parseDateTime tz (date c) (time c))
                            (dur + BUFFER_MINUTES)) = true) as Ht
        by (apply overlap_spec; split; assumption).
      congruence.
  - intros c Hc. apply make_slot_reason in Hc as [Hin Hc].
    split; [assumption|]. unfold conflicts_with in Hc.
    apply overlap_spec in Hc. exact Hc.
Qed.

Lemma elem_of_slots_visited config zone sahr_bookings params s :
  s ∈ slots (check_availability config zone sahr_bookings params)
  <-> exists c h,
        c ∈ visited zone params
        /\ (workingHours_start config <= h
            <= last_hour config (requested_duration config params))
        /\ s = make_slot zone (requested_duration config params) (toISODate c)
                 (List.filter (fun b => date b =? toISODate c)
                              (existing_of sahr_bookings params)) h.
Proof.
  rewrite availability_slots_visited, list_elem_of_bind.
  unfold day_slots. split.
  - intros (c & Hs & Hc). apply list_elem_of_fmap in Hs as (h & -> & Hh).
    apply elem_of_seqZ in Hh. exists c, h. split; [exact Hc|]. split; [lia|reflexivity].
  - intros (c & h & Hc & Hh & ->). exists c. split; [|exact Hc].
    apply list_elem_of_fmap. exists h. split; [reflexivity|].
    apply elem_of_seqZ. lia.
Qed.

(** The first day of a range that is not empty is visited. *)
Lemma visited_first zone params :
  p_date params <= range_end params ->
  Date_of_isodate (p_date params) ∈ visited zone params.
Proof.
  intros Hrange. unfold visited.
  apply Date_of_isodate_le in Hrange.
  assert (0 <= (Date_of_isodate (range_end params) - Date_of_isodate (p_date params))
               / MS_PER_HOUR) as Hdiv
    by (apply Z.div_pos; [lia|reflexivity]).
  unfold day_fuel.
  destruct (Z.to_nat _) as [|fuel] eqn:Hfuel; [lia|].
  cbn [day_cursors]. destruct (Z.leb_spec (Date_of_isodate (p_date params))
                                 (Date_of_isodate (range_end params))); [|lia].
  apply list_elem_of_here.
Qed.

(** C9.  In any time zone the availability tool produces slots only for
    the integer hours from [workingHours.start] up to
    [workingHours.end - serviceDuration / 60] inclusive, whatever the
    bookings, and for every day for which it produces a slot, the first day
    of the range among them, it produces one for each of these hours; a
    later hour has no slot at all, available or not.  With working hours 9
    to 21 and a 180-minute service no slot is reported for 19:00 or 20:00.
    In a zone without clock changes the days with slots are the days of the
    range. *)
Theorem slots_stop_at_last_start config zone sahr_bookings params :
  let dur := requested_duration config params in
  let sl := slots (check_availability config zone sahr_bookings params) in
  (forall s, s ∈ sl ->
     exists h, slot_time s = mkHHMM h 0
               /\ workingHours_start config <= h
               /\ (inject_Z h <= inject_Z (workingHours_end config) - Qmake dur 60)%Q
               /\ slot_date s <= range_end params)
  /\ (forall s h,
        s ∈ sl ->
        workingHours_start config <= h ->
        (inject_Z h <= inject_Z (workingHours_end config) - Qmake dur 60)%Q ->
        exists s', s' ∈ sl /\ slot_date s' = slot_date s /\ slot_time s' = mkHHMM h 0)
  /\ (forall h,
        p_date params <= range_end params ->
        workingHours_start config <= h ->
        (inject_Z h <= inject_Z (workingHours_end config) - Qmake dur 60)%Q ->
        exists s, s ∈ sl /\ slot_date s = p_date params /\ slot_time s = mkHHMM h 0)
  /\ (forall h,
        ~ (inject_Z h <= inject_Z (workingHours_end config) - Qmake dur 60)%Q ->
        reported sl h = None)
  /\ (workingHours_end config = 21 -> dur = 180 ->
      reported sl 19 = None /\ reported sl 20 = None)
  /\ (forall tz : Z,
        zone = fixed tz ->
        (forall s, s ∈ sl -> p_date params <= slot_date s <= range_end params)
        /\ (forall d h,
              p_date params <= d <= range_end params ->
              workingHours_start config <= h ->
              (inject_Z h <= inject_Z (workingHours_end config) - Qmake dur 60)%Q ->
              exists s, s ∈ sl /\ slot_date s = d /\ slot_time s = mkHHMM h 0)).
Proof.
  intros dur sl. subst dur.
  set (dur := requested_duration config params) in *.
  assert (forall s, s ∈ sl ->
     exists h, slot_time s = mkHHMM h 0
               /\ workingHours_start config <= h
               /\ (inject_Z h <= inject_Z (workingHours_end config) - Qmake dur 60)%Q
               /\ slot_date s <= range_end params) as Hsound.
  { intros s Hs. apply elem_of_slots_visited in Hs as (c & h & Hc & Hh & ->).
    exists h. rewrite guard_in_Q. cbn [slot_time slot_date make_slot].
    fold dur in Hh. apply day_cursors_le, toISODate_mono in Hc.
    rewrite toISODate_of_isodate in Hc.
    split; [reflexivity|]. split; [lia|]. split; [lia|exact Hc]. }
  assert (forall h,
        ~ (inject_Z h <= inject_Z (workingHours_end config) - Qmake dur 60)%Q ->
        reported sl h = None) as Hlate.
  { intros h Hn. apply reported_None. intros s Hs Ht.
    destruct (Hsound s Hs) as (h' & Ht' & _ & Hq & _).
    rewrite Ht in Ht'. injection Ht' as ->. contradiction. }
  split; [exact Hsound|]. split; [|split; [|split; [exact Hlate|split]]].
  - intros s h Hs Hh Hq. apply guard_in_Q in Hq.
    apply elem_of_slots_visited in Hs as (c & h' & Hc & _ & ->).
    exists (make_slot zone dur (toISODate c)
              (List.filter (fun b => date b =? toISODate c)
                           (existing_of sahr_bookings params)) h).
    split; [|split; reflexivity].
    apply elem_of_slots_visited. exists c, h. split; [exact Hc|].
    split; [fold dur; lia|reflexivity].
  - intros h Hrange Hh Hq. apply guard_in_Q in Hq.
    exists (make_slot zone dur (toISODate (Date_of_isodate (p_date params)))
              (List.filter
                 (fun b => date b =? toISODate (Date_of_isodate (p_date params)))
                 (existing_of sahr_bookings params)) h).
    split; [|split; [|reflexivity]].
    + apply elem_of_slots_visited.
      exists (Date_of_isodate (p_date params)), h.
      split; [apply visited_first, Hrange|]. split; [fold dur; lia|reflexivity].
    + cbn [slot_date make_slot]. apply toISODate_of_isodate.
  - intros He Hdur.
    split; apply Hlate; rewrite guard_in_Q; unfold last_hour;
      rewrite He, Hdur; change ((60 * 21 - 180) / 60) with 18; lia.
  - intros tz ->. split.
    + intros s Hs. apply elem_of_slots in Hs as (d & h & Hd & _ & ->).
      exact Hd.
    + intros d h Hd Hh Hq. apply guard_in_Q in Hq.
      exists (make_slot tz dur d
                (List.filter (fun b => date b =? d)
                             (existing_of sahr_bookings params)) h).
      split; [|split; reflexivity].
      apply elem_of_slots. exists d, h. split; [exact Hd|].
      split; [fold dur; lia|reflexivity].
Qed.

(** C1 (as amended).  Every slot of the availability tool carries one
    availability flag, set exactly when no conflicting booking is recorded
    for it, and a slot is flagged available exactly when its occupied
    interval [[start, start + requested duration + 30 min)] shares no
    instant with the interval [[booking start, booking start + requested
    duration + 30 min)] of any booking of that date whose status is
    scheduled, confirmed or in_progress: the tool gives every existing
    booking the duration of the requested service. *)
Theorem available_slot_clear_of_active_bookings
    config (tz : Z) sahr_bookings params s :
  s ∈ slots (check_availability config tz sahr_bookings params) ->
  let occupied := requested_duration config params + BUFFER_MINUTES in
  (available s = true <-> reason s = None)
  /\ (available s = true
      <-> forall b,
            b ∈ sahr_bookings ->
            active (doc_status b) = true ->
            doc_appointmentDate b = slot_date s ->
            ~ intervals_meet
                (slot_start tz s) (addMinutes (slot_start tz s) occupied)
                (booking_start tz b) (addMinutes (booking_start tz b) occupied)).
Proof.
  intros Hs occupied.
  apply elem_of_slots in Hs as (d & h & Hd & Hh & ->).
  pose proof (requested_duration_pos config params) as Hpos.
  assert (forall t, t < addMinutes t occupied) as Hnonempty
    by (intros t; unfold addMinutes, occupied, BUFFER_MINUTES; lia).
  split.
  - rewrite make_slot_flag.
    destruct (reason _) as [c|]; cbn; split; congruence.
  - unfold slot_start, booking_start. cbn [slot_date slot_time make_slot].
    split.
    + intros Hav b Hb Hact Hdate.
      pose proof (active_booking_in_dayBookings _ params b d Hb Hact Hdate Hd) as Hin.
      pose proof (proj1 (make_slot_available _ _ _ _ _) Hav _ Hin) as Hno.
      unfold conflicts_with in Hno. cbn [date time to_conflict] in Hno.
      fold occupied in Hno.
      rewrite <- overlap_meet by apply Hnonempty.
      rewrite Hno. discriminate.
    + intros Hall. apply make_slot_available. intros c Hc.
      apply dayBookings_from_store in Hc as (b & Hb & -> & Hact & Hdate).
      specialize (Hall b Hb Hact Hdate).
      rewrite <- overlap_meet in Hall by apply Hnonempty.
      unfold conflicts_with. cbn [date time to_conflict]. fold occupied.
      destruct (overlap _ _ _ _); [contradiction|reflexivity].
Qed.

Lemma make_slot_single (tz : Z) dur d c h :
  date c = d ->
  make_slot tz dur d [c] h
  = let ov := overlap (h * 60) (h * 60 + dur + BUFFER_MINUTES)
                (hours (time c) * 60 + minutes (time c))
                (hours (time c) * 60 + minutes (time c) + dur + BUFFER_MINUTES) in
    {| slot_date := d;
       slot_time := mkHHMM h 0;
       available := negb ov;
       reason := if ov then Some c else None |}.
Proof.
  intros Hd. unfold make_slot, find_conflict. cbn [List.find].
  rewrite (conflicts_with_same_day tz dur d h c Hd).
  cbv zeta. destruct (overlap _ _ _ _); reflexivity.
Qed.

(** C3 (as amended).  With working hours 9 to 21, a requested service of
    180 minutes and one active booking at 18:00 on the day, the tool
    reports the slots 9:00 to 14:00 available and the slots 15:00 to 18:00
    unavailable, each with that booking as the reason, and no other slot:
    a service started at 15:00, 16:00 or 17:00 would still be occupied at
    18:00, and 19:00 is past the last start the tool considers. *)
Theorem evening_booking_blocks_from_15 config (tz : Z) sahr_booking params d :
  workingHours_start config = 9 ->
  workingHours_end config = 21 ->
  requested_duration config params = 180 ->
  p_date params = d ->
  p_endDate params = None ->
  doc_appointmentDate sahr_booking = d ->
  doc_appointmentTime sahr_booking = mkHHMM 18 0 ->
  active (doc_status sahr_booking) = true ->
  slots (check_availability config tz [sahr_booking] params)
  = ((fun h => mkTimeSlot d (mkHHMM h 0) true None) <$> [9; 10; 11; 12; 13; 14])
    ++ ((fun h => mkTimeSlot d (mkHHMM h 0) false (Some (to_conflict sahr_booking)))
        <$> [15; 16; 17; 18]).
Proof.
  intros Hstart Hend Hdur Hpd Hpe Hbd Hbt Hact.
  rewrite check_availability_slots.
  unfold range_end. rewrite Hpe, Hpd. cbn [default from_option id].
  replace (d - d + 1) with 1 by lia.
  rewrite seqZ_cons by lia. rewrite seqZ_nil by lia.
  rewrite bind_cons. cbn [mbind list_bind]. rewrite app_nil_r.
  unfold day_slots, last_hour. rewrite Hstart, Hend, Hdur.
  change (seqZ 9 ((60 * 21 - 180) / 60 - 9 + 1))
    with [9; 10; 11; 12; 13; 14; 15; 16; 17; 18].
  assert (existing_of [sahr_booking] params = [to_conflict sahr_booking]) as ->.
  { unfold existing_of, where_range_status, range_end.
    rewrite Hpe, Hpd. cbn [default from_option id List.filter].
    unfold active in Hact. rewrite Hbd, Hact, Z.leb_refl. reflexivity. }
  cbn [List.filter date to_conflict]. rewrite Hbd, Z.eqb_refl.
  cbn [fmap list_fmap app].
  rewrite !make_slot_single by (cbn; assumption).
  cbn [time to_conflict]. rewrite Hbt. reflexivity.
Qed.

Lemma conflict_test_is_half_open_overlap_witness :
  overlap 0 210 180 390 = true <-> 0 < 390 /\ 210 > 180.
Proof. exact (proj1 conflict_test_is_half_open_overlap 0 210 180 390). Defined.

Lemma slots_stop_at_last_start_witness :
  reported Examples.evening_slots 19 = None
  /\ reported Examples.evening_slots 20 = None.
Proof.
  apply (proj1 (proj2 (proj2 (proj2 (proj2
    (slots_stop_at_last_start Examples.default_config Examples.edmonton
       [Examples.evening_booking] Examples.full_detail_on_jan15))))));
    reflexivity.
Defined.

Lemma available_slot_clear_of_active_bookings_witness :
  ~ intervals_meet
      (slot_start Examples.edmonton Examples.slot_at_9)
      (addMinutes (slot_start Examples.edmonton Examples.slot_at_9) (180 + 30))
      (booking_start Examples.edmonton Examples.evening_booking)
      (addMinutes (booking_start Examples.edmonton Examples.evening_booking)
                  (180 + 30)).
Proof.
  refine (proj1 (proj2
    (available_slot_clear_of_active_bookings Examples.default_config
       Examples.edmonton [Examples.evening_booking]
       Examples.full_detail_on_jan15 Examples.slot_at_9 _)) _
    Examples.evening_booking _ _ _).
  - vm_compute. repeat constructor.
  - reflexivity.
  - apply list_elem_of_here.
  - reflexivity.
  - reflexivity.
Defined.

(** C1 as stated fails: with a coating (300 minutes) booked at 9:00 and a
    wash (45 minutes) requested, the 11:00 slot is flagged available
    although the coating, with its buffer, occupies the bay until 14:30. *)
Lemma available_slot_inside_longer_booking :
  Examples.slot_at_11 ∈ Examples.wash_slots
  /\ available Examples.slot_at_11 = true
  /\ active (doc_status Examples.coating_booking) = true
  /\ doc_appointmentDate Examples.coating_booking = slot_date Examples.slot_at_11
  /\ requested_duration Examples.default_config Examples.wash_on_jan15 = 45
  /\ own_duration Examples.default_config Examples.coating_booking = 300
  /\ ~ (forall s b,
          s ∈ Examples.wash_slots ->
          available s = true ->
          b ∈ [Examples.coating_booking] ->
          active (doc_status b) = true ->
          doc_appointmentDate b = slot_date s ->
          ~ intervals_meet
              (slot_start Examples.edmonton s)
              (addMinutes (slot_start Examples.edmonton s)
                 (requested_duration Examples.default_config Examples.wash_on_jan15
                  + BUFFER_MINUTES))
              (booking_start Examples.edmonton b)
              (addMinutes (booking_start Examples.edmonton b)
                 (own_duration Examples.default_config b + BUFFER_MINUTES))).
Proof.
  assert (Examples.slot_at_11 ∈ Examples.wash_slots) as Hin
    by (vm_compute; repeat constructor).
  split; [exact Hin|].
  split; [reflexivity|]. split; [reflexivity|]. split; [reflexivity|].
  split; [reflexivity|]. split; [reflexivity|].
  intros Hall.
  apply (Hall Examples.slot_at_11 Examples.coating_booking Hin eq_refl
           (list_elem_of_here _ _) eq_refl eq_refl).
  exists (slot_start Examples.edmonton Examples.slot_at_11).
  vm_compute. repeat split; discriminate.
Qed.

Lemma evening_booking_blocks_from_15_witness :
  Examples.evening_slots
  = ((fun h => mkTimeSlot Examples.jan15 (mkHHMM h 0) true None)
     <$> [9; 10; 11; 12; 13; 14])
    ++ ((fun h => mkTimeSlot Examples.jan15 (mkHHMM h 0) false
                    (Some (to_conflict Examples.evening_booking)))
        <$> [15; 16; 17; 18]).
Proof.
  apply (evening_booking_blocks_from_15 Examples.default_config
           Examples.edmonton Examples.evening_booking
           Examples.full_detail_on_jan15 Examples.jan15);
    reflexivity.
Defined.

(** C3 as stated fails: in its scenario the 17:00 slot is reported
    unavailable and no 19:00 slot is reported at all. *)
Lemma evening_example_as_stated_fails :
  reported Examples.evening_slots 17 = Some false
  /\ reported Examples.evening_slots 19 = None
  /\ ~ (reported Examples.evening_slots 18 = Some false
        /\ reported Examples.evening_slots 19 = Some false
        /\ (forall h, 9 <= h <= 17 ->
              reported Examples.evening_slots h = Some true)).
Proof.
  split; [reflexivity|]. split; [reflexivity|].
  intros (_ & H19 & _). vm_compute in H19. discriminate.
Qed.

End AvailabilityClaims.

(* ------------------------------------------------------------------------- *)
(** ** The suggestion tool *)
(* ------------------------------------------------------------------------- *)

Section SuggestionFacts.
Import JS Scheduler Props.

Lemma Qceiling_60 dur :
  60 * (Qceiling (Qmake dur 60) - 1) < dur <= 60 * Qceiling (Qmake dur 60).
Proof.
  unfold Qceiling, Qfloor, Qopp. cbn [Qnum Qden].
  pose proof (Z.div_mod (- dur) 60 ltac:(lia)).
  pose proof (Z.mod_pos_bound (- dur) 60 ltac:(lia)).
  lia.
Qed.

Lemma hasConflict_spec dur ex d h :
  hasConflict dur ex d h = true
  <-> exists b, b ∈ ex /\ fst b = d
                /\ hours (snd b) <= h < hours (snd b) + Qceiling (Qmake dur 60).
Proof.
  unfold hasConflict. rewrite existsb_exists. split.
  - intros (b & Hin & Hb). exists b. rewrite list_elem_of_In.
    cbv beta in Hb.
    destruct (fst b =? d) eqn:Hd; cbn [negb] in Hb; [|discriminate].
    apply Z.eqb_eq in Hd. apply andb_true_iff in Hb as [H1 H2].
    apply Z.geb_le in H1. apply Z.ltb_lt in H2. repeat split; lia || assumption.
  - intros (b & Hin & Hd & Hh). exists b. rewrite <- list_elem_of_In.
    split; [assumption|].
    apply Z.eqb_eq in Hd. cbv beta. rewrite Hd. cbn [negb].
    apply andb_true_iff. rewrite Z.geb_le, Z.ltb_lt. lia.
Qed.

Lemma make_suggestion_date params tz today cur h :
  sg_date (make_suggestion params tz today cur h) = toISODate cur.
Proof.
  unfold make_suggestion.
  destruct (dayMatch _ _), (sp_urgency params) as [[]|],
    ((h =? 17) || (h =? 18)); reflexivity.
Qed.

Lemma make_suggestion_time params tz today cur h :
  sg_time (make_suggestion params tz today cur h) = mkHHMM h 0.
Proof.
  unfold make_suggestion.
  destruct (dayMatch _ _), (sp_urgency params) as [[]|],
    ((h =? 17) || (h =? 18)); reflexivity.
Qed.

Lemma make_suggestion_score params tz today cur h :
  score (make_suggestion params tz today cur h)
  = tool_score (sp_preferredDays params) (sp_urgency params)
               (getDayName tz cur) ((cur - today) / MS_PER_DAY) h.
Proof.
  unfold make_suggestion, tool_score, dayMatch.
  destruct (sp_preferredDays params) as [l|];
    [destruct (existsb _ l)|];
    destruct (sp_urgency params) as [[]|], ((h =? 17) || (h =? 18));
    cbn [score]; lia.
Qed.

Lemma hasConflict_any_spec dur ex d h :
  hasConflict_any dur ex d h = true
  <-> exists n b, dur = Some n /\ b ∈ ex /\ fst b = d
                  /\ hours (snd b) <= h < hours (snd b) + Qceiling (Qmake n 60).
Proof.
  destruct dur as [n|]; cbn [hasConflict_any].
  - rewrite hasConflict_spec. split.
    + intros (b & Hb). exists n, b. split; [reflexivity|exact Hb].
    + intros (n' & b & [= <-] & Hb). exists b. exact Hb.
  - split; [discriminate|]. intros (n & b & Hn & _). discriminate.
Qed.

(** What the hour loop yields, in which order, and that it yields all. *)
Lemma suggest_hour_loop_elem fuel params zone today dur ex cur rangeEnd hour s :
  s ∈ suggest_hour_loop fuel params zone today dur ex cur rangeEnd hour ->
  exists h, hour <= h < rangeEnd
            /\ hasConflict_any dur ex (toISODate cur) h = false
            /\ s = make_suggestion params zone today cur h.
Proof.
  revert hour. induction fuel as [|fuel IH]; intros hour; cbn [suggest_hour_loop].
  - intros H. inversion H.
  - destruct (hour <? rangeEnd) eqn:Hlt; [|intros H; inversion H].
    apply Z.ltb_lt in Hlt.
    destruct (hasConflict_any dur ex (toISODate cur) hour) eqn:Hc.
    + intros Hs. apply IH in Hs as (h & Hh & Hn & ->).
      exists h. repeat split; try assumption; lia.
    + rewrite elem_of_cons. intros [->|Hs].
      * exists hour. repeat split; try assumption; lia.
      * apply IH in Hs as (h & Hh & Hn & ->).
        exists h. repeat split; try assumption; lia.
Qed.

Lemma suggest_hour_loop_complete fuel params zone today dur ex cur rangeEnd hour h :
  hour <= h < rangeEnd -> h - hour < Z.of_nat fuel ->
  hasConflict_any dur ex (toISODate cur) h = false ->
  make_suggestion params zone today cur h
  ∈ suggest_hour_loop fuel params zone today dur ex cur rangeEnd hour.
Proof.
  revert hour. induction fuel as [|fuel IH]; intros hour Hh Hfuel Hn; [lia|].
  cbn [suggest_hour_loop].
  destruct (hour <? rangeEnd) eqn:Hlt; [|apply Z.ltb_ge in Hlt; lia].
  destruct (Z.eq_dec h hour) as [->|Hne].
  - rewrite Hn. apply list_elem_of_here.
  - assert (make_suggestion params zone today cur h
            ∈ suggest_hour_loop fuel params zone today dur ex cur rangeEnd (hour + 1))
      as Hin by (apply IH; [lia|lia|assumption]).
    destruct (hasConflict_any dur ex (toISODate cur) hour);
      [assumption|apply list_elem_of_further; assumption].
Qed.

Lemma suggest_hour_loop_sorted fuel params zone today dur ex cur rangeEnd hour :
  StronglySorted enum_lt
    (suggest_hour_loop fuel params zone today dur ex cur rangeEnd hour).
Proof.
  revert hour. induction fuel as [|fuel IH]; intros hour; cbn [suggest_hour_loop].
  - constructor.
  - destruct (hour <? rangeEnd); [|constructor].
    destruct (hasConflict_any dur ex (toISODate cur) hour); [apply IH|].
    constructor; [apply IH|].
    apply Forall_forall. intros s Hs.
    apply suggest_hour_loop_elem in Hs as (h & Hh & _ & ->).
    right. rewrite !make_suggestion_date, !make_suggestion_time. cbn. lia.
Qed.

(** The day loop, cursor by cursor, in any zone. *)
Lemma suggest_day_loop_cursors fuel params zone today dur ex range endDate cur :
  suggest_day_loop fuel params zone today dur ex range endDate cur
  = day_cursors fuel zone endDate cur
    ≫= (fun c => suggest_hour_loop (Z.to_nat (snd range - fst range)) params zone
                   today dur ex c (snd range) (fst range)).
Proof.
  revert cur. induction fuel as [|fuel IH]; intros cur; [reflexivity|].
  cbn [suggest_day_loop day_cursors]. destruct (cur <=? endDate); [|reflexivity].
  rewrite bind_cons, IH. reflexivity.
Qed.

Lemma generate_suggestions_eq config zone today sahr_bookings params :
  generate_suggestions config zone today sahr_bookings params
  = suggest_day_loop
      (day_fuel (suggest_start zone today params) (suggest_end zone today params))
      params zone today (suggest_duration config params)
      (suggest_existing zone today sahr_bookings params) (suggest_range params)
      (suggest_end zone today params) (suggest_start zone today params).
Proof.
  unfold generate_suggestions, suggest_start, suggest_end, suggest_duration,
    suggest_existing, suggest_range, suggest_start, suggest_end.
  destruct (urgency_window zone today (sp_urgency params)). reflexivity.
Qed.

(** The generated suggestions are the slots of the days that the loop
    visits and of the band's hours that have no conflict. *)
Lemma elem_of_generate_suggestions config zone today sahr_bookings params s :
  s ∈ generate_suggestions config zone today sahr_bookings params
  <-> exists c h,
        c ∈ suggest_cursors zone today params
        /\ (fst (suggest_range params) <= h < snd (suggest_range params))
        /\ hasConflict_any (suggest_duration config params)
                           (suggest_existing zone today sahr_bookings params)
                           (toISODate c) h = false
        /\ s = make_suggestion params zone today c h.
Proof.
  rewrite generate_suggestions_eq, suggest_day_loop_cursors, list_elem_of_bind.
  fold (suggest_cursors zone today params). split.
  - intros (c & Hs & Hc). apply suggest_hour_loop_elem in Hs as (h & Hh & Hn & ->).
    exists c, h. repeat split; try assumption; lia.
  - intros (c & h & Hc & Hh & Hn & ->). exists c. split; [|exact Hc].
    apply suggest_hour_loop_complete; [lia|lia|exact Hn].
Qed.

Lemma addDays_0 (tz t : Z) : addDays tz t 0 = t.
Proof. rewrite addDays_fixed. lia. Qed.

Lemma addDays_le (tz t k : Z) : 0 <= k -> t <= addDays tz t k.
Proof. rewrite addDays_fixed. pose proof MS_PER_DAY_pos. nia. Qed.

(** In a zone without clock changes the loop visits the instants a whole
    number of days after its start. *)
Lemma suggest_cursors_fixed (tz : Z) today params c :
  c ∈ suggest_cursors tz today params
  <-> exists k, 0 <= k /\ c = addDays tz (suggest_start tz today params) k
                /\ c <= suggest_end tz today params.
Proof.
  unfold suggest_cursors.
  set (start := suggest_start tz today params).
  set (stop := suggest_end tz today params).
  assert ((stop - start) / MS_PER_DAY + 1 <= Z.of_nat (day_fuel start stop)) as Hfuel.
  { unfold day_fuel. destruct (Z.le_gt_cases start stop) as [Hle|Hgt].
    - assert ((stop - start) / MS_PER_DAY <= (stop - start) / MS_PER_HOUR)
        by (apply Z.div_le_compat_l; [lia|unfold MS_PER_DAY, MS_PER_HOUR,
              MS_PER_MINUTE; lia]).
      assert (0 <= (stop - start) / MS_PER_DAY)
        by (apply Z.div_pos; [lia|reflexivity]).
      lia.
    - assert ((stop - start) / MS_PER_DAY < 0)
        by (apply Z.div_lt_upper_bound; [reflexivity|lia]).
      lia. }
  rewrite (day_cursors_fixed _ tz stop start Hfuel), list_elem_of_fmap.
  pose proof MS_PER_DAY_pos as Hpos. split.
  - intros (k & -> & Hk). apply elem_of_seqZ in Hk. exists k.
    rewrite addDays_fixed. split; [lia|]. split; [reflexivity|].
    assert (k * MS_PER_DAY <= stop - start); [|lia].
    pose proof (Z.mul_div_le (stop - start) MS_PER_DAY Hpos). nia.
  - intros (k & Hk & -> & Hle). rewrite addDays_fixed in *. exists k.
    split; [reflexivity|]. apply elem_of_seqZ.
    assert (k <= (stop - start) / MS_PER_DAY)
      by (apply Z.div_le_lower_bound; [exact Hpos|lia]).
    lia.
Qed.

Lemma elem_of_generate_suggestions_fixed config (tz : Z) today sahr_bookings params s :
  s ∈ generate_suggestions config tz today sahr_bookings params
  <-> exists k h,
        let cur := addDays tz (suggest_start tz today params) k in
        0 <= k /\ cur <= suggest_end tz today params
        /\ (fst (suggest_range params) <= h < snd (suggest_range params))
        /\ hasConflict_any (suggest_duration config params)
                           (suggest_existing tz today sahr_bookings params)
                           (toISODate cur) h = false
        /\ s = make_suggestion params tz today cur h.
Proof.
  rewrite elem_of_generate_suggestions. cbv zeta. split.
  - intros (c & h & Hc & Hh & Hn & ->).
    apply suggest_cursors_fixed in Hc as (k & Hk & -> & Hle).
    exists k, h. repeat split; try assumption; lia.
  - intros (k & h & Hk & Hle & Hh & Hn & ->).
    exists (addDays tz (suggest_start tz today params) k), h.
    split; [apply suggest_cursors_fixed; exists k; repeat split; assumption|].
    repeat split; try assumption; lia.
Qed.

(** In a zone without clock changes the suggestions are generated by date
    ascending, then hour ascending. *)
Lemma day_cursors_increasing fuel (tz : Z) endDate cur :
  StronglySorted (fun a b => toISODate a < toISODate b)
                 (day_cursors fuel tz endDate cur).
Proof.
  revert cur. induction fuel as [|fuel IH]; intros cur; cbn [day_cursors].
  - constructor.
  - destruct (cur <=? endDate); [|constructor].
    constructor; [apply IH|]. apply Forall_forall. intros c Hc.
    apply (day_cursors_ge _ _ _ _ _ _ (fixed_regular tz _) (Z.le_refl _)) in Hc.
    apply toISODate_mono in Hc. rewrite toISODate_addDays in Hc. lia.
Qed.

Lemma generate_suggestions_sorted config (tz : Z) today sahr_bookings params :
  StronglySorted enum_lt (generate_suggestions config tz today sahr_bookings params).
Proof.
  rewrite generate_suggestions_eq, suggest_day_loop_cursors.
  apply (StronglySorted_bind (fun a b => toISODate a < toISODate b));
    [apply day_cursors_increasing| |].
  - intros c _. apply suggest_hour_loop_sorted.
  - intros c c' a b Hlt Ha Hb.
    apply suggest_hour_loop_elem in Ha as (h & _ & _ & ->).
    apply suggest_hour_loop_elem in Hb as (h' & _ & _ & ->).
    left. rewrite !make_suggestion_date. exact Hlt.
Qed.

(** Sorting by score: a permutation, ranked, stable. *)
Lemma sort_insert_perm {A} (before : A -> A -> bool) x l :
  sort_insert before x l ≡ₚ x :: l.
Proof.
  induction l as [|y l IH]; cbn [sort_insert]; [reflexivity|].
  destruct (before x y); [reflexivity|].
  rewrite IH. apply Permutation_swap.
Qed.

Lemma sort_perm {A} (before : A -> A -> bool) l : sort before l ≡ₚ l.
Proof.
  induction l as [|x l IH]; cbn [sort]; [reflexivity|].
  rewrite sort_insert_perm, IH. reflexivity.
Qed.

Lemma by_score_desc_spec a b : by_score_desc a b = true <-> score b <= score a.
Proof. unfold by_score_desc. rewrite Z.leb_le. lia. Qed.

Lemma sort_insert_ranked x l :
  StronglySorted ranked l -> (forall y, y ∈ l -> enum_lt x y) ->
  StronglySorted ranked (sort_insert by_score_desc x l).
Proof.
  induction l as [|y l IH]; intros Hsorted Hx; cbn [sort_insert].
  - repeat constructor.
  - apply StronglySorted_cons in Hsorted as [Hy Hl].
    rewrite Forall_forall in Hy.
    destruct (by_score_desc x y) eqn:Hb.
    + apply by_score_desc_spec in Hb.
      constructor; [constructor; [assumption|apply Forall_forall; assumption]|].
      apply Forall_forall. intros z Hz.
      pose proof (Hx z Hz) as Hxz.
      assert (score z <= score x) as Hzx.
      { apply elem_of_cons in Hz as [->|Hz]; [assumption|].
        specialize (Hy z Hz). unfold ranked in Hy. lia. }
      destruct (Z.eq_dec (score x) (score z)) as [Heq|Hne];
        [right; split; assumption|left; lia].
    + assert (score x < score y) as Hlt.
      { destruct (Z.le_gt_cases (score y) (score x)) as [Hle|Hgt]; [|lia].
        apply by_score_desc_spec in Hle. congruence. }
      constructor.
      * apply IH; [assumption|]. intros z Hz. apply Hx. set_solver.
      * apply Forall_forall. intros z Hz.
        apply elem_of_sort_insert in Hz as [->|Hz]; [left; lia|apply Hy; assumption].
Qed.

Lemma sort_ranked l :
  StronglySorted enum_lt l -> StronglySorted ranked (sort by_score_desc l).
Proof.
  induction l as [|x l IH]; intros Hsorted; cbn [sort]; [constructor|].
  apply StronglySorted_cons in Hsorted as [Hx Hl].
  apply sort_insert_ranked; [apply IH; assumption|].
  intros y Hy. apply elem_of_sort in Hy.
  rewrite Forall_forall in Hx. apply Hx. assumption.
Qed.

Lemma StronglySorted_lookup {A} (R : relation A) l i j a b :
  StronglySorted R l -> (i < j)%nat ->
  l !! i = Some a -> l !! j = Some b -> R a b.
Proof.
  intros Hsorted. revert i j.
  induction Hsorted as [|x l Hl IH Hx]; intros i j Hij Hi Hj; [inversion Hi|].
  destruct j as [|j]; [lia|]. cbn in Hj.
  destruct i as [|i]; cbn in Hi.
  - injection Hi as ->. rewrite Forall_forall in Hx.
    apply Hx. eapply list_elem_of_lookup_2. eassumption.
  - apply (IH i j); [lia|assumption|assumption].
Qed.

End SuggestionFacts.

Section SuggestionClaims.
Import JS JSObject Scheduler Props.

Lemma suggest_times_subseteq config zone today sahr_bookings params s :
  s ∈ suggest_times config zone today sahr_bookings params ->
  s ∈ generate_suggestions config zone today sahr_bookings params.
Proof.
  unfold suggest_times. intros Hs.
  apply subseteq_take in Hs. apply elem_of_sort in Hs. exact Hs.
Qed.

Lemma suggest_window_cases (tz : Z) today params :
  (suggest_start tz today params = today
   \/ suggest_start tz today params = addDays tz today 7)
  /\ suggest_end tz today params <= addDays tz today 14
  /\ (sp_urgency params = Some asap ->
      suggest_start tz today params = today
      /\ suggest_end tz today params = addDays tz today 3)
  /\ (sp_urgency params = Some next_week ->
      suggest_start tz today params = addDays tz today 7).
Proof.
  unfold suggest_start, suggest_end, urgency_window. rewrite !addDays_fixed.
  destruct (sp_urgency params) as [[]|]; cbn [fst snd];
    (split; [auto|split; [unfold MS_PER_DAY; lia|split; intros [=]; auto]]).
Qed.

Lemma asap_daysFromNow (tz : Z) today params k :
  sp_urgency params = Some asap ->
  (addDays tz (suggest_start tz today params) k - today) / MS_PER_DAY = k.
Proof.
  intros Hu. unfold suggest_start. rewrite Hu. cbn [urgency_window fst].
  rewrite addDays_fixed.
  replace (today + k * MS_PER_DAY - today) with (k * MS_PER_DAY) by lia.
  apply Z.div_mul. discriminate.
Qed.

Lemma tool_score_daysFromNow preferredDays urgency dayName n m hour :
  (urgency = Some asap -> n = m) ->
  tool_score preferredDays urgency dayName n hour
  = tool_score preferredDays urgency dayName m hour.
Proof.
  intros Hnm. unfold tool_score.
  destruct urgency as [[]|]; try reflexivity. rewrite Hnm; reflexivity.
Qed.

Lemma suggest_duration_plain config params :
  inherited (or_str (sp_serviceType params) "full_detail") = false ->
  suggest_duration config params
  = Some (serviceDuration_of config (sp_serviceType params)).
Proof. intros Hplain. unfold suggest_duration, serviceDuration_any. rewrite Hplain. reflexivity. Qed.

(** The tool's conflict test, read on the store. *)
Lemma hasConflict_on_store config zone today sahr_bookings params d h :
  inherited (or_str (sp_serviceType params) "full_detail") = false ->
  hasConflict_any (suggest_duration config params)
                  (suggest_existing zone today sahr_bookings params) d h = true
  <-> exists b,
        b ∈ sahr_bookings
        /\ booked_over zone today params
             (Qceiling (Qmake (serviceDuration_of config (sp_serviceType params)) 60))
             b d h.
Proof.
  intros Hplain. rewrite (suggest_duration_plain config params Hplain).
  cbn [hasConflict_any]. rewrite hasConflict_spec.
  unfold suggest_existing, booked_over, where_range_status. split.
  - intros (e & He & Hd & Hh). apply list_elem_of_fmap in He as (b & -> & Hb).
    apply elem_of_List_filter in Hb as [Hb Hf].
    rewrite !andb_true_iff, !Z.leb_le in Hf. cbn [fst snd] in Hd, Hh.
    exists b. split; [exact Hb|]. split; [tauto|]. split; [tauto|].
    split; [exact Hd|exact Hh].
  - intros (b & Hb & Hst & Hwin & Hd & Hh).
    exists (doc_appointmentDate b, doc_appointmentTime b).
    split; [|split; [exact Hd|exact Hh]].
    apply list_elem_of_fmap. exists b. split; [reflexivity|].
    apply elem_of_List_filter. split; [exact Hb|].
    rewrite !andb_true_iff, !Z.leb_le. tauto.
Qed.

(** C4.  In the suggestion tool, called for a service type that is a key of
    the duration table or no name that every object inherits, an hour [h]
    of a day conflicts exactly when some booking that the tool read from
    the store for that day has a start hour [bookingHour] with
    [bookingHour <= h < bookingHour + ceil(duration / 60)], where
    [duration] is the requested service's duration - 180, 90, 60, 300 or 45
    minutes by the table, the configured default for any other type - and
    no buffer enters; no returned suggestion has such a conflict, and on
    every day that the loop visits the hours of the band that get a
    suggestion are those without one. *)
Theorem suggest_conflict_is_hour_span config zone today sahr_bookings params :
  inherited (or_str (sp_serviceType params) "full_detail") = false ->
  let dur := serviceDuration_of config (sp_serviceType params) in
  let span := Qceiling (Qmake dur 60) in
  let conflicting d h :=
    exists b, b ∈ sahr_bookings /\ booked_over zone today params span b d h in
  (60 * (span - 1) < dur <= 60 * span)
  /\ (forall d h,
        hasConflict_any (suggest_duration config params)
                        (suggest_existing zone today sahr_bookings params) d h
        = true
        <-> conflicting d h)
  /\ (forall s,
        s ∈ suggest_times config zone today sahr_bookings params ->
        ~ conflicting (sg_date s) (hours (sg_time s)))
  /\ (forall c h,
        c ∈ suggest_cursors zone today params ->
        fst (suggest_range params) <= h < snd (suggest_range params) ->
        ((exists s,
            s ∈ generate_suggestions config zone today sahr_bookings params
            /\ sg_date s = toISODate c /\ sg_time s = mkHHMM h 0)
         <-> ~ conflicting (toISODate c) h))
  /\ (forall key duration,
        (key, duration)
        ∈ [ ("full_detail", 180); ("interior", 90); ("exterior", 60);
            ("coating", 300); ("wash", 45) ]%string ->
        or_str (sp_serviceType params) "full_detail" = key -> dur = duration)
  /\ (or_str (sp_serviceType params) "full_detail"
      ∉ ["full_detail"; "interior"; "exterior"; "coating"; "wash"]%string ->
      dur = defaultServiceDuration config).
Proof.
  intros Hplain dur span conflicting. split; [apply Qceiling_60|].
  assert (forall d h,
            hasConflict_any (suggest_duration config params)
              (suggest_existing zone today sahr_bookings params) d h = true
            <-> conflicting d h) as Htest
    by (intros d h; apply hasConflict_on_store, Hplain).
  split; [exact Htest|]. split; [|split; [|split]].
  - intros s Hs. apply suggest_times_subseteq in Hs.
    apply elem_of_generate_suggestions in Hs as (c & h & _ & _ & Hn & ->).
    rewrite make_suggestion_date, make_suggestion_time. cbn [hours].
    rewrite <- Htest, Hn. discriminate.
  - intros c h Hc Hh. rewrite <- Htest. split.
    + intros (s & Hs & Hdate & Htime).
      apply elem_of_generate_suggestions in Hs as (c' & h' & _ & _ & Hn & ->).
      rewrite make_suggestion_date in Hdate.
      rewrite make_suggestion_time in Htime. injection Htime as ->.
      rewrite <- Hdate, Hn. discriminate.
    + intros Hn. apply not_true_is_false in Hn.
      exists (make_suggestion params zone today c h).
      split; [|split; [apply make_suggestion_date|apply make_suggestion_time]].
      apply elem_of_generate_suggestions. exists c, h.
      split; [exact Hc|]. split; [exact Hh|]. split; [exact Hn|reflexivity].
  - intros key duration Hentry Hkey. unfold dur, serviceDuration_of.
    rewrite Hkey. clear Hkey.
    repeat (apply elem_of_cons in Hentry as [[= -> ->]|Hentry]; [reflexivity|]).
    inversion Hentry.
  - intros Hother. unfold dur, serviceDuration_of.
    unfold SERVICE_DURATIONS. rewrite not_elem_of_list_to_map_1 by exact Hother.
    reflexivity.
Qed.

Lemma getDayName_fixed (tz c : Z) :
  toISODate (c + tz) = toISODate c -> getDayName tz c = weekday_of (toISODate c).
Proof.
  intros Hsame. unfold getDayName, weekday_of. rewrite getDay_fixed.
  unfold toISODate in Hsame. rewrite Hsame. reflexivity.
Qed.

(** C6 (as amended).  Every suggestion that the tool returns was generated
    at some instant [c] that its day loop visited - the call time moved on
    by whole local calendar days - and for some hour [h]; its date is the
    UTC date of [c], and its score is 100, plus 20 if the caller gave no
    list of preferred days or the list holds the local weekday of [c], plus
    [max(0, 30 - 5 * daysFromNow)] if the urgency is asap, [daysFromNow]
    being the whole number of 24-hour periods from the call to [c], plus 10
    if [h] is 17 or 18; nothing else enters.  In a zone without clock
    changes [daysFromNow] is then the suggestion's date minus the UTC date
    of the call, and the weekday is that of the suggestion's date when the
    call is made at a time at which the local date is the UTC date. *)
Theorem suggestion_score_terms config zone today sahr_bookings params s :
  s ∈ suggest_times config zone today sahr_bookings params ->
  exists c h,
    c ∈ suggest_cursors zone today params
    /\ sg_date s = toISODate c
    /\ sg_time s = mkHHMM h 0
    /\ score s
       = 100
         + (match sp_preferredDays params with
            | Some l =>
                if existsb (Weekday_eqb (getDayName zone c)) l then 20 else 0
            | None => 20
            end)
         + (match sp_urgency params with
            | Some asap => Z.max 0 (30 - 5 * ((c - today) / MS_PER_DAY))
            | _ => 0
            end)
         + (if (h =? 17) || (h =? 18) then 10 else 0)
    /\ (forall tz : Z,
          zone = fixed tz ->
          (sp_urgency params = Some asap ->
           (c - today) / MS_PER_DAY = sg_date s - toISODate today)
          /\ (toISODate (today + tz) = toISODate today ->
              getDayName zone c = weekday_of (sg_date s))).
Proof.
  intros Hs. apply suggest_times_subseteq in Hs.
  apply elem_of_generate_suggestions in Hs as (c & h & Hc & _ & _ & ->).
  exists c, h. split; [exact Hc|].
  split; [apply make_suggestion_date|].
  split; [apply make_suggestion_time|].
  split; [rewrite make_suggestion_score; reflexivity|].
  intros tz ->. rewrite make_suggestion_date.
  apply suggest_cursors_fixed in Hc as (k & Hk & -> & _). split.
  - intros Hu. rewrite (asap_daysFromNow tz today params k Hu).
    rewrite toISODate_addDays.
    destruct (suggest_window_cases tz today params) as (_ & _ & Hasap & _).
    destruct (Hasap Hu) as [-> _]. lia.
  - intros Hsame. apply getDayName_fixed.
    assert (exists n, addDays tz (suggest_start tz today params) k
                      = today + n * MS_PER_DAY) as [n ->].
    { destruct (suggest_window_cases tz today params) as ([-> | ->] & _);
        rewrite !addDays_fixed; [exists k|exists (7 + k)]; lia. }
    unfold toISODate in *.
    replace (today + n * MS_PER_DAY + tz) with (today + tz + n * MS_PER_DAY) by lia.
    rewrite !Z.div_add by discriminate. lia.
Qed.

Lemma suggestion_score_terms_witness :
  exists c h,
    c ∈ suggest_cursors Examples.edmonton Examples.thursday_morning
          Examples.no_preferences
    /\ sg_date Examples.noon_suggestion = toISODate c
    /\ sg_time Examples.noon_suggestion = mkHHMM h 0
    /\ score Examples.noon_suggestion
       = 100 + 20 + 0 + (if (h =? 17) || (h =? 18) then 10 else 0).
Proof.
  destruct (suggestion_score_terms Examples.default_config Examples.edmonton
              Examples.thursday_morning [] Examples.no_preferences
              Examples.noon_suggestion) as (c & h & Hc & Hd & Ht & Hscore & _).
  - vm_compute. repeat constructor.
  - exists c, h. split; [exact Hc|]. split; [exact Hd|]. split; [exact Ht|exact Hscore].
Defined.

(** C6 as stated fails: with no list of preferred days, flexible urgency
    and the 12:00 slot, the stated terms add up to 100 whatever the
    weekday and the distance in days, and the tool returns the slot with
    score 120. *)
Lemma score_without_preference_list :
  Examples.noon_suggestion
  ∈ suggest_times Examples.default_config Examples.edmonton
                  Examples.thursday_morning [] Examples.no_preferences
  /\ sg_time Examples.noon_suggestion = mkHHMM 12 0
  /\ score Examples.noon_suggestion = 120
  /\ (forall dayName daysFromNow,
        claimed_score (sp_preferredDays Examples.no_preferences)
                      (sp_urgency Examples.no_preferences)
                      dayName daysFromNow 12 = 100)
  /\ ~ (forall s,
          s ∈ suggest_times Examples.default_config Examples.edmonton
                            Examples.thursday_morning [] Examples.no_preferences ->
          exists dayName daysFromNow,
            score s
            = claimed_score (sp_preferredDays Examples.no_preferences)
                            (sp_urgency Examples.no_preferences)
                            dayName daysFromNow (hours (sg_time s))).
Proof.
  assert (Examples.noon_suggestion
          ∈ suggest_times Examples.default_config Examples.edmonton
              Examples.thursday_morning [] Examples.no_preferences) as Hin
    by (vm_compute; repeat constructor).
  split; [exact Hin|]. split; [reflexivity|]. split; [reflexivity|].
  split; [reflexivity|].
  intros Hall. destruct (Hall _ Hin) as (dayName & daysFromNow & Hscore).
  vm_compute in Hscore. discriminate.
Qed.

(** The stable sort keeps the suggestions of one score in their order. *)
Lemma sort_insert_same_score v x l :
  List.filter (fun s => score s =? v) (sort_insert by_score_desc x l)
  = List.filter (fun s => score s =? v) (x :: l).
Proof.
  induction l as [|y l IH]; cbn [sort_insert]; [reflexivity|].
  destruct (by_score_desc x y) eqn:Hb; [reflexivity|].
  assert (score x < score y) as Hlt.
  { destruct (Z.le_gt_cases (score y) (score x)) as [Hle|Hgt]; [|lia].
    apply by_score_desc_spec in Hle. congruence. }
  cbn [List.filter] in *. rewrite IH.
  destruct (Z.eqb_spec (score x) v), (Z.eqb_spec (score y) v);
    try reflexivity; lia.
Qed.

Lemma sort_same_score v l :
  List.filter (fun s => score s =? v) (sort by_score_desc l)
  = List.filter (fun s => score s =? v) l.
Proof.
  induction l as [|x l IH]; cbn [sort]; [reflexivity|].
  rewrite sort_insert_same_score. cbn [List.filter]. rewrite IH. reflexivity.
Qed.

Lemma filter_take_prefix {A} (f : A -> bool) n (l : list A) :
  List.filter f (take n l) `prefix_of` List.filter f l.
Proof.
  exists (List.filter f (drop n l)).
  rewrite <- List.filter_app, take_drop. reflexivity.
Qed.

(** C7.  In any time zone the suggestion tool returns at most five
    suggestions, the first five of the generated ones in descending order
    of score, and the returned suggestions of one score stand in the order
    in which they were generated.  In a zone without clock changes the
    suggestions are generated by date ascending, then hour ascending, so
    that of two returned suggestions with the same score the one with the
    earlier date, or the earlier hour on the same date, comes first. *)
Theorem top_suggestions_ranked_stably config zone today sahr_bookings params :
  let generated := generate_suggestions config zone today sahr_bookings params in
  let top := suggest_times config zone today sahr_bookings params in
  (length top <= 5)%nat
  /\ (exists rest,
        top ++ rest ≡ₚ generated
        /\ ((length top < 5)%nat -> rest = [])
        /\ (forall a b, a ∈ top -> b ∈ rest -> score b <= score a))
  /\ (forall i j a b,
        (i < j)%nat -> top !! i = Some a -> top !! j = Some b ->
        score b <= score a)
  /\ (forall v,
        List.filter (fun s => score s =? v) top
        `prefix_of` List.filter (fun s => score s =? v) generated)
  /\ (forall tz : Z,
        zone = fixed tz ->
        StronglySorted enum_lt generated
        /\ (forall i j a b,
              (i < j)%nat -> top !! i = Some a -> top !! j = Some b ->
              score a = score b -> enum_lt a b)).
Proof.
  intros generated top.
  assert (top = take 5 (sort by_score_desc generated)) as Htop by reflexivity.
  assert (StronglySorted (fun a b => score b <= score a)
                         (sort by_score_desc generated)) as Hdesc.
  { apply (StronglySorted_weaken (fun a b => by_score_desc a b = true)).
    - intros a b. apply by_score_desc_spec.
    - apply sort_sorted.
      + intros a b. unfold by_score_desc. rewrite Z.leb_gt, Z.leb_le. lia.
      + intros a b c. unfold by_score_desc. rewrite !Z.leb_le. lia. }
  rewrite <- (take_drop 5 (sort by_score_desc generated)) in Hdesc.
  rewrite <- Htop in Hdesc.
  split; [rewrite Htop, length_take; lia|]. split; [|split; [|split]].
  - exists (drop 5 (sort by_score_desc generated)).
    split; [rewrite Htop, take_drop; apply sort_perm|]. split.
    + rewrite Htop, length_take. intros Hlen. apply drop_ge. lia.
    + intros a b Ha Hb.
      exact (StronglySorted_app_1_elem_of _ _ _ _ _ Hdesc Ha Hb).
  - intros i j a b Hij Ha Hb.
    apply StronglySorted_app_1_l in Hdesc.
    exact (StronglySorted_lookup _ _ _ _ _ _ Hdesc Hij Ha Hb).
  - intros v. rewrite <- (sort_same_score v generated), Htop.
    apply filter_take_prefix.
  - intros tz ->.
    pose proof (generate_suggestions_sorted config tz today sahr_bookings params)
      as Hgen.
    fold generated in Hgen. split; [exact Hgen|].
    pose proof (sort_ranked generated Hgen) as Hranked.
    rewrite <- (take_drop 5 (sort by_score_desc generated)) in Hranked.
    rewrite <- Htop in Hranked.
    intros i j a b Hij Ha Hb Heq.
    apply StronglySorted_app_1_l in Hranked.
    pose proof (StronglySorted_lookup _ _ _ _ _ _ Hranked Hij Ha Hb) as Hab.
    unfold ranked in Hab. destruct Hab as [Hlt|[_ Hlt]]; [lia|exact Hlt].
Qed.

Lemma suggest_conflict_is_hour_span_witness :
  hasConflict_any
    (suggest_duration Examples.default_config Examples.no_preferences)
    (suggest_existing Examples.edmonton Examples.thursday_morning
                      [Examples.evening_booking] Examples.no_preferences)
    Examples.jan15 20 = true
  <-> exists b,
        b ∈ [Examples.evening_booking]
        /\ booked_over Examples.edmonton Examples.thursday_morning
             Examples.no_preferences 3 b Examples.jan15 20.
Proof.
  exact (proj1 (proj2
    (suggest_conflict_is_hour_span Examples.default_config Examples.edmonton
       Examples.thursday_morning [Examples.evening_booking]
       Examples.no_preferences eq_refl)) Examples.jan15 20).
Defined.

Lemma top_suggestions_ranked_stably_witness :
  (length (suggest_times Examples.default_config Examples.edmonton
             Examples.thursday_morning [Examples.evening_booking]
             Examples.no_preferences) <= 5)%nat.
Proof.
  exact (proj1
    (top_suggestions_ranked_stably Examples.default_config Examples.edmonton
       Examples.thursday_morning [Examples.evening_booking]
       Examples.no_preferences)).
Defined.

End SuggestionClaims.

(* ------------------------------------------------------------------------- *)
(** ** The rebooking tool *)
(* ------------------------------------------------------------------------- *)

Section RebookingClaims.
Import JS Scheduler Props.

Lemma rebooking_interval frequency :
  REBOOKING_INTERVALS !! or_str (frequency_key <$> frequency) "monthly"
  = Some (interval_days frequency).
Proof. destruct frequency as [[]|]; reflexivity. Qed.

Lemma suggest_rebooking_eq (tz : Z) today params :
  suggest_rebooking tz today params
  = Some (if Date_of_isodate (rp_lastBookingDate params
                              + interval_days (rp_frequency params)) <? today
          then toISODate today + 7
          else rp_lastBookingDate params + interval_days (rp_frequency params)).
Proof.
  unfold suggest_rebooking. rewrite rebooking_interval. cbn [mbind option_bind].
  rewrite addDays_of_isodate.
  destruct (_ <? today).
  - rewrite toISODate_addDays. reflexivity.
  - rewrite toISODate_of_isodate. reflexivity.
Qed.

(** C5 (as amended).  In a time zone without clock changes the rebooking
    tool suggests the last booking date plus the interval of the frequency
    (7, 14, 30, 45, 60 or 90 days; 30 without a frequency) as long as the
    call is not later than the UTC midnight at which that date begins; once
    that date has begun or passed it suggests the UTC date of the call plus
    seven days.  For a last booking on 2026-01-01 and a monthly frequency
    that is 2026-01-31 for every call up to the beginning of that date. *)
Theorem rebooking_date_is_last_plus_interval (tz : Z) today params :
  let last := rp_lastBookingDate params in
  let planned := last + interval_days (rp_frequency params) in
  (interval_days (Some weekly) = 7 /\ interval_days (Some biweekly) = 14
   /\ interval_days (Some monthly) = 30 /\ interval_days (Some every_1_5_months) = 45
   /\ interval_days (Some every_2_months) = 60 /\ interval_days (Some quarterly) = 90
   /\ interval_days None = 30)
  /\ (today <= Date_of_isodate planned ->
      suggest_rebooking tz today params = Some planned)
  /\ (Date_of_isodate planned < today ->
      suggest_rebooking tz today params = Some (toISODate today + 7))
  /\ (toISODate today < planned ->
      suggest_rebooking tz today params = Some planned)
  /\ (planned <= toISODate today -> Date_of_isodate planned <> today ->
      suggest_rebooking tz today params = Some (toISODate today + 7))
  /\ (read_isodate "2026-01-01" = Some last ->
      interval_days (rp_frequency params) = 30 ->
      today <= Date_of_isodate planned ->
      show_isodate <$> suggest_rebooking tz today params = Some "2026-01-31"%string).
Proof.
  intros last planned.
  assert (today <= Date_of_isodate planned ->
          suggest_rebooking tz today params = Some planned) as Hkeep.
  { intros Hle. rewrite suggest_rebooking_eq. fold last. fold planned.
    destruct (Z.ltb_spec (Date_of_isodate planned) today); [lia|reflexivity]. }
  assert (Date_of_isodate planned < today ->
          suggest_rebooking tz today params = Some (toISODate today + 7)) as Hsnap.
  { intros Hlt. rewrite suggest_rebooking_eq. fold last. fold planned.
    destruct (Z.ltb_spec (Date_of_isodate planned) today); [reflexivity|lia]. }
  assert (toISODate today * MS_PER_DAY <= today < (toISODate today + 1) * MS_PER_DAY)
    as Hday.
  { unfold toISODate.
    pose proof (Z.mul_div_le today MS_PER_DAY MS_PER_DAY_pos).
    pose proof (Z.mul_succ_div_gt today MS_PER_DAY MS_PER_DAY_pos).
    lia. }
  split; [repeat split|].
  split; [exact Hkeep|]. split; [exact Hsnap|]. split; [|split].
  - intros Hlt. apply Hkeep. unfold Date_of_isodate.
    pose proof MS_PER_DAY_pos. nia.
  - intros Hle Hne. apply Hsnap. unfold Date_of_isodate in *.
    pose proof MS_PER_DAY_pos. nia.
  - intros Hlast Hint Htoday. rewrite (Hkeep Htoday).
    injection Hlast as Hlast. unfold planned. rewrite <- Hlast, Hint. reflexivity.
Qed.

Lemma rebooking_date_is_last_plus_interval_witness :
  show_isodate
  <$> suggest_rebooking Examples.edmonton (Date_of_isodate Examples.jan15)
        Examples.monthly_since_jan01
  = Some "2026-01-31"%string.
Proof.
  apply (proj2 (proj2 (proj2 (proj2 (proj2
    (rebooking_date_is_last_plus_interval Examples.edmonton
       (Date_of_isodate Examples.jan15) Examples.monthly_since_jan01)))))).
  - reflexivity.
  - reflexivity.
  - vm_compute. discriminate.
Defined.

(** C5 as stated fails: at noon (UTC) of 2026-01-31, the planned date of a
    monthly rebooking after 2026-01-01, that date has not passed, and the
    tool suggests 2026-02-07. *)
Lemma rebooking_snaps_on_the_planned_day :
  toISODate Examples.jan31_noon = Examples.jan31
  /\ rp_lastBookingDate Examples.monthly_since_jan01
     + interval_days (rp_frequency Examples.monthly_since_jan01) = Examples.jan31
  /\ show_isodate (claimed_rebooking Examples.jan31_noon Examples.jan01 30)
     = "2026-01-31"%string
  /\ show_isodate <$> suggest_rebooking Examples.edmonton Examples.jan31_noon
                        Examples.monthly_since_jan01
     = Some "2026-02-07"%string
  /\ suggest_rebooking Examples.edmonton Examples.jan31_noon
       Examples.monthly_since_jan01
     <> Some (claimed_rebooking Examples.jan31_noon Examples.jan01 30).
Proof.
  split; [reflexivity|]. split; [reflexivity|]. split; [reflexivity|].
  split; [reflexivity|]. vm_compute. discriminate.
Qed.

End RebookingClaims.

(* ------------------------------------------------------------------------- *)
(** ** The finance-sync tools *)
(* ------------------------------------------------------------------------- *)

Section FinanceFacts.
Import JS FinanceSync.

Variable newDocId : nat -> string.

Lemma truthy_str_nonempty (s : string) :
  s <> EmptyString -> truthy_str (Some s) = true.
Proof. destruct s; [congruence|reflexivity]. Qed.

Lemma has_tip_spec tipAmount :
  has_tip tipAmount = true <-> exists t, tipAmount = Some t /\ 0 < t.
Proof.
  unfold has_tip. destruct tipAmount as [t|].
  - rewrite andb_true_iff, negb_true_iff, Z.eqb_neq, Z.gtb_gt. split.
    + intros [_ Hpos]. exists t. split; [reflexivity|lia].
    + intros (t' & [= <-] & Hpos). lia.
  - split; [discriminate|]. intros (t & Ht & _). discriminate.
Qed.

(** A booking that is already synced: nothing is written. *)
Lemma sync_booking_already config now params db booking :
  sahr_bookings db !! sp_bookingId params = Some booking ->
  truthy_bool (financeSynced booking) && truthy_str (financeTransactionId booking)
  = true ->
  sync_booking newDocId config now params db
  = (AlreadySynced (default EmptyString (financeTransactionId booking)), db).
Proof. intros Hb Hs. unfold sync_booking. rewrite Hb, Hs. reflexivity. Qed.

(** A booking that is not yet synced: what is written. *)
Lemma sync_booking_fresh config now params db booking :
  sahr_bookings db !! sp_bookingId params = Some booking ->
  truthy_bool (financeSynced booking) && truthy_str (financeTransactionId booking)
  = false ->
  exists tx tipTx,
    let txId := newDocId (length (transactions db)) in
    sync_booking newDocId config now params db
    = (Synced tx (if has_tip (tipAmount booking) then Some tipTx else None) txId,
       {| sahr_bookings :=
            alter (mark_synced now txId) (sp_bookingId params) (sahr_bookings db);
          transactions :=
            transactions db
            ++ (txId, tx)
               :: (if has_tip (tipAmount booking)
                   then [(newDocId (S (length (transactions db))), tipTx)]
                   else []) |})
    /\ category tx
       = or_str (SERVICE_CATEGORIES !! serviceType booking) "auto-detailing"
    /\ amount tx = or_num (overrideAmount params) (price booking)
    /\ category tipTx = "tips"%string
    /\ amount tipTx = default 0 (tipAmount booking).
Proof.
  intros Hb Hs. unfold sync_booking. rewrite Hb, Hs.
  eexists. exists (tip_transaction config (sp_bookingId params) true booking
            (or_str (PAYMENT_ACCOUNTS
                       !! toLowerCase
                            (or_str (sp_paymentMethod params)
                                    (or_str (paymentMethod booking) "etransfer")))
                    (defaultAccount config))
            (default 0 (tipAmount booking))).
  cbv zeta. unfold addDoc, updateDoc_synced. cbn [fst snd transactions sahr_bookings].
  destruct (has_tip (tipAmount booking)).
  - cbn [snd transactions sahr_bookings]. rewrite length_app. cbn [length].
    replace (length (transactions db) + 1)%nat with (S (length (transactions db)))
      by lia.
    rewrite <- app_assoc. cbn [app].
    split; [reflexivity|]. repeat split.
  - split; [reflexivity|]. repeat split.
Qed.

Lemma bulk_sync_single config now defaultPaymentMethod db bookingId :
  bulk_sync newDocId config now [bookingId] defaultPaymentMethod db
  = bulk_sync_step newDocId config now defaultPaymentMethod
      {| results := []; totalSynced := 0; totalAmount := 0; store := db |}
      bookingId.
Proof. reflexivity. Qed.

End FinanceFacts.

Section FinanceClaims.
Import JS JSObject FinanceSync FinanceProps.

(** C2.  When a booking that is not yet marked as synced is synced twice in
    a row, the first call posts the service transaction and, only for a
    positive tip, one tip transaction, and the second call finds the flag
    and the transaction id set: it answers [Already Synced] with that id,
    not an error, and leaves the store - the booking record and the
    transactions - as the first call left it.  The payment method and the
    service type of the first call are taken not to be names that the
    lookup tables inherit ([constructor], [toString], ...): under such a
    name the first call posts nothing. *)
Theorem second_sync_posts_nothing
    (newDocId : nat -> string) config now1 now2 params1 params2 db booking :
  (forall n, newDocId n <> EmptyString) ->
  sp_bookingId params2 = sp_bookingId params1 ->
  sahr_bookings db !! sp_bookingId params1 = Some booking ->
  truthy_bool (financeSynced booking) && truthy_str (financeTransactionId booking)
  = false ->
  plain_lookup
    (or_str (sp_paymentMethod params1) (or_str (paymentMethod booking) "etransfer"))
    (serviceType booking) = true ->
  let first := sync_booking newDocId config now1 params1 db in
  let second := sync_booking newDocId config now2 params2 (snd first) in
  let txId := newDocId (length (transactions db)) in
  let tipped := has_tip (tipAmount booking) in
  (exists tx tipTx,
     fst first = Synced tx (if tipped then Some tipTx else None) txId
     /\ transactions (snd first)
        = transactions db
          ++ (txId, tx)
             :: (if tipped
                 then [(newDocId (S (length (transactions db))), tipTx)]
                 else [])
     /\ category tipTx = "tips"%string)
  /\ (tipped = true <-> exists t, tipAmount booking = Some t /\ 0 < t)
  /\ fst second = AlreadySynced txId
  /\ snd second = snd first
  /\ length (transactions (snd second))
     = (length (transactions db) + 1 + (if tipped then 1 else 0))%nat.
Proof.
  intros Hid Hsame Hb Hfresh _ first second txId tipped.
  destruct (sync_booking_fresh newDocId config now1 params1 db booking Hb Hfresh)
    as (tx & tipTx & Hfirst & _ & _ & Htip & _).
  cbv zeta in Hfirst. fold txId in Hfirst. fold tipped in Hfirst.
  assert (sahr_bookings (snd first) !! sp_bookingId params2
          = Some (mark_synced now1 txId booking)) as Hb2.
  { unfold first. rewrite Hfirst. cbn [snd sahr_bookings].
    rewrite Hsame, lookup_alter. case_decide; [|congruence].
    rewrite Hb. reflexivity. }
  assert (second = (AlreadySynced txId, snd first)) as Hsecond.
  { unfold second.
    rewrite (sync_booking_already newDocId config now2 params2 (snd first)
               (mark_synced now1 txId booking) Hb2); [reflexivity|].
    cbn [financeSynced financeTransactionId mark_synced truthy_bool andb].
    apply truthy_str_nonempty, Hid. }
  split; [|split; [|split; [|split]]].
  - exists tx, tipTx. unfold first. rewrite Hfirst. cbn [fst snd transactions].
    repeat split; assumption.
  - apply has_tip_spec.
  - rewrite Hsecond. reflexivity.
  - rewrite Hsecond. reflexivity.
  - rewrite Hsecond. cbn [snd]. unfold first. rewrite Hfirst.
    cbn [snd transactions]. rewrite length_app.
    destruct tipped; cbn [length]; lia.
Qed.

Lemma second_sync_posts_nothing_witness :
  fst (sync_booking FinanceExamples.numbered_id FinanceExamples.config 2
         FinanceExamples.sync_b1
         (snd (sync_booking FinanceExamples.numbered_id FinanceExamples.config 1
                 FinanceExamples.sync_b1 FinanceExamples.store0)))
  = AlreadySynced "tx0".
Proof.
  refine (proj1 (proj2 (proj2
    (second_sync_posts_nothing FinanceExamples.numbered_id FinanceExamples.config
       1 2 FinanceExamples.sync_b1 FinanceExamples.sync_b1 FinanceExamples.store0
       FinanceExamples.completed_booking _ _ _ _ _)))).
  - intros n. discriminate.
  - reflexivity.
  - reflexivity.
  - reflexivity.
  - reflexivity.
Defined.

(** C10.  The single-booking sync answers [Already Synced] only when the
    booking has both the synced flag and a transaction id; the bulk sync
    skips a booking on the flag alone.  For a booking with the flag set and
    no transaction id the single-booking sync therefore posts a new
    transaction, while the bulk sync records [Already synced] for it and
    posts nothing.  That the single-booking sync posts is stated for a
    payment method and a service type that are not names which the lookup
    tables inherit. *)
Theorem single_and_bulk_sync_disagree
    (newDocId : nat -> string) config now params defaultPaymentMethod db booking :
  sahr_bookings db !! sp_bookingId params = Some booking ->
  let single := sync_booking newDocId config now params db in
  let bulk :=
    bulk_sync newDocId config now [sp_bookingId params] defaultPaymentMethod db in
  let skipped :=
    [mkBulkResult (sp_bookingId params) false None (Some "Already synced"%string)] in
  ((exists txId, fst single = AlreadySynced txId)
   <-> truthy_bool (financeSynced booking) = true
       /\ truthy_str (financeTransactionId booking) = true)
  /\ (results bulk = skipped <-> truthy_bool (financeSynced booking) = true)
  /\ (truthy_bool (financeSynced booking) = true ->
      truthy_str (financeTransactionId booking) = false ->
      plain_lookup
        (or_str (sp_paymentMethod params)
                (or_str (paymentMethod booking) "etransfer"))
        (serviceType booking) = true ->
      (exists tx tip,
         fst single = Synced tx tip (newDocId (length (transactions db)))
         /\ (length (transactions db) < length (transactions (snd single)))%nat
         /\ (newDocId (length (transactions db)), tx) ∈ transactions (snd single))
      /\ results bulk = skipped
      /\ totalSynced bulk = 0
      /\ store bulk = db).
Proof.
  intros Hb single bulk skipped.
  assert (truthy_bool (financeSynced booking) = true ->
          bulk = {| results := skipped; totalSynced := 0; totalAmount := 0;
                    store := db |}) as Hskip.
  { intros Hs. unfold bulk. rewrite bulk_sync_single. unfold bulk_sync_step.
    cbn [store results totalSynced totalAmount]. rewrite Hb, Hs. reflexivity. }
  assert (truthy_bool (financeSynced booking)
          && truthy_str (financeTransactionId booking) = false ->
          exists tx tip,
            fst single = Synced tx tip (newDocId (length (transactions db)))
            /\ (length (transactions db) < length (transactions (snd single)))%nat
            /\ (newDocId (length (transactions db)), tx)
               ∈ transactions (snd single)) as Hfresh.
  { intros Hs.
    destruct (sync_booking_fresh newDocId config now params db booking Hb Hs)
      as (tx & tipTx & Hsingle & _).
    cbv zeta in Hsingle. unfold single. rewrite Hsingle.
    cbn [fst snd transactions]. eexists _, _.
    split; [reflexivity|]. split.
    - rewrite length_app. cbn [length]. lia.
    - apply elem_of_app. right. apply list_elem_of_here. }
  split; [|split].
  - split.
    + intros [txId Hsingle].
      destruct (truthy_bool (financeSynced booking)
                && truthy_str (financeTransactionId booking)) eqn:Hs.
      * apply andb_true_iff in Hs. exact Hs.
      * destruct (Hfresh eq_refl) as (tx & tip & Hsynced & _).
        rewrite Hsingle in Hsynced. discriminate.
    + intros [Hs Ht]. eexists. unfold single.
      rewrite (sync_booking_already newDocId config now params db booking Hb)
        by (rewrite Hs, Ht; reflexivity).
      reflexivity.
  - split; [|intros Hs; rewrite (Hskip Hs); reflexivity].
    destruct (truthy_bool (financeSynced booking)) eqn:Hs; [reflexivity|].
    unfold bulk. rewrite bulk_sync_single. unfold bulk_sync_step.
    cbn [store results totalSynced totalAmount]. rewrite Hb, Hs.
    unfold addDoc. destruct (has_tip (tipAmount booking));
      cbn [results app]; intros Hres; discriminate.
  - intros Hs Ht _. split; [apply Hfresh; rewrite Hs, Ht; reflexivity|].
    rewrite (Hskip Hs). repeat split.
Qed.

Lemma single_and_bulk_sync_disagree_witness :
  results (bulk_sync FinanceExamples.numbered_id FinanceExamples.config 1
             ["b2"%string] None FinanceExamples.store0)
  = [mkBulkResult "b2" false None (Some "Already synced"%string)]
  /\ exists tx tip,
       fst (sync_booking FinanceExamples.numbered_id FinanceExamples.config 1
              FinanceExamples.sync_b2 FinanceExamples.store0)
       = Synced tx tip "tx0".
Proof.
  destruct (single_and_bulk_sync_disagree FinanceExamples.numbered_id
              FinanceExamples.config 1 FinanceExamples.sync_b2 None
              FinanceExamples.store0 FinanceExamples.flagged_booking eq_refl)
    as (_ & _ & Hgap).
  destruct (Hgap eq_refl eq_refl eq_refl)
    as ((tx & tip & Hsingle & _) & Hbulk & _).
  split; [exact Hbulk|]. exists tx, tip. exact Hsingle.
Defined.

End FinanceClaims.

(* ------------------------------------------------------------------------- *)
(** ** More on the availability tool *)
(* ------------------------------------------------------------------------- *)

Section AvailabilityMore.
Import JS Scheduler Props SchedulerProps.

Lemma find_conflict_any_zone (tz tz' : Z) dur d h bs :
  Forall (fun c => date c = d) bs ->
  find_conflict tz dur (parseDateTime tz d (mkHHMM h 0))
    (addMinutes (parseDateTime tz d (mkHHMM h 0)) (dur + BUFFER_MINUTES)) bs
  = find_conflict tz' dur (parseDateTime tz' d (mkHHMM h 0))
      (addMinutes (parseDateTime tz' d (mkHHMM h 0)) (dur + BUFFER_MINUTES)) bs.
Proof.
  unfold find_conflict. induction 1 as [|c bs Hc Hbs IH]; [reflexivity|].
  cbn [List.find].
  rewrite (conflicts_with_same_day tz dur d h c Hc).
  rewrite (conflicts_with_same_day tz' dur d h c Hc).
  rewrite IH. reflexivity.
Qed.

Lemma make_slot_any_zone (tz tz' : Z) dur d bs h :
  Forall (fun c => date c = d) bs ->
  make_slot tz dur d bs h = make_slot tz' dur d bs h.
Proof.
  intros Hbs. unfold make_slot.
  rewrite (find_conflict_any_zone tz tz' dur d h bs Hbs). reflexivity.
Qed.

Lemma dayBookings_same_date (existing : list BookingConflict) d :
  Forall (fun c => date c = d) (List.filter (fun b => date b =? d) existing).
Proof.
  apply Forall_forall. intros c Hc.
  apply elem_of_List_filter in Hc as [_ Hd]. apply Z.eqb_eq. exact Hd.
Qed.

Lemma day_slots_any_zone config (tz tz' : Z) dur existing d :
  day_slots config tz dur existing d = day_slots config tz' dur existing d.
Proof.
  unfold day_slots. apply list_fmap_ext. intros _ h _.
  apply make_slot_any_zone, dayBookings_same_date.
Qed.

Lemma availability_details_eta (r : AvailabilityDetails) :
  r = {| slots := slots r; existingBookings := existingBookings r |}.
Proof. destruct r; reflexivity. Qed.

(** X1.  On machines whose time zones have no clock changes the answer of
    the availability tool does not depend on the zone's offset from UTC. *)
Theorem availability_independent_of_zone config (tz tz' : Z) sahr_bookings params :
  check_availability config tz sahr_bookings params
  = check_availability config tz' sahr_bookings params.
Proof.
  rewrite (availability_details_eta (check_availability config tz _ _)).
  rewrite (availability_details_eta (check_availability config tz' _ _)).
  rewrite !check_availability_slots. f_equal.
  apply list_bind_ext; [|reflexivity]. intros d.
  apply day_slots_any_zone.
Qed.

Lemma length_bind_const {A B} (f : A -> list B) (l : list A) n :
  (forall x, length (f x) = n) -> length (l ≫= f) = (length l * n)%nat.
Proof.
  intros Hn. induction l as [|x l IH]; [reflexivity|].
  rewrite bind_cons, length_app, Hn, IH. cbn [length]. lia.
Qed.

(** X2.  The tool returns, for each round of its day loop, one slot per
    start hour from [workingHours.start] to the last hour at which the
    service still ends within working hours.  In a time zone without clock
    changes the rounds are the days of the range: the slots are none when
    the end date is before the date or when the service does not fit into
    the working hours. *)
Theorem availability_slot_count config zone sahr_bookings params :
  let per_day :=
    Z.to_nat (last_hour config (requested_duration config params)
              - workingHours_start config + 1) in
  let sl := slots (check_availability config zone sahr_bookings params) in
  length sl = (length (visited zone params) * per_day)%nat
  /\ (forall tz : Z,
        zone = fixed tz ->
        length sl
        = (Z.to_nat (range_end params - p_date params + 1) * per_day)%nat).
Proof.
  intros per_day sl. split.
  - unfold sl. rewrite availability_slots_visited.
    apply length_bind_const. intros c. unfold day_slots.
    rewrite length_fmap, length_seqZ. reflexivity.
  - intros tz ->. unfold sl. rewrite check_availability_slots.
    rewrite (length_bind_const _ _ per_day).
    + rewrite length_seqZ. reflexivity.
    + intros d. unfold day_slots. rewrite length_fmap, length_seqZ. reflexivity.
Qed.

Lemma availability_slot_count_witness :
  length (slots (check_availability Examples.default_config Examples.edmonton
                   [] Examples.wash_in_march))
  = (4 * 12)%nat.
Proof.
  exact (proj2 (availability_slot_count Examples.default_config Examples.edmonton
                  [] Examples.wash_in_march) Examples.edmonton eq_refl).
Defined.

Lemma StronglySorted_seqZ m n : StronglySorted Z.lt (seqZ m n).
Proof.
  destruct (Z.le_gt_cases n 0) as [Hn|Hn]; [rewrite seqZ_nil by lia; constructor|].
  rewrite <- (Z2Nat.id n) by lia. generalize (Z.to_nat n) as k. clear Hn n.
  intros k. revert m. induction k as [|k IH]; intros m.
  - rewrite seqZ_nil by lia. constructor.
  - rewrite seqZ_cons by lia. constructor.
    + replace (Z.pred (Z.of_nat (S k))) with (Z.of_nat k) by lia. apply IH.
    + apply Forall_forall. intros x Hx. apply elem_of_seqZ in Hx. lia.
Qed.

(** X3.  In a time zone without clock changes the slots come out in
    chronological order, date by date and hour by hour, each (date, hour)
    at most once. *)
Theorem availability_slots_chronological config (tz : Z) sahr_bookings params :
  StronglySorted slot_lt (slots (check_availability config tz sahr_bookings params)).
Proof.
  rewrite check_availability_slots.
  apply (StronglySorted_bind Z.lt); [apply StronglySorted_seqZ| |].
  - intros d _. unfold day_slots.
    apply (StronglySorted_fmap _ Z.lt); [|apply StronglySorted_seqZ].
    intros h h' Hlt. right. cbn. split; [reflexivity|exact Hlt].
  - intros d d' a b Hlt Ha Hb. unfold day_slots in Ha, Hb.
    apply list_elem_of_fmap in Ha as (h & -> & _).
    apply list_elem_of_fmap in Hb as (h' & -> & _).
    left. cbn. exact Hlt.
Qed.

(** X26.  Across a clock change the day loops, which step by local calendar
    days and name each day by its UTC date, repeat or leave out a date.  In
    Mountain Time the availability tool asked for 2026-03-07 to 2026-03-10
    answers for 03-07, 03-08, once more 03-08, and 03-09, and not for
    03-10; asked for 2026-10-31 to 2026-11-03 it does not answer for 11-03;
    and a monthly rebooking after 2026-02-15 is suggested for 2026-03-16,
    the day before the thirtieth day. *)
Theorem clock_change_shifts_dates :
  (forall since, regular Examples.mountain_time since)
  /\ (toISODate <$> visited Examples.mountain_time Examples.wash_in_march)
     = [Examples.mar07; Examples.mar08; Examples.mar08; Examples.mar09]
  /\ (Examples.mar10
      ∉ slot_date
        <$> slots (check_availability Examples.default_config
                     Examples.mountain_time [] Examples.wash_in_march))
  /\ (toISODate <$> visited Examples.mountain_time Examples.wash_in_autumn)
     = [Examples.oct31; Examples.nov01; Examples.nov02]
  /\ length (slots (check_availability Examples.default_config Examples.mountain_time
                      [] Examples.wash_in_march))
     = length (slots (check_availability Examples.default_config Examples.edmonton
                        [] Examples.wash_in_march))
  /\ check_availability Examples.default_config Examples.mountain_time
       [] Examples.wash_in_march
     <> check_availability Examples.default_config Examples.edmonton
          [] Examples.wash_in_march
  /\ (show_isodate
      <$> suggest_rebooking Examples.mountain_time
            (Date_of_isodate Examples.mar01) Examples.monthly_since_feb15)
     = Some "2026-03-16"%string
  /\ (show_isodate
      <$> suggest_rebooking Examples.edmonton
            (Date_of_isodate Examples.mar01) Examples.monthly_since_feb15)
     = Some "2026-03-17"%string.
Proof.
  split.
  { intros since t n _ _. cbn [offset_at offset_for Examples.mountain_time].
    destruct (_ && _), (_ && _); unfold MS_PER_HOUR, MS_PER_MINUTE; lia. }
  split; [vm_compute; reflexivity|]. split.
  { intros Hin. apply list_elem_of_fmap in Hin as (s & Hdate & Hs). revert Hdate.
    apply elem_of_slots_visited in Hs as (c & h & Hc & _ & ->).
    cbn [slot_date make_slot].
    assert (toISODate c ∈ toISODate <$> visited Examples.mountain_time
                                          Examples.wash_in_march) as Hd
      by (apply list_elem_of_fmap; exists c; split; [reflexivity|exact Hc]).
    revert Hd. generalize (toISODate c). intros d Hd.
    vm_compute in Hd. intros <-.
    repeat (apply elem_of_cons in Hd as [Hd|Hd]; [discriminate Hd|]).
    inversion Hd. }
  split; [vm_compute; reflexivity|]. split; [vm_compute; reflexivity|].
  split; [vm_compute; discriminate|]. split; vm_compute; reflexivity.
Qed.

Lemma date_time_before_spec a b :
  date_time_before a b = true <-> conflict_le (to_conflict a) (to_conflict b).
Proof.
  unfold date_time_before, conflict_le, time_le. cbn [date time to_conflict].
  repeat (rewrite orb_true_iff || rewrite andb_true_iff).
  rewrite !Z.ltb_lt, !Z.eqb_eq, Z.leb_le. reflexivity.
Qed.

Lemma date_time_before_total a b :
  date_time_before a b = false -> date_time_before b a = true.
Proof.
  intros Hab. apply date_time_before_spec.
  apply not_true_iff_false in Hab. rewrite date_time_before_spec in Hab.
  unfold conflict_le, time_le in *. cbn [date time to_conflict] in *. lia.
Qed.

Lemma date_time_before_trans a b c :
  date_time_before a b = true -> date_time_before b c = true ->
  date_time_before a c = true.
Proof.
  rewrite !date_time_before_spec. unfold conflict_le, time_le.
  cbn [date time to_conflict]. lia.
Qed.

Lemma StronglySorted_List_filter {A} (R : relation A) (f : A -> bool) l :
  StronglySorted R l -> StronglySorted R (List.filter f l).
Proof.
  induction 1 as [|x l Hl IH Hx]; cbn [List.filter]; [constructor|].
  destruct (f x); [|exact IH]. constructor; [exact IH|].
  apply Forall_forall. intros y Hy. apply elem_of_List_filter in Hy as [Hy _].
  rewrite Forall_forall in Hx. apply Hx, Hy.
Qed.

Lemma find_first_of_sorted {A} (R : relation A) (f : A -> bool) l x y :
  StronglySorted R l -> List.find f l = Some x -> y ∈ l -> f y = true ->
  x = y \/ R x y.
Proof.
  induction 1 as [|z l Hl IH Hz]; cbn [List.find]; [discriminate|].
  intros Hfind Hy Hfy. destruct (f z) eqn:Hfz.
  - injection Hfind as ->. apply elem_of_cons in Hy as [->|Hy]; [left; reflexivity|].
    right. rewrite Forall_forall in Hz. apply Hz, Hy.
  - apply elem_of_cons in Hy as [->|Hy]; [congruence|]. apply IH; assumption.
Qed.

Lemma existing_of_sorted sahr_bookings params :
  StronglySorted conflict_le (existing_of sahr_bookings params).
Proof.
  unfold existing_of.
  apply (StronglySorted_fmap _ (fun a b => date_time_before a b = true)).
  - intros a b Hab. apply date_time_before_spec, Hab.
  - apply sort_sorted; [apply date_time_before_total|apply date_time_before_trans].
Qed.

Lemma elem_of_existing_of sahr_bookings params c :
  c ∈ existing_of sahr_bookings params
  <-> exists b, b ∈ sahr_bookings /\ counted params b /\ c = to_conflict b.
Proof.
  unfold existing_of, counted, where_range_status, active.
  rewrite list_elem_of_fmap. split.
  - intros (b & -> & Hb). apply elem_of_sort, elem_of_List_filter in Hb as [Hb Hf].
    rewrite !andb_true_iff, !Z.leb_le in Hf.
    exists b. repeat split; tauto.
  - intros (b & Hb & [Hact Hrange] & ->). exists b. split; [reflexivity|].
    apply elem_of_sort, elem_of_List_filter. split; [exact Hb|].
    rewrite !andb_true_iff, !Z.leb_le. tauto.
Qed.

(** X4.  The [existingBookings] of the answer are exactly the store's
    bookings with status scheduled, confirmed or in_progress and a date in
    the range, each as often as it is stored, ordered by date and then by
    time. *)
Theorem existing_bookings_are_the_counted_ones config tz sahr_bookings params :
  let ex := existingBookings (check_availability config tz sahr_bookings params) in
  (forall c, c ∈ ex
     <-> exists b, b ∈ sahr_bookings /\ counted params b /\ c = to_conflict b)
  /\ ex ≡ₚ to_conflict
           <$> List.filter
                 (fun b => (p_date params <=? doc_appointmentDate b)
                           && (doc_appointmentDate b <=? range_end params)
                           && active (doc_status b))
                 sahr_bookings
  /\ StronglySorted conflict_le ex.
Proof.
  intros ex.
  assert (ex = existing_of sahr_bookings params) as -> by reflexivity.
  split; [apply elem_of_existing_of|]. split; [|apply existing_of_sorted].
  unfold existing_of. rewrite sort_perm. reflexivity.
Qed.

(** X5.  The booking given as the reason of an unavailable slot is a stored
    booking of the slot's date that is counted and conflicts with the slot,
    and among all such bookings it is one with the earliest time. *)
Theorem reason_is_earliest_conflict config (tz : Z) sahr_bookings params s c :
  s ∈ slots (check_availability config tz sahr_bookings params) ->
  reason s = Some c ->
  let dur := requested_duration config params in
  let h := hours (slot_time s) in
  available s = false
  /\ (exists b, b ∈ sahr_bookings /\ counted params b /\ c = to_conflict b)
  /\ date c = slot_date s
  /\ slot_conflicts tz dur (slot_date s) h c = true
  /\ (forall b, b ∈ sahr_bookings -> counted params b ->
        doc_appointmentDate b = slot_date s ->
        slot_conflicts tz dur (slot_date s) h (to_conflict b) = true ->
        time_le (time c) (doc_appointmentTime b)).
Proof.
  intros Hs Hreason dur h.
  apply elem_of_slots in Hs as (d & h' & Hd & Hh & ->).
  subst h dur. cbn [slot_date slot_time hours make_slot] in *.
  split; [rewrite make_slot_flag, Hreason; reflexivity|].
  pose proof Hreason as Hfind. apply make_slot_reason in Hreason as [Hin Hc].
  apply elem_of_List_filter in Hin as [Hin Hdate]. apply Z.eqb_eq in Hdate.
  split; [apply elem_of_existing_of, Hin|].
  split; [exact Hdate|]. split; [exact Hc|].
  intros b Hb Hcounted Hbd Hconf.
  unfold make_slot in Hfind. cbn [reason] in Hfind. unfold find_conflict in Hfind.
  assert (to_conflict b
          ∈ List.filter (fun c => date c =? d) (existing_of sahr_bookings params))
    as Hbin.
  { apply elem_of_List_filter. split.
    - apply elem_of_existing_of. exists b.
      split; [exact Hb|split; [exact Hcounted|reflexivity]].
    - cbn. apply Z.eqb_eq, Hbd. }
  destruct (find_first_of_sorted conflict_le _ _ _ _
              (StronglySorted_List_filter _ _ _ (existing_of_sorted sahr_bookings params))
              Hfind Hbin Hconf) as [->|Hle].
  - cbn [time to_conflict]. unfold time_le. lia.
  - unfold conflict_le in Hle. cbn [date time to_conflict] in Hle.
    destruct Hle as [Hlt|[_ Hle]]; [lia|exact Hle].
Qed.

End AvailabilityMore.

(* ------------------------------------------------------------------------- *)
(** ** More on the suggestion and rebooking tools *)
(* ------------------------------------------------------------------------- *)

Section SuggestionMore.
Import JS JSObject Scheduler Props SchedulerProps.

Lemma reason_is_earliest_conflict_witness :
  time_le (time (to_conflict Examples.evening_booking))
          (doc_appointmentTime Examples.evening_booking).
Proof.
  refine (proj2 (proj2 (proj2 (proj2
    (reason_is_earliest_conflict Examples.default_config Examples.edmonton
       [Examples.evening_booking] Examples.full_detail_on_jan15
       MoreExamples.slot_at_15 (to_conflict Examples.evening_booking) _ _))))
    Examples.evening_booking _ _ _ _).
  - vm_compute. repeat constructor.
  - reflexivity.
  - apply list_elem_of_here.
  - split; [reflexivity|]. vm_compute. split; discriminate.
  - reflexivity.
  - reflexivity.
Defined.

Lemma suggest_range_cases params :
  9 <= fst (suggest_range params) /\ snd (suggest_range params) <= 21.
Proof.
  unfold suggest_range.
  destruct (sp_preferredTimeRange params) as [[]|]; cbn; lia.
Qed.

(** The window of the suggestion tool in a regular zone. *)
Lemma suggest_window_regular zone today params :
  regular zone today ->
  today <= suggest_start zone today params
  /\ suggest_end zone today params <= today + 14 * MS_PER_DAY + MS_PER_HOUR
  /\ (sp_urgency params = Some asap ->
      suggest_end zone today params <= today + 3 * MS_PER_DAY + MS_PER_HOUR)
  /\ (sp_urgency params = Some next_week ->
      today + 7 * MS_PER_DAY - MS_PER_HOUR <= suggest_start zone today params).
Proof.
  intros Hreg.
  pose proof (addDays_regular zone today today 3 Hreg ltac:(lia) ltac:(lia)).
  pose proof (addDays_regular zone today today 7 Hreg ltac:(lia) ltac:(lia)).
  pose proof (addDays_regular zone today today 14 Hreg ltac:(lia) ltac:(lia)).
  unfold suggest_start, suggest_end, urgency_window.
  destruct (sp_urgency params) as [[]|]; cbn [fst snd];
    unfold MS_PER_DAY, MS_PER_HOUR, MS_PER_MINUTE in *;
    (split; [lia|split; [lia|split; intros [=]; lia]]).
Qed.

Lemma toISODate_plus t n r :
  0 <= r <= MS_PER_DAY -> toISODate (t + n * MS_PER_DAY + r) <= toISODate t + n + 1.
Proof.
  intros Hr.
  assert (toISODate (t + n * MS_PER_DAY + r) <= toISODate (t + (n + 1) * MS_PER_DAY))
    as Hle by (apply toISODate_mono; lia).
  unfold toISODate in *. rewrite Z.div_add in Hle by discriminate. lia.
Qed.

Lemma toISODate_minus t n r :
  0 <= r <= MS_PER_DAY -> toISODate t + n - 1 <= toISODate (t + n * MS_PER_DAY - r).
Proof.
  intros Hr.
  assert (toISODate (t + (n - 1) * MS_PER_DAY) <= toISODate (t + n * MS_PER_DAY - r))
    as Hle by (apply toISODate_mono; lia).
  unfold toISODate in *. rewrite Z.div_add in Hle by discriminate. lia.
Qed.

Lemma hour_within_day : 0 <= MS_PER_HOUR <= MS_PER_DAY.
Proof. unfold MS_PER_DAY, MS_PER_HOUR, MS_PER_MINUTE. lia. Qed.

(** X6.  Every suggestion that the tool returns is on the full hour, at an
    hour of the requested band (the afternoon without a request) and so
    between 9:00 and 20:00.  In a time zone without clock changes its date
    is from today's to fourteen days ahead, within three days for asap and
    not before seven days for next_week; where the clocks change by an hour
    at most from the time of the call on, the far ends of these windows can
    lie a day further out and the beginning of next week's a day earlier. *)
Theorem suggestions_within_band_and_window
    config zone today sahr_bookings params s :
  regular zone today ->
  s ∈ suggest_times config zone today sahr_bookings params ->
  minutes (sg_time s) = 0
  /\ (fst (suggest_range params) <= hours (sg_time s) < snd (suggest_range params))
  /\ (9 <= hours (sg_time s) <= 20)
  /\ (toISODate today <= sg_date s <= toISODate today + 15)
  /\ (sp_urgency params = Some asap -> sg_date s <= toISODate today + 4)
  /\ (sp_urgency params = Some next_week -> toISODate today + 6 <= sg_date s)
  /\ (forall tz : Z,
        zone = fixed tz ->
        sg_date s <= toISODate today + 14
        /\ (sp_urgency params = Some asap -> sg_date s <= toISODate today + 3)
        /\ (sp_urgency params = Some next_week ->
            toISODate today + 7 <= sg_date s)).
Proof.
  intros Hreg Hs. apply suggest_times_subseteq in Hs.
  pose proof (suggest_range_cases params) as Hrange.
  pose proof hour_within_day as Hhour.
  split; [|split; [|split; [|split; [|split; [|split]]]]].
  - apply elem_of_generate_suggestions in Hs as (c & h & _ & _ & _ & ->).
    rewrite make_suggestion_time. reflexivity.
  - apply elem_of_generate_suggestions in Hs as (c & h & _ & Hh & _ & ->).
    rewrite make_suggestion_time. exact Hh.
  - apply elem_of_generate_suggestions in Hs as (c & h & _ & Hh & _ & ->).
    rewrite make_suggestion_time. cbn [hours]. lia.
  - apply elem_of_generate_suggestions in Hs as (c & h & Hc & _ & _ & ->).
    rewrite make_suggestion_date.
    destruct (suggest_window_regular zone today params Hreg) as (Hstart & Hend & _).
    pose proof (day_cursors_le _ _ _ _ _ Hc) as Hle.
    pose proof (day_cursors_ge _ _ _ _ _ _ Hreg Hstart Hc) as Hge.
    split.
    + apply toISODate_mono. lia.
    + pose proof (toISODate_plus today 14 MS_PER_HOUR Hhour) as Hfar.
      assert (toISODate c <= toISODate (today + 14 * MS_PER_DAY + MS_PER_HOUR))
        by (apply toISODate_mono; lia).
      lia.
  - intros Hu.
    apply elem_of_generate_suggestions in Hs as (c & h & Hc & _ & _ & ->).
    rewrite make_suggestion_date.
    destruct (suggest_window_regular zone today params Hreg) as (_ & _ & Hasap & _).
    pose proof (day_cursors_le _ _ _ _ _ Hc) as Hle.
    specialize (Hasap Hu).
    pose proof (toISODate_plus today 3 MS_PER_HOUR Hhour) as Hfar.
    assert (toISODate c <= toISODate (today + 3 * MS_PER_DAY + MS_PER_HOUR))
      by (apply toISODate_mono; lia).
    lia.
  - intros Hu.
    apply elem_of_generate_suggestions in Hs as (c & h & Hc & _ & _ & ->).
    rewrite make_suggestion_date.
    destruct (suggest_window_regular zone today params Hreg)
      as (Hstart & _ & _ & Hnext).
    pose proof (day_cursors_ge _ _ _ _ _ _ Hreg Hstart Hc) as Hge.
    specialize (Hnext Hu).
    pose proof (toISODate_minus today 7 MS_PER_HOUR Hhour) as Hnear.
    assert (toISODate (today + 7 * MS_PER_DAY - MS_PER_HOUR) <= toISODate c)
      by (apply toISODate_mono; lia).
    lia.
  - intros tz ->.
    apply elem_of_generate_suggestions_fixed in Hs
      as (k & h & Hk & Hend & _ & _ & ->).
    rewrite make_suggestion_date.
    destruct (suggest_window_cases tz today params) as (Hstart & Hstop & Hasap & Hnext).
    pose proof (toISODate_mono _ _ Hend) as Hdate.
    pose proof (toISODate_mono _ _ Hstop) as Hlast.
    rewrite !toISODate_addDays in *.
    split; [lia|]. split.
    + intros Hu. destruct (Hasap Hu) as [Hs He]. rewrite Hs, He in *.
      rewrite ?toISODate_addDays in *. lia.
    + intros Hu. rewrite (Hnext Hu) in *. rewrite ?toISODate_addDays in *. lia.
Qed.

Lemma suggestions_within_band_and_window_witness :
  17 <= hours (sg_time MoreExamples.evening_suggestion) < 21.
Proof.
  refine (proj1 (proj2
    (suggestions_within_band_and_window Examples.default_config Examples.edmonton
       Examples.thursday_morning [] MoreExamples.asap_evening
       MoreExamples.evening_suggestion _ _))).
  - intros t n _ _. vm_compute. discriminate.
  - vm_compute. repeat constructor.
Defined.

(** X7.  The score of a returned suggestion lies between 100 and 160, and
    does not exceed 130 unless the urgency is asap. *)
Theorem suggestion_score_bounds config (tz : Z) today sahr_bookings params s :
  s ∈ suggest_times config tz today sahr_bookings params ->
  (100 <= score s <= 160)
  /\ (sp_urgency params <> Some asap -> score s <= 130).
Proof.
  intros Hs. apply suggest_times_subseteq in Hs.
  apply elem_of_generate_suggestions_fixed in Hs as (k & h & Hk & _ & _ & _ & ->).
  rewrite make_suggestion_score.
  rewrite (tool_score_daysFromNow _ _ _ _ k)
    by (intros Hu; apply asap_daysFromNow; assumption).
  unfold tool_score.
  destruct (sp_preferredDays params) as [l|];
    [destruct (existsb _ l)|];
    destruct (sp_urgency params) as [[]|], ((h =? 17) || (h =? 18));
    (split; [lia|intros Hne; try lia; congruence]).
Qed.

Lemma suggestion_score_bounds_witness :
  100 <= score MoreExamples.evening_suggestion <= 160.
Proof.
  refine (proj1
    (suggestion_score_bounds Examples.default_config Examples.edmonton
       Examples.thursday_morning [] MoreExamples.asap_evening
       MoreExamples.evening_suggestion _)).
  vm_compute. repeat constructor.
Defined.

Lemma Qceiling_60_pos dur : 0 < dur -> 1 <= Qceiling (Qmake dur 60).
Proof. intros Hpos. pose proof (Qceiling_60 dur). lia. Qed.

(** X8.  The two tools judge the hour before an existing booking
    differently: the suggestion rule finds no conflict there, the
    availability rule does, for every service longer than the 30-minute
    buffer. *)
Theorem hour_before_booking_judged_differently (tz : Z) dur d c H :
  date c = d -> time c = mkHHMM H 0 -> 30 < dur ->
  hasConflict dur [(date c, time c)] d (H - 1) = false
  /\ available (make_slot tz dur d [c] (H - 1)) = false
  /\ reason (make_slot tz dur d [c] (H - 1)) = Some c.
Proof.
  intros Hd Ht Hdur. split.
  - apply not_true_iff_false. rewrite hasConflict_spec.
    intros (b & Hb & _ & Hh). apply list_elem_of_singleton in Hb as ->.
    cbn [snd] in Hh. rewrite Ht in Hh. cbn [hours] in Hh. lia.
  - rewrite (make_slot_single tz dur d c (H - 1) Hd). cbv zeta.
    rewrite Ht. cbn [hours minutes available reason].
    assert (overlap ((H - 1) * 60) ((H - 1) * 60 + dur + BUFFER_MINUTES)
              (H * 60 + 0) (H * 60 + 0 + dur + BUFFER_MINUTES) = true) as ->
      by (apply overlap_spec; unfold BUFFER_MINUTES; lia).
    split; reflexivity.
Qed.

Lemma hour_before_booking_judged_differently_witness :
  hasConflict 180
    [(date (to_conflict Examples.evening_booking),
      time (to_conflict Examples.evening_booking))] Examples.jan15 (18 - 1) = false
  /\ available (make_slot Examples.edmonton 180 Examples.jan15
                  [to_conflict Examples.evening_booking] (18 - 1)) = false
  /\ reason (make_slot Examples.edmonton 180 Examples.jan15
               [to_conflict Examples.evening_booking] (18 - 1))
     = Some (to_conflict Examples.evening_booking).
Proof.
  apply (hour_before_booking_judged_differently Examples.edmonton 180
           Examples.jan15 (to_conflict Examples.evening_booking) 18);
    [reflexivity|reflexivity|reflexivity].
Defined.

Lemma sort_length {A} (before : A -> A -> bool) l :
  length (sort before l) = length l.
Proof. apply Permutation_length, sort_perm. Qed.

(** X9.  The tool returns five suggestions, or all of them when fewer hours
    are open; it returns none exactly when, on every day that its loop
    visits, every hour of the band conflicts with a booking that it read.
    For a service type that is a name which every object inherits the
    duration is no number and no hour conflicts: every hour of the band on
    every visited day is suggested. *)
Theorem no_suggestion_iff_all_hours_conflict
    config zone today sahr_bookings params :
  let generated := generate_suggestions config zone today sahr_bookings params in
  let top := suggest_times config zone today sahr_bookings params in
  let in_band h := fst (suggest_range params) <= h < snd (suggest_range params) in
  length top = Nat.min 5 (length generated)
  /\ (top = []
      <-> forall c h,
            c ∈ suggest_cursors zone today params -> in_band h ->
            hasConflict_any (suggest_duration config params)
                            (suggest_existing zone today sahr_bookings params)
                            (toISODate c) h
            = true)
  /\ (inherited (or_str (sp_serviceType params) "full_detail") = false ->
      forall d h,
        hasConflict_any (suggest_duration config params)
                        (suggest_existing zone today sahr_bookings params) d h
        = hasConflict (serviceDuration_of config (sp_serviceType params))
                      (suggest_existing zone today sahr_bookings params) d h)
  /\ (inherited (or_str (sp_serviceType params) "full_detail") = true ->
      forall c h,
        c ∈ suggest_cursors zone today params -> in_band h ->
        make_suggestion params zone today c h ∈ generated).
Proof.
  intros generated top in_band.
  assert (length top = Nat.min 5 (length generated)) as Hlen
    by (unfold top, suggest_times; rewrite length_take, sort_length; reflexivity).
  split; [exact Hlen|]. split; [|split].
  - split.
    + intros Hnil c h Hc Hh.
      rewrite Hnil in Hlen. cbn [length] in Hlen.
      destruct (hasConflict_any _ _ _ h) eqn:Hn; [reflexivity|exfalso].
      assert (make_suggestion params zone today c h ∈ generated) as Hin
        by (apply elem_of_generate_suggestions; exists c, h; repeat split;
            try assumption; apply Hh).
      destruct generated; [inversion Hin|cbn [length] in Hlen; lia].
    + intros Hall.
      destruct top as [|s l] eqn:Htop; [reflexivity|exfalso].
      assert (s ∈ suggest_times config zone today sahr_bookings params) as Hs
        by (fold top; rewrite Htop; apply list_elem_of_here).
      apply suggest_times_subseteq, elem_of_generate_suggestions in Hs
        as (c & h & Hc & Hh & Hn & _).
      rewrite (Hall c h Hc Hh) in Hn. discriminate.
  - intros Hplain d h. rewrite (suggest_duration_plain config params Hplain).
    reflexivity.
  - intros Hinh c h Hc Hh. apply elem_of_generate_suggestions.
    exists c, h. split; [exact Hc|]. split; [exact Hh|]. split; [|reflexivity].
    unfold suggest_duration, serviceDuration_any. rewrite Hinh. reflexivity.
Qed.

Lemma no_suggestion_iff_all_hours_conflict_witness :
  suggest_times Examples.default_config Examples.edmonton
    Examples.thursday_morning MoreExamples.busy_afternoons
    MoreExamples.asap_afternoon = [].
Proof.
  apply (proj2 (proj1 (proj2
           (no_suggestion_iff_all_hours_conflict Examples.default_config
              Examples.edmonton Examples.thursday_morning
              MoreExamples.busy_afternoons MoreExamples.asap_afternoon)))).
  intros c h Hc Hh. vm_compute in Hc. cbn in Hh.
  assert (h = 12 \/ h = 13 \/ h = 14 \/ h = 15 \/ h = 16) as Hhours by lia.
  repeat (apply elem_of_cons in Hc as [->|Hc];
          [destruct Hhours as [-> | [-> | [-> | [-> | ->]]]];
           vm_compute; reflexivity|]).
  inversion Hc.
Defined.



End SuggestionMore.

(* ------------------------------------------------------------------------- *)
(** ** The scheduler's helpers *)
(* ------------------------------------------------------------------------- *)

Section HelperFacts.
Import JS Scheduler SchedulerHelpers HelperProps.

Lemma getOrdinal_below_100 :
  Forall (fun v => getOrdinal v = english_suffix v) (seqZ 0 100).
Proof. apply (bool_decide_unpack _). vm_compute. exact I. Qed.

(** X11.  For a number that is not negative [getOrdinal] is the English
    ordinal suffix: th for numbers ending in 11, 12 or 13, otherwise st, nd
    or rd after a last digit 1, 2 or 3, and th after any other digit. *)
Theorem getOrdinal_is_english_suffix n :
  0 <= n -> getOrdinal n = english_suffix n.
Proof.
  intros Hn.
  pose proof (Z.mod_pos_bound n 100 ltac:(lia)) as Hv.
  assert (getOrdinal (n mod 100) = english_suffix (n mod 100)) as Hsmall.
  { pose proof getOrdinal_below_100 as Hall. rewrite Forall_forall in Hall.
    apply Hall, elem_of_seqZ. lia. }
  assert (getOrdinal n = getOrdinal (n mod 100)) as ->.
  { unfold getOrdinal. rewrite (Z.rem_mod_nonneg n 100) by lia.
    rewrite (Z.rem_mod_nonneg (n mod 100) 100) by lia.
    rewrite Z.mod_mod by lia. reflexivity. }
  rewrite Hsmall. unfold english_suffix.
  rewrite Z.mod_mod by lia.
  replace ((n mod 100) mod 10) with (n mod 10); [reflexivity|].
  pose proof (Z.div_mod n 100 ltac:(lia)).
  pose proof (Z.div_mod n 10 ltac:(lia)).
  pose proof (Z.div_mod (n mod 100) 10 ltac:(lia)).
  pose proof (Z.mod_pos_bound n 10 ltac:(lia)).
  pose proof (Z.mod_pos_bound (n mod 100) 10 ltac:(lia)).
  lia.
Qed.

Lemma getOrdinal_is_english_suffix_witness :
  getOrdinal 112 = "th"%string.
Proof. apply (getOrdinal_is_english_suffix 112). lia. Defined.

Lemma Math_round_whole k :
  Math_round (Qmake (k * MS_PER_DAY) (Z.to_pos MS_PER_DAY)) = k.
Proof.
  unfold Math_round, Qfloor, Qplus. cbn [Qnum Qden].
  change (Z.pos (Z.to_pos MS_PER_DAY * 2)) with (2 * MS_PER_DAY).
  change (Z.pos (Z.to_pos MS_PER_DAY)) with MS_PER_DAY.
  change (Z.pos 2) with 2.
  symmetry. apply (Z.div_unique _ _ k MS_PER_DAY); unfold MS_PER_DAY; lia.
Qed.

Lemma setHours_midnight (tz t : Z) :
  setHours tz t 0 0 = local_day tz t * MS_PER_DAY - tz.
Proof. rewrite setHours_fixed. unfold local_day. lia. Qed.

(** The label depends on the two local calendar days only. *)
Lemma getRelativeDay_by_days (tz : Z) now date :
  getRelativeDay tz now date
  = let diffDays := local_day tz date - local_day tz now in
    if diffDays =? 0 then Today
    else if diffDays =? 1 then Tomorrow
    else if diffDays =? -1 then Yesterday
    else if (diffDays >? 0) && (diffDays <=? 7) then ThisWeekday (getDayName tz date)
    else OnDate (toISODate date).
Proof.
  unfold getRelativeDay. rewrite !setHours_midnight.
  replace (local_day tz date * MS_PER_DAY - tz - (local_day tz now * MS_PER_DAY - tz))
    with ((local_day tz date - local_day tz now) * MS_PER_DAY) by lia.
  rewrite Math_round_whole. reflexivity.
Qed.

Lemma local_day_of_isodate tz d :
  local_day tz (Date_of_isodate d) = d + tz / MS_PER_DAY.
Proof.
  unfold local_day, Date_of_isodate.
  rewrite Z.add_comm, Z.div_add by discriminate. lia.
Qed.

(** X12.  [getRelativeDay] names a day by the number of local calendar days
    from now: today for 0, tomorrow for 1, yesterday for -1, and nothing
    else gets these names.  The availability and the suggestion tool pass
    [new Date("YYYY-MM-DD")], midnight UTC: in a zone west of UTC that
    instant falls on the evening before, so the date that is labelled today
    is tomorrow's and the date labelled tomorrow is the day after
    tomorrow's. *)
Theorem relative_day_of_date_string tz now d :
  let days := local_day tz (Date_of_isodate d) - local_day tz now in
  (getRelativeDay tz now (Date_of_isodate d) = Today <-> days = 0)
  /\ (getRelativeDay tz now (Date_of_isodate d) = Tomorrow <-> days = 1)
  /\ (getRelativeDay tz now (Date_of_isodate d) = Yesterday <-> days = -1)
  /\ (0 <= tz < MS_PER_DAY -> days = d - local_day tz now)
  /\ (- MS_PER_DAY <= tz < 0 -> days = d - 1 - local_day tz now).
Proof.
  intros days. subst days. rewrite getRelativeDay_by_days. cbv zeta.
  set (days := local_day tz (Date_of_isodate d) - local_day tz now).
  assert (days = d + tz / MS_PER_DAY - local_day tz now) as Hdays
    by (unfold days; rewrite local_day_of_isodate; reflexivity).
  assert (0 <= tz < MS_PER_DAY -> tz / MS_PER_DAY = 0) as Heast
    by (intros Htz; apply Z.div_small; exact Htz).
  assert (- MS_PER_DAY <= tz < 0 -> tz / MS_PER_DAY = -1) as Hwest.
  { intros Htz. symmetry.
    apply (Z.div_unique _ _ (-1) (tz + MS_PER_DAY)); unfold MS_PER_DAY in *; lia. }
  split; [|split; [|split; [|split]]].
  - destruct (Z.eqb_spec days 0); [tauto|].
    split; [|lia]. repeat case_match; discriminate.
  - destruct (Z.eqb_spec days 0); [split; [discriminate|lia]|].
    destruct (Z.eqb_spec days 1); [tauto|].
    split; [|lia]. repeat case_match; discriminate.
  - destruct (Z.eqb_spec days 0); [split; [discriminate|lia]|].
    destruct (Z.eqb_spec days 1); [split; [discriminate|lia]|].
    destruct (Z.eqb_spec days (-1)); [tauto|].
    split; [|lia]. repeat case_match; discriminate.
  - intros Htz. rewrite Hdays, (Heast Htz). lia.
  - intros Htz. rewrite Hdays, (Hwest Htz). lia.
Qed.

Lemma relative_day_of_date_string_witness :
  getRelativeDay Examples.edmonton Examples.thursday_morning
    (Date_of_isodate (Examples.jan15 + 1)) = Today.
Proof.
  apply (proj1 (relative_day_of_date_string Examples.edmonton
                  Examples.thursday_morning (Examples.jan15 + 1))).
  reflexivity.
Defined.

End HelperFacts.

(* ------------------------------------------------------------------------- *)
(** ** More on the finance-sync tools *)
(* ------------------------------------------------------------------------- *)

Section FinanceMore.
Import JS FinanceSync FinanceProps.

Variable newDocId : nat -> string.

Lemma payment_account_known key account :
  PAYMENT_ACCOUNTS !! key = Some account -> account ∈ known_accounts.
Proof.
  intros Hkey. apply elem_of_list_to_map_2 in Hkey.
  unfold known_accounts. set_unfold.
  destruct_or!; try contradiction; injection Hkey as _ <-; auto 10.
Qed.

Lemma account_of_cases config paymentMethod :
  account_of config paymentMethod ∈ known_accounts
  \/ account_of config paymentMethod = defaultAccount config.
Proof.
  unfold account_of.
  destruct (PAYMENT_ACCOUNTS !! toLowerCase paymentMethod) as [account|] eqn:Hkey;
    [|right; reflexivity].
  apply payment_account_known in Hkey.
  destruct account; [right; reflexivity|left; exact Hkey].
Qed.

(** What one round of the bulk tool does, case by case. *)
Lemma bulk_sync_step_missing config now dpm st bookingId :
  sahr_bookings (store st) !! bookingId = None ->
  bulk_sync_step newDocId config now dpm st bookingId
  = {| results := results st
                  ++ [mkBulkResult bookingId false None (Some "Not found"%string)];
       totalSynced := totalSynced st;
       totalAmount := totalAmount st;
       store := store st |}.
Proof. intros Hb. unfold bulk_sync_step. rewrite Hb. reflexivity. Qed.

Lemma bulk_sync_step_flagged config now dpm st bookingId booking :
  sahr_bookings (store st) !! bookingId = Some booking -> flagged booking ->
  bulk_sync_step newDocId config now dpm st bookingId
  = {| results := results st
                  ++ [mkBulkResult bookingId false None (Some "Already synced"%string)];
       totalSynced := totalSynced st;
       totalAmount := totalAmount st;
       store := store st |}.
Proof.
  intros Hb Hf. unfold bulk_sync_step, flagged in *. rewrite Hb, Hf. reflexivity.
Qed.

Lemma bulk_sync_step_fresh config now dpm st bookingId booking :
  sahr_bookings (store st) !! bookingId = Some booking ->
  truthy_bool (financeSynced booking) = false ->
  exists tx tipTx,
    let txId := newDocId (length (transactions (store st))) in
    let tipped := has_tip (tipAmount booking) in
    let added :=
      (txId, tx)
      :: (if tipped
          then [(newDocId (S (length (transactions (store st)))), tipTx)]
          else []) in
    bulk_sync_step newDocId config now dpm st bookingId
    = {| results := results st ++ [mkBulkResult bookingId true (Some txId) None];
         totalSynced := totalSynced st + 1;
         totalAmount := totalAmount st + total_amount added;
         store :=
           {| sahr_bookings :=
                alter (mark_synced now txId) bookingId (sahr_bookings (store st));
              transactions := transactions (store st) ++ added |} |}
    /\ amount tx = price booking
    /\ accountId tx
       = account_of config (or_str (paymentMethod booking) (or_str dpm "etransfer"))
    /\ category tx <> "tips"%string
    /\ category tipTx = "tips"%string
    /\ amount tipTx = default 0 (tipAmount booking).
Proof.
  intros Hb Hf. unfold bulk_sync_step. rewrite Hb, Hf.
  exists (bulk_transaction config bookingId booking dpm).
  exists (tip_transaction config bookingId false booking
            (account_of config (or_str (paymentMethod booking) (or_str dpm "etransfer")))
            (default 0 (tipAmount booking))).
  cbv zeta. unfold addDoc, updateDoc_synced, total_amount, bulk_transaction, account_of.
  cbn [fst snd transactions sahr_bookings foldr].
  split.
  { destruct (has_tip (tipAmount booking));
      cbn [snd transactions sahr_bookings foldr amount tip_transaction].
    - rewrite length_app. cbn [length].
      replace (length (transactions (store st)) + 1)%nat
        with (S (length (transactions (store st)))) by lia.
      rewrite <- app_assoc. cbn [app]. f_equal. lia.
    - f_equal. lia. }
  split; [reflexivity|split; [reflexivity|split; [|split; reflexivity]]].
  - cbn [category].
    destruct (SERVICE_CATEGORIES !! serviceType booking) as [c|] eqn:Hc;
      [|cbn; discriminate].
    apply elem_of_list_to_map_2 in Hc. set_unfold.
    destruct Hc as [Hc|[Hc|[Hc|[Hc|[Hc|[]]]]]]; injection Hc as _ ->;
      cbn; discriminate.
Qed.

Lemma bulk_from_cons config now dpm st bookingId bookingIds :
  bulk_from newDocId config now dpm st (bookingId :: bookingIds)
  = bulk_from newDocId config now dpm
      (bulk_sync_step newDocId config now dpm st bookingId) bookingIds.
Proof. reflexivity. Qed.

(** Summary of one round, whatever the case. *)
Lemma bulk_sync_step_summary config now dpm st bookingId :
  let st' := bulk_sync_step newDocId config now dpm st bookingId in
  exists r added,
    results st' = results st ++ [r]
    /\ br_bookingId r = bookingId
    /\ transactions (store st') = transactions (store st) ++ added
    /\ totalAmount st' = totalAmount st + total_amount added
    /\ totalSynced st' = totalSynced st + (if success r then 1 else 0)
    /\ dom (sahr_bookings (store st')) = dom (sahr_bookings (store st))
    /\ (success r = true <-> exists b, sahr_bookings (store st) !! bookingId = Some b
                                       /\ ~ flagged b)
    /\ (success r = false -> added = []).
Proof.
  intros st'. subst st'.
  destruct (sahr_bookings (store st) !! bookingId) as [booking|] eqn:Hb.
  - destruct (truthy_bool (financeSynced booking)) eqn:Hf.
    + rewrite (bulk_sync_step_flagged config now dpm st bookingId booking Hb Hf).
      exists (mkBulkResult bookingId false None (Some "Already synced"%string)), [].
      cbn [results store totalAmount totalSynced success br_bookingId].
      rewrite app_nil_r. unfold total_amount. cbn [foldr].
      split_and!; try reflexivity; try lia.
      split; [discriminate|]. intros (b & Heq & Hn).
      injection Heq as <-. exfalso. apply Hn, Hf.
    + destruct (bulk_sync_step_fresh config now dpm st bookingId booking Hb Hf)
        as (tx & tipTx & Hstep & _).
      cbv zeta in Hstep. rewrite Hstep.
      exists (mkBulkResult bookingId true
                (Some (newDocId (length (transactions (store st))))) None).
      eexists.
      cbn [results store totalAmount totalSynced success br_bookingId
           transactions sahr_bookings].
      rewrite dom_alter_L.
      split_and!; try reflexivity; try discriminate.
      split; [|reflexivity].
      intros _. exists booking. split; [reflexivity|]. unfold flagged. congruence.
  - rewrite (bulk_sync_step_missing config now dpm st bookingId Hb).
    exists (mkBulkResult bookingId false None (Some "Not found"%string)), [].
    cbn [results store totalAmount totalSynced success br_bookingId].
    rewrite app_nil_r. unfold total_amount. cbn [foldr].
    split_and!; try reflexivity; try lia.
    split; [discriminate|]. intros (b & Heq & _). discriminate.
Qed.

Lemma total_amount_app txs txs' :
  total_amount (txs ++ txs') = total_amount txs + total_amount txs'.
Proof.
  unfold total_amount. induction txs as [|tx txs IH]; cbn [app foldr]; lia.
Qed.

Lemma bulk_from_summary config now dpm bookingIds st :
  let st' := bulk_from newDocId config now dpm st bookingIds in
  exists rs added,
    results st' = results st ++ rs
    /\ br_bookingId <$> rs = bookingIds
    /\ transactions (store st') = transactions (store st) ++ added
    /\ totalAmount st' = totalAmount st + total_amount added
    /\ totalSynced st'
       = totalSynced st + Z.of_nat (length (List.filter success rs))
    /\ dom (sahr_bookings (store st')) = dom (sahr_bookings (store st)).
Proof.
  revert st. induction bookingIds as [|id ids IH]; intros st.
  - exists [], []. cbn. rewrite !app_nil_r. unfold total_amount. cbn.
    repeat split; lia.
  - cbv zeta. rewrite bulk_from_cons.
    destruct (bulk_sync_step_summary config now dpm st id)
      as (r & added & Hr & Hid & Htx & Hamount & Hsynced & Hdom & _).
    cbv zeta in *.
    destruct (IH (bulk_sync_step newDocId config now dpm st id))
      as (rs & added' & Hrs & Hids & Htx' & Hamount' & Hsynced' & Hdom').
    cbv zeta in *.
    exists (r :: rs), (added ++ added').
    rewrite Hrs, Hr, Htx', Htx, Hamount', Hamount, Hsynced', Hsynced, Hdom', Hdom.
    rewrite <- !app_assoc, total_amount_app. cbn [app fmap list_fmap List.filter].
    rewrite Hid, Hids.
    repeat split; try reflexivity; try lia.
    destruct (success r); cbn [length]; lia.
Qed.

(** X14.  The bulk tool answers with one result per requested id, in the
    order of the request, also for ids that are missing or repeated; it only
    adds to the transactions and neither creates nor deletes a booking; its
    [totalSynced] is the number of results marked as a success.  The
    bookings are taken to have service types and payment methods that the
    tables are looked up with as intended. *)
Theorem bulk_sync_accounts_for_every_id config now bookingIds dpm db :
  plain_bookings db dpm bookingIds = true ->
  let out := bulk_sync newDocId config now bookingIds dpm db in
  br_bookingId <$> results out = bookingIds
  /\ length (results out) = length bookingIds
  /\ (exists added, transactions (store out) = transactions db ++ added)
  /\ totalSynced out = Z.of_nat (length (List.filter success (results out)))
  /\ dom (sahr_bookings (store out)) = dom (sahr_bookings db).
Proof.
  intros _ out. subst out.
  change (bulk_sync newDocId config now bookingIds dpm db)
    with (bulk_from newDocId config now dpm
            {| results := []; totalSynced := 0; totalAmount := 0; store := db |}
            bookingIds).
  destruct (bulk_from_summary config now dpm bookingIds
              {| results := []; totalSynced := 0; totalAmount := 0; store := db |})
    as (rs & added & Hrs & Hids & Htx & Hamount & Hsynced & Hdom).
  cbv zeta in *. cbn [results totalSynced totalAmount store app] in *.
  rewrite Hrs. split; [exact Hids|].
  split; [rewrite <- Hids, length_fmap; reflexivity|].
  split; [exists added; exact Htx|].
  split; [lia|exact Hdom].
Qed.

Lemma bulk_sync_step_lookup config now dpm st bookingId id b' :
  sahr_bookings (store (bulk_sync_step newDocId config now dpm st bookingId)) !! id
  = Some b' ->
  (exists b, sahr_bookings (store st) !! id = Some b /\ (flagged b -> flagged b'))
  /\ (id = bookingId -> flagged b').
Proof.
  destruct (sahr_bookings (store st) !! bookingId) as [booking|] eqn:Hb.
  - destruct (truthy_bool (financeSynced booking)) eqn:Hf.
    + rewrite (bulk_sync_step_flagged config now dpm st bookingId booking Hb Hf).
      cbn [store]. intros Hid. split; [exists b'; tauto|].
      intros ->. rewrite Hb in Hid. injection Hid as <-. exact Hf.
    + destruct (bulk_sync_step_fresh config now dpm st bookingId booking Hb Hf)
        as (tx & tipTx & Hstep & _).
      cbv zeta in Hstep. rewrite Hstep. cbn [store sahr_bookings].
      rewrite lookup_alter. case_decide as Heq.
      * subst id. rewrite Hb. cbn. intros [= <-].
        split; [exists booking; split; [reflexivity|]|]; reflexivity.
      * intros Hid. split; [exists b'; tauto|]. congruence.
  - rewrite (bulk_sync_step_missing config now dpm st bookingId Hb).
    cbn [store]. intros Hid. split; [exists b'; tauto|].
    intros ->. congruence.
Qed.

Lemma bulk_from_lookup config now dpm bookingIds st id b' :
  sahr_bookings (store (bulk_from newDocId config now dpm st bookingIds)) !! id
  = Some b' ->
  (exists b, sahr_bookings (store st) !! id = Some b /\ (flagged b -> flagged b'))
  /\ (id ∈ bookingIds -> flagged b').
Proof.
  revert st. induction bookingIds as [|x ids IH]; intros st.
  - cbn. intros Hid. split; [exists b'; tauto|]. intros Hin. inversion Hin.
  - rewrite bulk_from_cons. intros Hid.
    destruct (IH _ Hid) as ((b1 & Hb1 & Hkeep1) & Hin1).
    destruct (bulk_sync_step_lookup _ _ _ _ _ _ _ Hb1) as ((b & Hb & Hkeep) & Hnow).
    split; [exists b; split; [exact Hb|tauto]|].
    intros Hin. apply elem_of_cons in Hin as [->|Hin]; [|apply Hin1, Hin].
    apply Hkeep1, Hnow. reflexivity.
Qed.

Lemma bulk_from_settled config now dpm bookingIds st :
  all_settled (store st) bookingIds ->
  bulk_from newDocId config now dpm st bookingIds
  = {| results := results st ++ (passed_over (store st) <$> bookingIds);
       totalSynced := totalSynced st;
       totalAmount := totalAmount st;
       store := store st |}.
Proof.
  revert st. induction bookingIds as [|x ids IH]; intros st Hall.
  - cbn. rewrite app_nil_r. destruct st; reflexivity.
  - rewrite bulk_from_cons.
    assert (bulk_sync_step newDocId config now dpm st x
            = {| results := results st ++ [passed_over (store st) x];
                 totalSynced := totalSynced st;
                 totalAmount := totalAmount st;
                 store := store st |}) as Hstep.
    { unfold passed_over.
      destruct (sahr_bookings (store st) !! x) as [b|] eqn:Hb.
      - apply (bulk_sync_step_flagged _ _ _ _ _ b Hb).
        apply (Hall x b); [apply list_elem_of_here|exact Hb].
      - apply bulk_sync_step_missing, Hb. }
    rewrite Hstep, IH; cbn [results totalSynced totalAmount store].
    + rewrite <- app_assoc. reflexivity.
    + intros id b Hin Hb. apply (Hall id b); [apply list_elem_of_further, Hin|exact Hb].
Qed.

(** X15.  Running the bulk tool a second time over the same ids posts
    nothing: every id is answered with [Already synced] (or [Not found] if
    no such booking exists), nothing counts as synced, and the store stays
    as the first run left it.  The bookings are taken to have service types
    and payment methods that the tables are looked up with as intended. *)
Theorem bulk_sync_again_posts_nothing config now now' bookingIds dpm dpm' db :
  plain_bookings db dpm bookingIds = true ->
  let first := bulk_sync newDocId config now bookingIds dpm db in
  bulk_sync newDocId config now' bookingIds dpm' (store first)
  = {| results := passed_over (store first) <$> bookingIds;
       totalSynced := 0;
       totalAmount := 0;
       store := store first |}.
Proof.
  intros _ first.
  change (bulk_sync newDocId config now' bookingIds dpm' (store first))
    with (bulk_from newDocId config now' dpm'
            {| results := []; totalSynced := 0; totalAmount := 0;
               store := store first |} bookingIds).
  rewrite bulk_from_settled; [reflexivity|].
  cbn [store]. intros id b Hin Hb.
  apply (proj2 (bulk_from_lookup config now dpm bookingIds _ id b Hb) Hin).
Qed.

Lemma string_append_empty (s : string) : (s ++ EmptyString)%string = s.
Proof.
  induction s as [|c s IH]; [reflexivity|].
  change (String c (s ++ EmptyString)%string = String c s). f_equal. exact IH.
Qed.

(** X16.  For a booking without the synced flag, the bulk tool with no
    default payment method and the single-booking tool with no override, no
    payment method and no notes post transactions with the same dates,
    amounts, categories, accounts and descriptions, whatever ids the store
    gives to the documents and whenever the two run; each marks the booking
    as synced with the id of the service transaction that it posted and
    leaves every other booking as it was.  The service type and the payment
    method are taken not to be names that every object inherits. *)
Theorem bulk_sync_agrees_with_single
    (newDocId' : nat -> string) config now now' bookingId db booking :
  sahr_bookings db !! bookingId = Some booking ->
  truthy_bool (financeSynced booking) = false ->
  plain_lookup (or_str (paymentMethod booking) "etransfer") (serviceType booking)
  = true ->
  let single :=
    sync_booking newDocId config now (mkSyncParams bookingId None None None) db in
  let bulk := bulk_sync newDocId' config now' [bookingId] None db in
  posted_line <$> transactions (store bulk)
  = posted_line <$> transactions (snd single)
  /\ (exists tx tip txId,
        fst single = Synced tx tip txId
        /\ sahr_bookings (snd single)
           = <[bookingId := mark_synced now txId booking]> (sahr_bookings db))
  /\ (exists txId',
        results bulk = [mkBulkResult bookingId true (Some txId') None]
        /\ sahr_bookings (store bulk)
           = <[bookingId := mark_synced now' txId' booking]> (sahr_bookings db)).
Proof.
  intros Hb Hf _ single bulk. subst single bulk.
  rewrite bulk_sync_single. unfold bulk_sync_step, sync_booking.
  cbn [store results totalSynced totalAmount sp_bookingId overrideAmount
       sp_paymentMethod notes].
  rewrite Hb, Hf. cbn [andb or_str or_num truthy_str].
  unfold addDoc, updateDoc_synced. cbn [fst snd transactions sahr_bookings].
  rewrite string_append_empty.
  assert (forall now txId,
            alter (mark_synced now txId) bookingId (sahr_bookings db)
            = <[bookingId := mark_synced now txId booking]> (sahr_bookings db))
    as Halter.
  { intros n i. apply map_eq. intros k. rewrite lookup_alter.
    case_decide as Hk.
    - subst k. rewrite lookup_insert_eq, Hb. reflexivity.
    - rewrite lookup_insert_ne by congruence. reflexivity. }
  destruct (has_tip (tipAmount booking));
    cbn [store results fst snd sahr_bookings transactions app].
  - split; [rewrite !fmap_app; reflexivity|].
    split; [eexists _, _, _; split; [reflexivity|apply Halter]|].
    eexists; split; [reflexivity|apply Halter].
  - split; [rewrite !fmap_app; reflexivity|].
    split; [eexists _, _, _; split; [reflexivity|apply Halter]|].
    eexists; split; [reflexivity|apply Halter].
Qed.

(** X17.  The single-booking tool touches no other booking, creates and
    deletes none, keeps every transaction that was posted before and adds
    at most two; for an id that is not in the store it answers with the
    not-found error and changes nothing. *)
Theorem sync_booking_frame config now params db :
  let out := sync_booking newDocId config now params db in
  (forall id, id <> sp_bookingId params ->
     sahr_bookings (snd out) !! id = sahr_bookings db !! id)
  /\ dom (sahr_bookings (snd out)) = dom (sahr_bookings db)
  /\ (exists added,
        transactions (snd out) = transactions db ++ added
        /\ (length added <= 2)%nat)
  /\ (sahr_bookings db !! sp_bookingId params = None ->
      out = (ErrorNotFound (sp_bookingId params), db)).
Proof.
  intros out. subst out.
  destruct (sahr_bookings db !! sp_bookingId params) as [booking|] eqn:Hb.
  - destruct (truthy_bool (financeSynced booking)
              && truthy_str (financeTransactionId booking)) eqn:Hs.
    + rewrite (sync_booking_already newDocId config now params db booking Hb Hs).
      cbn [snd]. split_and!; try reflexivity; try discriminate.
      exists []. rewrite app_nil_r. split; [reflexivity|cbn; lia].
    + destruct (sync_booking_fresh newDocId config now params db booking Hb Hs)
        as (tx & tipTx & Hout & _).
      cbv zeta in Hout. rewrite Hout. cbn [snd sahr_bookings transactions].
      split_and!; try discriminate.
      * intros id Hne. apply lookup_alter_ne. congruence.
      * apply dom_alter_L.
      * eexists. split; [reflexivity|].
        destruct (has_tip (tipAmount booking)); cbn [length]; lia.
  - unfold sync_booking. rewrite Hb. cbn [snd].
    split_and!; try reflexivity.
    exists []. rewrite app_nil_r. split; [reflexivity|cbn; lia].
Qed.

Lemma service_category_constant serviceType :
  or_str (SERVICE_CATEGORIES !! serviceType) "auto-detailing" = "auto-detailing"%string.
Proof.
  destruct (SERVICE_CATEGORIES !! serviceType) as [c|] eqn:Hc; [|reflexivity].
  apply elem_of_list_to_map_2 in Hc. set_unfold.
  destruct Hc as [Hc|[Hc|[Hc|[Hc|[Hc|[]]]]]]; injection Hc as _ ->; reflexivity.
Qed.

(** X18.  The service transaction that the single-booking tool posts for a
    booking not yet synced has the category auto-detailing whatever the
    service type, the override amount if one is given and is not 0 and the
    booking's price otherwise, the currency CAD, the configured entity, and
    one of the four known accounts or the configured default account: the
    account of the payment method given with the call, else of the booking's,
    else of etransfer, read without regard to letter case.  The service
    type and the payment method are taken not to be names that every object
    inherits, such as constructor. *)
Theorem synced_service_transaction config now params db booking :
  sahr_bookings db !! sp_bookingId params = Some booking ->
  truthy_bool (financeSynced booking) && truthy_str (financeTransactionId booking)
  = false ->
  plain_lookup
    (or_str (sp_paymentMethod params) (or_str (paymentMethod booking) "etransfer"))
    (serviceType booking) = true ->
  exists tx tip txId,
    fst (sync_booking newDocId config now params db) = Synced tx tip txId
    /\ (txId, tx) ∈ transactions (snd (sync_booking newDocId config now params db))
    /\ category tx = "auto-detailing"%string
    /\ amount tx
       = match overrideAmount params with
         | Some a => if a =? 0 then price booking else a
         | None => price booking
         end
    /\ currency tx = "CAD"%string
    /\ entity tx = entityId config
    /\ accountId tx
       = account_of config
           (or_str (sp_paymentMethod params)
                   (or_str (paymentMethod booking) "etransfer"))
    /\ (accountId tx ∈ known_accounts \/ accountId tx = defaultAccount config).
Proof.
  intros Hb Hs _. unfold sync_booking. rewrite Hb, Hs.
  unfold addDoc, updateDoc_synced. cbn [fst snd transactions sahr_bookings].
  destruct (has_tip (tipAmount booking)); cbn [fst snd transactions];
    eexists _, _, _; (split; [reflexivity|]); (split; [|
      cbn [category amount currency entity accountId];
      split; [apply service_category_constant|];
      split; [reflexivity|]; split; [reflexivity|]; split; [reflexivity|];
      split; [reflexivity|]; apply account_of_cases]).
  - rewrite !elem_of_app. left. right. apply list_elem_of_here.
  - rewrite elem_of_app. right. apply list_elem_of_here.
Qed.

End FinanceMore.

(* ------------------------------------------------------------------------- *)
(** ** The ledger tools *)
(* ------------------------------------------------------------------------- *)

Section LedgerFacts.
Import JS FinanceSync Ledger LedgerProps.

Lemma fold_left_sum (ts : list Tx) a :
  fold_left (fun sum t => sum + t_amount t) ts a
  = a + foldr (fun t n => t_amount t + n) 0 ts.
Proof.
  revert a. induction ts as [|t ts IH]; intros a; cbn [fold_left foldr]; [lia|].
  rewrite IH. lia.
Qed.

Lemma sum_amounts_filter p ts : sum_amounts (List.filter p ts) = sum_where p ts.
Proof.
  unfold sum_amounts, sum_where. rewrite fold_left_sum.
  induction ts as [|t ts IH]; cbn [List.filter foldr]; [reflexivity|].
  destruct (p t); cbn [foldr]; lia.
Qed.

Lemma length_filter_count p ts :
  Z.of_nat (length (List.filter p ts)) = count_where p ts.
Proof.
  unfold count_where. induction ts as [|t ts IH]; cbn [List.filter foldr]; [reflexivity|].
  destruct (p t); cbn [length]; lia.
Qed.

Lemma List_filter_filter {A} (p q : A -> bool) l :
  List.filter q (List.filter p l) = List.filter (fun x => p x && q x) l.
Proof.
  induction l as [|x l IH]; cbn [List.filter]; [reflexivity|].
  destruct (p x); cbn [List.filter andb]; [destruct (q x)|]; rewrite IH; reflexivity.
Qed.

Lemma sum_where_perm p ts ts' : ts ≡ₚ ts' -> sum_where p ts = sum_where p ts'.
Proof.
  unfold sum_where. induction 1; cbn [foldr]; lia.
Qed.

Lemma count_where_perm p ts ts' : ts ≡ₚ ts' -> count_where p ts = count_where p ts'.
Proof.
  unfold count_where. induction 1; cbn [foldr]; lia.
Qed.

Lemma sum_where_app p ts ts' :
  sum_where p (ts ++ ts') = sum_where p ts + sum_where p ts'.
Proof.
  unfold sum_where. induction ts as [|t ts IH]; cbn [app foldr]; lia.
Qed.

Lemma count_where_app p ts ts' :
  count_where p (ts ++ ts') = count_where p ts + count_where p ts'.
Proof.
  unfold count_where. induction ts as [|t ts IH]; cbn [app foldr]; lia.
Qed.

Lemma sum_where_filter p q ts :
  sum_where q (List.filter p ts) = sum_where (fun t => p t && q t) ts.
Proof.
  unfold sum_where. induction ts as [|t ts IH]; cbn [List.filter foldr]; [reflexivity|].
  destruct (p t); cbn [foldr andb]; lia.
Qed.

Lemma count_where_filter p q ts :
  count_where q (List.filter p ts) = count_where (fun t => p t && q t) ts.
Proof.
  unfold count_where. induction ts as [|t ts IH]; cbn [List.filter foldr]; [reflexivity|].
  destruct (p t); cbn [foldr andb]; lia.
Qed.

Lemma sum_where_nonpos p ts :
  (forall t, p t = true -> t_amount t <= 0) -> sum_where p ts <= 0.
Proof.
  intros Hp. unfold sum_where. induction ts as [|t ts IH]; cbn [foldr]; [lia|].
  destruct (p t) eqn:Ht; [apply Hp in Ht|]; lia.
Qed.

Lemma sum_where_positive p ts :
  (forall t, p t = true -> 0 < t_amount t) ->
  0 <= sum_where p ts /\ (count_where p ts = 0 -> sum_where p ts = 0)
  /\ 0 <= count_where p ts /\ (0 < count_where p ts -> 0 < sum_where p ts).
Proof.
  intros Hp. unfold sum_where, count_where.
  induction ts as [|t ts IH]; cbn [foldr]; [lia|].
  destruct (p t) eqn:Ht; [apply Hp in Ht|]; lia.
Qed.

Lemma report_query_perm config params ledger :
  report_query config params ledger
  ≡ₚ List.filter (in_report config params) (snd <$> ledger).
Proof. unfold report_query. apply sort_perm. Qed.

(** The totals of the report as sums over the ledger. *)
Lemma report_totals config params ledger :
  let r := revenue_report config params ledger in
  totalRevenue r = sum_where (is_service config params) (snd <$> ledger)
  /\ totalTips r = sum_where (is_tip config params) (snd <$> ledger)
  /\ totalExpenses r = - sum_where (is_expense config params) (snd <$> ledger)
  /\ bookingCount r = count_where (is_service config params) (snd <$> ledger)
  /\ netIncome r = totalRevenue r + totalTips r - totalExpenses r.
Proof.
  intros r. subst r. unfold revenue_report.
  cbn [totalRevenue totalTips totalExpenses bookingCount netIncome].
  rewrite List_filter_filter, !sum_amounts_filter, length_filter_count.
  rewrite !(sum_where_perm _ _ _ (report_query_perm config params ledger)).
  rewrite (count_where_perm _ _ _ (report_query_perm config params ledger)).
  rewrite !sum_where_filter, count_where_filter.
  split; [reflexivity|]. split; [reflexivity|]. split; [|split; reflexivity].
  assert (sum_where (fun t => in_report config params t && (t_amount t <? 0))
            (snd <$> ledger) <= 0) as Hneg.
  { apply sum_where_nonpos. intros t Ht.
    apply andb_true_iff in Ht as [_ Ht]. apply Z.ltb_lt in Ht. lia. }
  unfold is_expense. lia.
Qed.

Lemma tally_sums key a acc :
  tally_count (tally key a acc) = tally_count acc + 1
  /\ tally_revenue (tally key a acc) = tally_revenue acc + a.
Proof.
  unfold tally_count, tally_revenue.
  induction acc as [|[k [c r]] acc IH]; cbn [tally foldr fst snd]; [lia|].
  destruct (String.eqb k key); cbn [foldr fst snd]; lia.
Qed.

Lemma tally_keys key a acc :
  NoDup (fst <$> acc) -> NoDup (fst <$> tally key a acc)
  /\ forall k, k ∈ (fst <$> tally key a acc) <-> k = key \/ k ∈ (fst <$> acc).
Proof.
  induction acc as [|[k [c r]] acc IH]; intros Hnd; cbn [tally].
  - cbn. split; [apply NoDup_singleton|]. intros k.
    rewrite list_elem_of_singleton. split; [tauto|].
    intros [Hk|Hk]; [exact Hk|inversion Hk].
  - rewrite fmap_cons in Hnd. apply NoDup_cons in Hnd as [Hk Hnd].
    destruct (String.eqb_spec k key) as [->|Hne].
    + rewrite !fmap_cons. cbn [fst].
      split; [apply NoDup_cons; split; assumption|]. intros k'.
      rewrite !elem_of_cons. tauto.
    + destruct (IH Hnd) as [IHnd IHin].
      rewrite !fmap_cons. cbn [fst]. split.
      * apply NoDup_cons. split; [|exact IHnd].
        rewrite IHin. intros [Heq|Hin]; [congruence|exact (Hk Hin)].
      * intros k'. rewrite !elem_of_cons, IHin. tauto.
Qed.

Lemma tally_key_keys key a acc :
  NoDup (fst <$> acc) -> NoDup (fst <$> tally_key key a acc).
Proof.
  intros Hnd. unfold tally_key. destruct (JSObject.inherited key); [exact Hnd|].
  apply tally_keys, Hnd.
Qed.

Lemma tally_fold_keys (key : Tx -> string) ts :
  forall acc,
    NoDup (fst <$> acc) ->
    NoDup (fst <$> fold_left (fun acc t => tally_key (key t) (t_amount t) acc) ts acc).
Proof.
  induction ts as [|t ts IH]; intros acc Hnd; cbn [fold_left]; [exact Hnd|].
  apply IH, tally_key_keys, Hnd.
Qed.

Lemma tally_fold (key : Tx -> string) ts :
  (forall t, t ∈ ts -> JSObject.inherited (key t) = false) ->
  forall acc,
    let out := fold_left (fun acc t => tally_key (key t) (t_amount t) acc) ts acc in
    tally_count out = tally_count acc + Z.of_nat (length ts)
    /\ tally_revenue out = tally_revenue acc + sum_amounts ts.
Proof.
  unfold sum_amounts. induction ts as [|t ts IH]; intros Hplain acc;
    cbn [fold_left length].
  - split; lia.
  - assert (tally_key (key t) (t_amount t) acc = tally (key t) (t_amount t) acc)
      as Hkey.
    { unfold tally_key. rewrite (Hplain t (list_elem_of_here _ _)). reflexivity. }
    destruct (tally_sums (key t) (t_amount t) acc) as [Hc Hr].
    destruct (IH (fun t' Ht' => Hplain t' (list_elem_of_further _ _ _ Ht'))
                 (tally_key (key t) (t_amount t) acc)) as (IHc & IHr).
    cbv zeta in *. rewrite IHc, IHr, Hkey, Hc, Hr.
    rewrite (fold_left_sum ts (0 + t_amount t)), (fold_left_sum ts 0).
    split; lia.
Qed.

(** The service transactions of a report come from the ledger. *)
Lemma elem_of_service_transactions config params ledger t :
  t ∈ List.filter (fun t => String.eqb (t_category t) "auto-detailing")
        (List.filter (fun t => t_amount t >? 0) (report_query config params ledger)) ->
  t ∈ (snd <$> ledger) /\ is_service config params t = true.
Proof.
  unfold report_query.
  rewrite !elem_of_List_filter, elem_of_sort, elem_of_List_filter.
  intros [[[Hin Hq] Hpos] Hcat]. split; [exact Hin|].
  unfold is_service, in_report. rewrite Hq, Hpos, Hcat. reflexivity.
Qed.

(** X19.  In every revenue report expenses and service revenue are never
    negative, and the service revenue is zero exactly when no booking is
    counted; without expenses and tips the net income is the service
    revenue; each breakdown has one entry per key.  The counts of the
    breakdown by service type add up to the number of bookings, provided
    that no service type in it is a name that every object inherits, such
    as constructor; likewise for the breakdown by customer, when it is
    asked for, and the customer names. *)
Theorem revenue_report_adds_up config params ledger :
  let r := revenue_report config params ledger in
  0 <= totalExpenses r
  /\ 0 <= totalRevenue r
  /\ 0 <= bookingCount r
  /\ (bookingCount r = 0 <-> totalRevenue r = 0)
  /\ (totalTips r = 0 -> totalExpenses r = 0 -> netIncome r = totalRevenue r)
  /\ NoDup (fst <$> byServiceType r)
  /\ NoDup (fst <$> byCustomer r)
  /\ ((forall t, t ∈ (snd <$> ledger) -> is_service config params t = true ->
         JSObject.inherited (service_key t) = false) ->
      tally_count (byServiceType r) = bookingCount r)
  /\ (truthy_bool (includeCustomerBreakdown params) = true ->
      (forall t, t ∈ (snd <$> ledger) -> is_service config params t = true ->
         JSObject.inherited (customer_key t) = false) ->
      tally_count (byCustomer r) = bookingCount r)
  /\ (truthy_bool (includeCustomerBreakdown params) = false -> byCustomer r = []).
Proof.
  intros r.
  destruct (report_totals config params ledger) as (Hrev & _ & Hexp & Hcount & Hnet).
  cbv zeta in *. fold r in Hrev, Hexp, Hcount, Hnet.
  assert (forall t, is_service config params t = true -> 0 < t_amount t) as Hpos.
  { intros t Ht. unfold is_service in Ht.
    rewrite !andb_true_iff, Z.gtb_gt in Ht. lia. }
  destruct (sum_where_positive _ (snd <$> ledger) Hpos)
    as (Hnonneg & Hzero & Hcnt & Hsome).
  assert (sum_where (is_expense config params) (snd <$> ledger) <= 0) as Hneg.
  { apply sum_where_nonpos. intros t Ht. unfold is_expense in Ht.
    apply andb_true_iff in Ht as [_ Ht]. apply Z.ltb_lt in Ht. lia. }
  split; [lia|]. split; [lia|]. split; [lia|].
  split; [rewrite Hrev, Hcount; lia|].
  split; [lia|].
  unfold r, revenue_report.
  cbn [byServiceType byCustomer bookingCount totalRevenue].
  split; [apply tally_fold_keys, NoDup_nil_2|].
  split.
  { destruct (truthy_bool (includeCustomerBreakdown params));
      [apply tally_fold_keys|]; apply NoDup_nil_2. }
  split; [|split].
  - intros Hplain.
    match goal with
    | |- context [fold_left _ ?ts []] =>
        destruct (tally_fold service_key ts) with (acc := @nil (string * (Z * Z)))
          as (Hc1 & Hr1)
    end.
    { intros t Ht. apply elem_of_service_transactions in Ht as [Hin Hs].
      apply Hplain; assumption. }
    cbv zeta in *. unfold tally_count, tally_revenue in *. cbn [foldr] in *.
    lia.
  - intros -> Hplain.
    match goal with
    | |- context [fold_left _ ?ts []] =>
        destruct (tally_fold customer_key ts) with (acc := @nil (string * (Z * Z)))
          as (Hc2 & Hr2)
    end.
    { intros t Ht. apply elem_of_service_transactions in Ht as [Hin Hs].
      apply Hplain; assumption. }
    cbv zeta in *. unfold tally_count, tally_revenue in *. cbn [foldr] in *.
    lia.
  - intros ->. reflexivity.
Qed.

Lemma revenue_report_adds_up_witness :
  tally_count (byServiceType (revenue_report example_config january one_wash))
  = bookingCount (revenue_report example_config january one_wash).
Proof.
  refine (proj1 (proj2 (proj2 (proj2 (proj2 (proj2 (proj2 (proj2
    (revenue_report_adds_up example_config january one_wash)))))))) _).
  intros t Ht _. apply list_elem_of_singleton in Ht as ->. reflexivity.
Defined.

(** What one more document in the ledger changes in the report. *)
Lemma report_after_post config params ledger id t :
  let r := revenue_report config params ledger in
  let r' := revenue_report config params (ledger ++ [(id, t)]) in
  totalRevenue r'
  = totalRevenue r + (if is_service config params t then t_amount t else 0)
  /\ totalTips r' = totalTips r + (if is_tip config params t then t_amount t else 0)
  /\ totalExpenses r'
     = totalExpenses r - (if is_expense config params t then t_amount t else 0)
  /\ bookingCount r'
     = bookingCount r + (if is_service config params t then 1 else 0).
Proof.
  intros r r'.
  destruct (report_totals config params ledger) as (Hrev & Htip & Hexp & Hcount & _).
  destruct (report_totals config params (ledger ++ [(id, t)]))
    as (Hrev' & Htip' & Hexp' & Hcount' & _).
  cbv zeta in *. fold r in Hrev, Htip, Hexp, Hcount.
  fold r' in Hrev', Htip', Hexp', Hcount'.
  rewrite fmap_app in *. cbn [fmap list_fmap snd] in *.
  rewrite sum_where_app in Hrev', Htip', Hexp'. rewrite count_where_app in Hcount'.
  unfold sum_where at 2 in Hrev'. unfold sum_where at 2 in Htip'.
  unfold sum_where at 2 in Hexp'. unfold count_where at 2 in Hcount'.
  cbn [foldr] in *.
  split_and!; lia.
Qed.

Lemma expense_not_income c :
  String.eqb (expense_key c) "tips" = false
  /\ String.eqb (expense_key c) "auto-detailing" = false.
Proof. destruct c; split; reflexivity. Qed.

(** X20.  [record_expense] posts one transaction whose amount is minus the
    absolute value of the amount given, so never positive whatever sign the
    caller uses.  A report whose period covers the expense's date then shows
    expenses that are not lower and a net income that is not higher than
    before, and the same service revenue, tips and number of bookings. *)
Theorem expense_is_posted_negative
    (newDocId : nat -> string) config now params report ledger :
  let out := record_expense newDocId config now params ledger in
  let tx := fst (fst out) in
  let before := revenue_report config report ledger in
  let after := revenue_report config report (snd out) in
  String.leb (rp_startDate report) (or_str (ep_date params) (today_string now)) = true ->
  String.leb (or_str (ep_date params) (today_string now)) (rp_endDate report) = true ->
  snd out = ledger ++ [(snd (fst out), tx)]
  /\ t_amount tx = - Z.abs (ep_amount params)
  /\ t_amount tx <= 0
  /\ totalExpenses before <= totalExpenses after
  /\ netIncome after <= netIncome before
  /\ totalRevenue after = totalRevenue before
  /\ totalTips after = totalTips before
  /\ bookingCount after = bookingCount before.
Proof.
  intros out tx before after Hstart Hend.
  assert (snd out = ledger ++ [(snd (fst out), tx)]) as Hout by reflexivity.
  destruct (report_after_post config report ledger (snd (fst out)) tx)
    as (Hrev & Htip & Hexp & Hcount).
  cbv zeta in Hrev, Htip, Hexp, Hcount. rewrite <- Hout in Hrev, Htip, Hexp, Hcount.
  fold before in Hrev, Htip, Hexp, Hcount. fold after in Hrev, Htip, Hexp, Hcount.
  destruct (report_totals config report ledger) as (_ & _ & _ & _ & Hnet).
  destruct (report_totals config report (snd out)) as (_ & _ & _ & _ & Hnet').
  cbv zeta in Hnet, Hnet'. fold before in Hnet. fold after in Hnet'.
  assert (t_amount tx = - Z.abs (ep_amount params)) as Hamount by reflexivity.
  assert (in_report config report tx = true) as Hin.
  { unfold in_report. cbn [t_entity t_date tx out record_expense fst snd post].
    rewrite String.eqb_refl, Hstart, Hend. reflexivity. }
  destruct (expense_not_income (ep_category params)) as [Hnt Hns].
  assert (is_service config report tx = false) as Hs.
  { unfold is_service. rewrite Hin.
    change (t_category tx) with (expense_key (ep_category params)).
    rewrite Hns, andb_false_r. reflexivity. }
  assert (is_tip config report tx = false) as Ht.
  { unfold is_tip. rewrite Hin.
    change (t_category tx) with (expense_key (ep_category params)).
    rewrite Hnt. reflexivity. }
  assert ((if is_expense config report tx then t_amount tx else 0)
          = - Z.abs (ep_amount params)) as He.
  { unfold is_expense. rewrite Hin, Hamount. cbn [andb].
    destruct (Z.ltb_spec (- Z.abs (ep_amount params)) 0); lia. }
  rewrite Hs in Hrev, Hcount. rewrite Ht in Htip. rewrite He in Hexp.
  split; [exact Hout|]. split; [exact Hamount|].
  split_and!; lia.
Qed.

Lemma expense_is_posted_negative_witness :
  t_amount (fst (fst (record_expense FinanceExamples.numbered_id example_config 0
                        wax_expense []))) = - Z.abs 40.
Proof.
  refine (proj1 (proj2
    (expense_is_posted_negative FinanceExamples.numbered_id example_config 0
       wax_expense january [] _ _))); reflexivity.
Defined.

(** X21.  [record_tip], called with a customer id and a booking id, posts
    one transaction of category tips with the amount as given, without a
    check of its sign.  A report whose period covers the tip's date shows
    the same service revenue and number of bookings; for an amount that is
    not negative the tips and the net income are not lower than before and
    the expenses are the same; an amount below zero is also counted among
    the expenses: the tips and the net income are not higher and the
    expenses not lower than before.  The payment method is taken not to be
    a name that every object inherits. *)
Theorem tip_is_posted_as_given
    (newDocId : nat -> string) config now params report ledger :
  is_Some (tp_customerId params) ->
  is_Some (tp_bookingId params) ->
  JSObject.inherited (or_str (toLowerCase <$> tp_paymentMethod params) "etransfer")
  = false ->
  String.leb (rp_startDate report) (or_str (tp_date params) (today_string now)) = true ->
  String.leb (or_str (tp_date params) (today_string now)) (rp_endDate report) = true ->
  exists tx id,
    record_tip newDocId config now params ledger = Some (tx, id, ledger ++ [(id, tx)])
    /\ t_amount tx = tp_amount params
    /\ t_category tx = "tips"%string
    /\ let before := revenue_report config report ledger in
       let after := revenue_report config report (ledger ++ [(id, tx)]) in
       totalRevenue after = totalRevenue before
       /\ bookingCount after = bookingCount before
       /\ (0 <= tp_amount params ->
           totalTips before <= totalTips after
           /\ totalExpenses after = totalExpenses before
           /\ netIncome before <= netIncome after)
       /\ (tp_amount params < 0 ->
           totalTips after <= totalTips before
           /\ totalExpenses before <= totalExpenses after
           /\ netIncome after <= netIncome before).
Proof.
  intros [c Hc] [b Hb] _ Hstart Hend.
  unfold record_tip, post. rewrite Hc, Hb.
  match goal with
  | |- context [Some (?t, ?i, _)] => set (tx := t); set (id := i)
  end.
  exists tx, id. split; [reflexivity|]. split; [reflexivity|].
  split; [reflexivity|]. cbv zeta.
  set (before := revenue_report config report ledger).
  set (after := revenue_report config report (ledger ++ [(id, tx)])).
  destruct (report_after_post config report ledger id tx)
    as (Hrev & Htip & Hexp & Hcount).
  cbv zeta in Hrev, Htip, Hexp, Hcount.
  fold before in Hrev, Htip, Hexp, Hcount. fold after in Hrev, Htip, Hexp, Hcount.
  destruct (report_totals config report ledger) as (_ & _ & _ & _ & Hnet).
  destruct (report_totals config report (ledger ++ [(id, tx)]))
    as (_ & _ & _ & _ & Hnet').
  cbv zeta in Hnet, Hnet'. fold before in Hnet. fold after in Hnet'.
  assert (t_amount tx = tp_amount params) as Hamount by reflexivity.
  assert (in_report config report tx = true) as Hin.
  { unfold in_report. cbn [t_entity t_date tx].
    rewrite String.eqb_refl, Hstart, Hend. reflexivity. }
  assert (is_service config report tx = false) as Hs.
  { unfold is_service. rewrite Hin.
    change (t_category tx) with "tips"%string. rewrite andb_false_r. reflexivity. }
  assert (is_tip config report tx = true) as Ht.
  { unfold is_tip. rewrite Hin. reflexivity. }
  assert (is_expense config report tx = (tp_amount params <? 0)) as He.
  { unfold is_expense. rewrite Hin, Hamount. reflexivity. }
  rewrite Hs in Hrev, Hcount. rewrite Ht in Htip. rewrite He, Hamount in Hexp.
  rewrite Hamount in Htip.
  destruct (Z.ltb_spec (tp_amount params) 0); split_and!; lia.
Qed.

Lemma tip_is_posted_as_given_witness :
  exists tx id,
    record_tip FinanceExamples.numbered_id example_config 0 negative_tip []
    = Some (tx, id, [(id, tx)])
    /\ t_amount tx = -5.
Proof.
  destruct (tip_is_posted_as_given FinanceExamples.numbered_id example_config 0
              negative_tip january []
              (ex_intro _ _ eq_refl) (ex_intro _ _ eq_refl) eq_refl eq_refl eq_refl)
    as (tx & id & Hposted & Hamount & _).
  exists tx, id. split; [exact Hposted|exact Hamount].
Defined.

End LedgerFacts.

(* ------------------------------------------------------------------------- *)
(** ** The lifetime value of a customer *)
(* ------------------------------------------------------------------------- *)

Section LtvFacts.
Import JS FinanceSync Ledger LedgerProps.

Lemma ltv_query_perm config params ledger :
  ltv_query config params ledger
  ≡ₚ List.filter (of_customer config params) (snd <$> ledger).
Proof. unfold ltv_query. apply sort_perm. Qed.

(** The totals of the lifetime value as sums over the ledger. *)
Lemma ltv_totals config params ledger :
  let l := customer_ltv config params ledger in
  l_totalRevenue l = sum_where (customer_service config params) (snd <$> ledger)
  /\ l_totalTips l = sum_where (customer_tip config params) (snd <$> ledger)
  /\ l_bookingCount l = count_where (customer_service config params) (snd <$> ledger)
  /\ ltv l = l_totalRevenue l + l_totalTips l.
Proof.
  intros l. subst l. unfold customer_ltv.
  cbn [l_totalRevenue l_totalTips l_bookingCount ltv].
  rewrite !sum_amounts_filter, length_filter_count.
  rewrite !(sum_where_perm _ _ _ (ltv_query_perm config params ledger)).
  rewrite (count_where_perm _ _ _ (ltv_query_perm config params ledger)).
  rewrite !sum_where_filter, count_where_filter.
  split_and!; reflexivity.
Qed.

Lemma ltv_after_post config params ledger id t :
  let l := customer_ltv config params ledger in
  let l' := customer_ltv config params (ledger ++ [(id, t)]) in
  l_totalRevenue l'
  = l_totalRevenue l + (if customer_service config params t then t_amount t else 0)
  /\ l_totalTips l'
     = l_totalTips l + (if customer_tip config params t then t_amount t else 0)
  /\ l_bookingCount l'
     = l_bookingCount l + (if customer_service config params t then 1 else 0).
Proof.
  intros l l'.
  destruct (ltv_totals config params ledger) as (Hrev & Htip & Hcount & _).
  destruct (ltv_totals config params (ledger ++ [(id, t)]))
    as (Hrev' & Htip' & Hcount' & _).
  cbv zeta in *. fold l in Hrev, Htip, Hcount. fold l' in Hrev', Htip', Hcount'.
  rewrite fmap_app in *. cbn [fmap list_fmap snd] in *.
  rewrite sum_where_app in Hrev', Htip'. rewrite count_where_app in Hcount'.
  unfold sum_where at 2 in Hrev'. unfold sum_where at 2 in Htip'.
  unfold count_where at 2 in Hcount'.
  cbn [foldr] in *.
  split_and!; lia.
Qed.

(** A document of another entity or another customer changes nothing. *)
Lemma ltv_after_other config params ledger id t :
  of_customer config params t = false ->
  customer_ltv config params (ledger ++ [(id, t)]) = customer_ltv config params ledger.
Proof.
  intros Hother. unfold customer_ltv, ltv_query.
  rewrite fmap_app, List.filter_app. cbn [fmap list_fmap snd List.filter].
  fold (of_customer config params t). rewrite Hother, app_nil_r. reflexivity.
Qed.

Lemma sum_where_split p q r ts :
  (forall t, t ∈ ts -> p t = q t || r t) ->
  (forall t, q t && r t = false) ->
  sum_where p ts = sum_where q ts + sum_where r ts
  /\ count_where p ts = count_where q ts + count_where r ts.
Proof.
  intros Hp Hqr. unfold sum_where, count_where.
  induction ts as [|t ts IH]; cbn [foldr]; [lia|].
  destruct IH as [IHs IHc].
  { intros t' Ht'. apply Hp. apply elem_of_cons. right. exact Ht'. }
  specialize (Hp t (list_elem_of_here _ _)). specialize (Hqr t).
  rewrite Hp. destruct (q t), (r t); cbn [orb andb] in *; try discriminate; lia.
Qed.

Lemma sum_where_never ts : sum_where (fun _ => false) ts = 0.
Proof. unfold sum_where. induction ts as [|t ts IH]; cbn [foldr]; lia. Qed.

Lemma count_where_nonneg p ts : 0 <= count_where p ts.
Proof.
  unfold count_where. induction ts as [|t ts IH]; cbn [foldr]; [lia|].
  destruct (p t); lia.
Qed.

(** X23.  The lifetime value of a customer is never changed by
    [record_expense]: an expense carries no customer name.  A tip recorded
    with [record_tip] is counted among the tips of the customer named in the
    call, whatever its sign - the tips are not lower than before for an
    amount that is not negative and not higher for one that is not positive
    - and leaves that customer's service revenue and number of bookings and
    the lifetime value of every other name as they were (for a payment
    method that is not a name that every object inherits). *)
Theorem ltv_after_ledger_tools
    (newDocId : nat -> string) config now who expense tip ledger :
  customer_ltv config who (snd (record_expense newDocId config now expense ledger))
  = customer_ltv config who ledger
  /\ forall tx id ledger',
       record_tip newDocId config now tip ledger = Some (tx, id, ledger') ->
       JSObject.inherited (or_str (toLowerCase <$> tp_paymentMethod tip) "etransfer")
       = false ->
       (lp_customerName who <> tp_customerName tip ->
        customer_ltv config who ledger' = customer_ltv config who ledger)
       /\ (lp_customerName who = tp_customerName tip ->
           (0 <= tp_amount tip ->
            l_totalTips (customer_ltv config who ledger)
            <= l_totalTips (customer_ltv config who ledger'))
           /\ (tp_amount tip <= 0 ->
               l_totalTips (customer_ltv config who ledger')
               <= l_totalTips (customer_ltv config who ledger))
           /\ l_totalRevenue (customer_ltv config who ledger')
              = l_totalRevenue (customer_ltv config who ledger)
           /\ l_bookingCount (customer_ltv config who ledger')
              = l_bookingCount (customer_ltv config who ledger)).
Proof.
  split.
  - unfold record_expense, post. cbn [snd].
    apply ltv_after_other. unfold of_customer. cbn [t_metadata mbind option_bind
      m_customerName]. apply andb_false_r.
  - intros tx id ledger' Hposted _. unfold record_tip, post in Hposted.
    destruct (tp_customerId tip) as [c|]; [|discriminate].
    destruct (tp_bookingId tip) as [b|]; [|discriminate].
    injection Hposted as <- <- <-.
    match goal with
    | |- context [ledger ++ [(?i, ?t)]] => set (tx := t); set (id := i)
    end.
    assert (of_customer config who tx
            = String.eqb (tp_customerName tip) (lp_customerName who)) as Hof.
    { unfold of_customer. cbn [tx t_entity t_metadata mbind option_bind m_customerName].
      rewrite String.eqb_refl. reflexivity. }
    split.
    + intros Hne. apply ltv_after_other. rewrite Hof.
      apply String.eqb_neq. congruence.
    + intros Heq.
      destruct (ltv_after_post config who ledger id tx) as (Hrev & Htip & Hcount).
      cbv zeta in Hrev, Htip, Hcount.
      unfold customer_service in Hrev, Hcount. unfold customer_tip in Htip.
      rewrite Hof, Heq, String.eqb_refl in Hrev, Htip, Hcount.
      cbn [tx t_category t_amount andb] in Hrev, Htip, Hcount.
      change (String.eqb "tips" "auto-detailing") with false in Hrev, Hcount.
      change (String.eqb "tips" "tips") with true in Htip.
      cbv iota in Hrev, Htip, Hcount.
      split_and!; lia.
Qed.

(** X24.  When every transaction of the ledger belongs to one customer and
    to the period of a report, the lifetime value and the report agree on
    the tips, but the lifetime value also counts the service transactions
    with an amount of zero or less, which the report leaves out: its number
    of bookings is the report's plus the number of these transactions, and
    it shows at most as much service revenue. *)
Theorem ltv_counts_unpaid_services config who report ledger :
  forallb (fun t => in_report config report t && of_customer config who t)
          (snd <$> ledger) = true ->
  let l := customer_ltv config who ledger in
  let r := revenue_report config report ledger in
  l_totalTips l = totalTips r
  /\ l_bookingCount l = bookingCount r + count_where unpaid_service (snd <$> ledger)
  /\ l_totalRevenue l <= totalRevenue r
  /\ bookingCount r <= l_bookingCount l.
Proof.
  intros Hall l r.
  destruct (ltv_totals config who ledger) as (Hrev & Htip & Hcount & _).
  destruct (report_totals config report ledger) as (Hrev' & Htip' & _ & Hcount' & _).
  cbv zeta in *. fold l in Hrev, Htip, Hcount. fold r in Hrev', Htip', Hcount'.
  rewrite forallb_forall in Hall.
  assert (forall t, t ∈ (snd <$> ledger) ->
            in_report config report t = true /\ of_customer config who t = true)
    as Hin.
  { intros t Ht. apply andb_true_iff, Hall, list_elem_of_In, Ht. }
  destruct (sum_where_split (customer_tip config who) (is_tip config report)
              (fun _ => false) (snd <$> ledger)) as [Hs1 _].
  { intros t Ht. destruct (Hin t Ht) as [Hr Hc].
    unfold customer_tip, is_tip. rewrite Hr, Hc, orb_false_r. reflexivity. }
  { intros t. apply andb_false_r. }
  destruct (sum_where_split (customer_service config who) (is_service config report)
              unpaid_service (snd <$> ledger)) as [Hs2 Hc2].
  { intros t Ht. destruct (Hin t Ht) as [Hr Hc].
    unfold customer_service, is_service, unpaid_service. rewrite Hr, Hc.
    cbn [andb]. destruct (String.eqb (t_category t) "auto-detailing");
      cbn [andb]; rewrite ?andb_false_r; [|reflexivity].
    rewrite andb_true_r.
    destruct (Z.gtb_spec (t_amount t) 0); destruct (Z.leb_spec (t_amount t) 0);
      try reflexivity; lia. }
  { intros t. unfold is_service, unpaid_service.
    destruct (Z.gtb_spec (t_amount t) 0); destruct (Z.leb_spec (t_amount t) 0);
      rewrite ?andb_false_r; cbn [andb]; rewrite ?andb_false_r;
      try reflexivity; lia. }
  pose proof (sum_where_never (snd <$> ledger)) as Hzero.
  assert (sum_where unpaid_service (snd <$> ledger) <= 0) as Hneg.
  { apply sum_where_nonpos. intros t Ht. unfold unpaid_service in Ht.
    apply andb_true_iff in Ht as [_ Ht]. apply Z.leb_le in Ht. exact Ht. }
  pose proof (count_where_nonneg unpaid_service (snd <$> ledger)) as Hcnt.
  split_and!; lia.
Qed.

Lemma ltv_counts_unpaid_services_witness :
  l_bookingCount (customer_ltv example_config ann free_detail)
  = bookingCount (revenue_report example_config january free_detail)
    + count_where unpaid_service (snd <$> free_detail).
Proof.
  refine (proj1 (proj2
    (ltv_counts_unpaid_services example_config ann january free_detail _)));
    reflexivity.
Defined.

Lemma ltv_after_ledger_tools_witness :
  customer_ltv example_config ann
    (snd (record_expense FinanceExamples.numbered_id example_config 0 wax_expense
            free_detail))
  = customer_ltv example_config ann free_detail.
Proof.
  exact (proj1 (ltv_after_ledger_tools FinanceExamples.numbered_id example_config 0
                  ann wax_expense negative_tip free_detail)).
Defined.

End LtvFacts.

(* ------------------------------------------------------------------------- *)
(** ** A synced booking in the revenue report *)
(* ------------------------------------------------------------------------- *)

Section SyncAndReport.
Import JS FinanceSync Ledger LedgerProps FinanceProps.

Variable newDocId : nat -> string.

Lemma ledger_after_sync config now params db booking :
  sahr_bookings db !! sp_bookingId params = Some booking ->
  truthy_bool (financeSynced booking) && truthy_str (financeTransactionId booking)
  = false ->
  exists txId tx tipId tipTx,
    ledger_of (snd (sync_booking newDocId config now params db))
    = ledger_of db
      ++ (txId, tx)
         :: (if has_tip (tipAmount booking) then [(tipId, tipTx)] else [])
    /\ (t_date tx = appointmentDate booking
        /\ t_entity tx = entityId config
        /\ t_amount tx = or_num (overrideAmount params) (price booking)
        /\ t_category tx = "auto-detailing"%string)
    /\ (t_date tipTx = appointmentDate booking
        /\ t_entity tipTx = entityId config
        /\ t_amount tipTx = default 0 (tipAmount booking)
        /\ t_category tipTx = "tips"%string)
    /\ t_metadata tx ≫= m_customerName = Some (customerName booking)
    /\ t_metadata tipTx ≫= m_customerName = Some (customerName booking).
Proof.
  intros Hb Hs. unfold sync_booking. rewrite Hb, Hs.
  unfold addDoc, updateDoc_synced, ledger_of.
  cbn [fst snd transactions sahr_bookings].
  destruct (has_tip (tipAmount booking)); cbn [fst snd transactions].
  - rewrite !fmap_app, <- app_assoc. cbn [fmap list_fmap app fst snd].
    eexists _, _, _, _. split; [reflexivity|].
    cbn [of_sync t_date t_entity t_amount t_category tx_date entity amount category
         tip_transaction].
    rewrite service_category_constant. split_and!; reflexivity.
  - rewrite !fmap_app. cbn [fmap list_fmap app fst snd].
    exists (newDocId (length (transactions db))). eexists.
    exists EmptyString.
    exists (of_sync (tip_transaction config (sp_bookingId params) true booking
                       EmptyString (default 0 (tipAmount booking)))).
    split; [reflexivity|].
    cbn [of_sync t_date t_entity t_amount t_category tx_date entity amount category
         tip_transaction].
    rewrite service_category_constant. split_and!; reflexivity.
Qed.

(** X22.  After the single-booking tool has synced a booking whose date lies
    in the period of a report, the report counts one booking more, and the
    amount posted among the service revenue, only when that amount is above
    zero; an amount below zero is counted among the expenses, an amount of
    zero nowhere.  The tip, when the booking has one, is counted among the
    tips.  What the posted amounts are not counted in stays as it was, and
    what they are counted in does not become lower.
    The service type and the payment method are taken not to be names that
    every object inherits. *)
Theorem synced_booking_in_report config now params report db booking :
  sahr_bookings db !! sp_bookingId params = Some booking ->
  truthy_bool (financeSynced booking) && truthy_str (financeTransactionId booking)
  = false ->
  plain_lookup
    (or_str (sp_paymentMethod params) (or_str (paymentMethod booking) "etransfer"))
    (serviceType booking) = true ->
  String.leb (rp_startDate report) (appointmentDate booking) = true ->
  String.leb (appointmentDate booking) (rp_endDate report) = true ->
  let paid := or_num (overrideAmount params) (price booking) in
  let tip := if has_tip (tipAmount booking) then default 0 (tipAmount booking) else 0 in
  let before := revenue_report config report (ledger_of db) in
  let after :=
    revenue_report config report
      (ledger_of (snd (sync_booking newDocId config now params db))) in
  bookingCount after = bookingCount before + (if paid >? 0 then 1 else 0)
  /\ totalTips before <= totalTips after
  /\ (has_tip (tipAmount booking) = false -> totalTips after = totalTips before)
  /\ totalRevenue before <= totalRevenue after
  /\ (paid <= 0 -> totalRevenue after = totalRevenue before)
  /\ totalExpenses before <= totalExpenses after
  /\ (0 <= paid -> totalExpenses after = totalExpenses before)
  /\ (0 <= paid -> netIncome before <= netIncome after).
Proof.
  intros Hb Hs _ Hstart Hend paid before after.
  set (tip := if has_tip (tipAmount booking)
              then default 0 (tipAmount booking) else 0) in *.
  destruct (ledger_after_sync config now params db booking Hb Hs)
    as (txId & tx & tipId & tipTx & Hledger
        & (Hdate & Hentity & Hamount & Hcategory)
        & (Hdate' & Hentity' & Hamount' & Hcategory') & _).
  fold paid in Hamount.
  assert (in_report config report tx = true) as Hin.
  { unfold in_report. rewrite Hentity, Hdate, String.eqb_refl, Hstart, Hend.
    reflexivity. }
  assert (in_report config report tipTx = true) as Hin'.
  { unfold in_report. rewrite Hentity', Hdate', String.eqb_refl, Hstart, Hend.
    reflexivity. }
  assert (is_service config report tx = (paid >? 0)) as Hs1.
  { unfold is_service. rewrite Hin, Hcategory, Hamount, andb_true_r. reflexivity. }
  assert (is_tip config report tx = false) as Ht1.
  { unfold is_tip. rewrite Hin, Hcategory. reflexivity. }
  assert (is_expense config report tx = (paid <? 0)) as He1.
  { unfold is_expense. rewrite Hin, Hamount. reflexivity. }
  assert (is_service config report tipTx = false) as Hs2.
  { unfold is_service. rewrite Hin', Hcategory', andb_false_r. reflexivity. }
  assert (is_tip config report tipTx = true) as Ht2.
  { unfold is_tip. rewrite Hin', Hcategory'. reflexivity. }
  destruct (report_totals config report (ledger_of db)) as (_ & _ & _ & _ & Hnet).
  destruct (report_totals config report
              (ledger_of (snd (sync_booking newDocId config now params db))))
    as (_ & _ & _ & _ & Hnet').
  cbv zeta in Hnet, Hnet'. fold before in Hnet. fold after in Hnet'.
  destruct (report_after_post config report (ledger_of db) txId tx)
    as (Hrev1 & Htip1 & Hexp1 & Hcount1).
  cbv zeta in Hrev1, Htip1, Hexp1, Hcount1.
  fold before in Hrev1, Htip1, Hexp1, Hcount1.
  rewrite Hs1, Hamount in Hrev1. rewrite Ht1 in Htip1.
  rewrite He1, Hamount in Hexp1. rewrite Hs1 in Hcount1.
  subst tip after. rewrite Hledger in *.
  destruct (has_tip (tipAmount booking)) eqn:Htipped.
  - pose proof Htipped as Htipped'.
    apply has_tip_spec in Htipped' as (t & Ht & Hpos).
    rewrite Ht in *. change (default 0 (Some t)) with t in *.
    destruct (report_after_post config report (ledger_of db ++ [(txId, tx)])
                tipId tipTx) as (Hrev2 & Htip2 & Hexp2 & Hcount2).
    cbv zeta in Hrev2, Htip2, Hexp2, Hcount2.
    rewrite <- app_assoc in Hrev2, Htip2, Hexp2, Hcount2.
    cbn [app] in Hrev2, Htip2, Hexp2, Hcount2.
    rewrite Hs2 in Hrev2, Hcount2. rewrite Ht2, Hamount' in Htip2.
    unfold is_expense in Hexp2. rewrite Hin', Hamount' in Hexp2. cbn [andb] in Hexp2.
    destruct (Z.ltb_spec t 0); [lia|].
    destruct (Z.ltb_spec paid 0); destruct (Z.gtb_spec paid 0); split_and!; lia.
  - destruct (Z.ltb_spec paid 0); destruct (Z.gtb_spec paid 0); split_and!; lia.
Qed.

(** X25.  After the single-booking tool has synced a booking, the lifetime
    value of the booking's customer shows one booking more whatever the
    sign of the amount posted, zero and negative amounts included; the
    amount is counted among the service revenue, which does not become
    lower for an amount that is not negative and not higher for one that is
    not positive, and the tip among the tips; the lifetime value of every
    other name is as it was.  The service type and the payment method are taken
    not to be names that every object inherits. *)
Theorem synced_booking_in_ltv config now params who db booking :
  sahr_bookings db !! sp_bookingId params = Some booking ->
  truthy_bool (financeSynced booking) && truthy_str (financeTransactionId booking)
  = false ->
  plain_lookup
    (or_str (sp_paymentMethod params) (or_str (paymentMethod booking) "etransfer"))
    (serviceType booking) = true ->
  let paid := or_num (overrideAmount params) (price booking) in
  let before := customer_ltv config who (ledger_of db) in
  let after :=
    customer_ltv config who
      (ledger_of (snd (sync_booking newDocId config now params db))) in
  (lp_customerName who = customerName booking ->
   l_bookingCount after = l_bookingCount before + 1
   /\ (0 <= paid -> l_totalRevenue before <= l_totalRevenue after)
   /\ (paid <= 0 -> l_totalRevenue after <= l_totalRevenue before)
   /\ l_totalTips before <= l_totalTips after
   /\ (has_tip (tipAmount booking) = false ->
       l_totalTips after = l_totalTips before))
  /\ (lp_customerName who <> customerName booking -> after = before).
Proof.
  intros Hb Hs _ paid before after.
  set (tip := if has_tip (tipAmount booking)
              then default 0 (tipAmount booking) else 0) in *.
  destruct (ledger_after_sync config now params db booking Hb Hs)
    as (txId & tx & tipId & tipTx & Hledger
        & (_ & Hentity & Hamount & Hcategory)
        & (_ & Hentity' & Hamount' & Hcategory') & Hname & Hname').
  fold paid in Hamount.
  assert (of_customer config who tx
          = String.eqb (customerName booking) (lp_customerName who)) as Hof.
  { unfold of_customer. rewrite Hentity, Hname, String.eqb_refl. reflexivity. }
  assert (of_customer config who tipTx
          = String.eqb (customerName booking) (lp_customerName who)) as Hof'.
  { unfold of_customer. rewrite Hentity', Hname', String.eqb_refl. reflexivity. }
  subst tip after. rewrite Hledger. split.
  - intros Heq. rewrite Heq, String.eqb_refl in Hof, Hof'.
    assert (customer_service config who tx = true) as Hs1.
    { unfold customer_service. rewrite Hof, Hcategory. reflexivity. }
    assert (customer_tip config who tx = false) as Ht1.
    { unfold customer_tip. rewrite Hof, Hcategory. reflexivity. }
    assert (customer_service config who tipTx = false) as Hs2.
    { unfold customer_service. rewrite Hof', Hcategory'. reflexivity. }
    assert (customer_tip config who tipTx = true) as Ht2.
    { unfold customer_tip. rewrite Hof', Hcategory'. reflexivity. }
    destruct (ltv_totals config who (ledger_of db)) as (_ & _ & _ & Hltv).
    cbv zeta in Hltv. fold before in Hltv.
    destruct (ltv_after_post config who (ledger_of db) txId tx)
      as (Hrev1 & Htip1 & Hcount1).
    cbv zeta in Hrev1, Htip1, Hcount1. fold before in Hrev1, Htip1, Hcount1.
    rewrite Hs1, Hamount in Hrev1. rewrite Ht1 in Htip1. rewrite Hs1 in Hcount1.
    cbv iota in Hrev1, Htip1, Hcount1.
    destruct (has_tip (tipAmount booking)) eqn:Htipped.
    + pose proof Htipped as Htipped'.
      apply has_tip_spec in Htipped' as (t & Ht & Hpos).
      rewrite Ht in *. change (default 0 (Some t)) with t in *.
      destruct (ltv_totals config who (ledger_of db ++ [(txId, tx); (tipId, tipTx)]))
        as (_ & _ & _ & Hltv').
      cbv zeta in Hltv'.
      destruct (ltv_after_post config who (ledger_of db ++ [(txId, tx)]) tipId tipTx)
        as (Hrev2 & Htip2 & Hcount2).
      cbv zeta in Hrev2, Htip2, Hcount2.
      rewrite <- app_assoc in Hrev2, Htip2, Hcount2.
      cbn [app] in Hrev2, Htip2, Hcount2.
      rewrite Hs2 in Hrev2, Hcount2. rewrite Ht2, Hamount' in Htip2.
      cbv iota in Hrev2, Htip2, Hcount2.
      split_and!; lia.
    + destruct (ltv_totals config who (ledger_of db ++ [(txId, tx)]))
        as (_ & _ & _ & Hltv').
      cbv zeta in Hltv'.
      split_and!; lia.
  - intros Hne.
    assert (String.eqb (customerName booking) (lp_customerName who) = false) as Hneq.
    { apply String.eqb_neq. congruence. }
    rewrite Hneq in Hof, Hof'.
    destruct (has_tip (tipAmount booking)).
    + change (ledger_of db ++ [(txId, tx); (tipId, tipTx)])
        with (ledger_of db ++ [(txId, tx)] ++ [(tipId, tipTx)]).
      rewrite app_assoc, (ltv_after_other _ _ _ _ _ Hof').
      apply ltv_after_other, Hof.
    + apply ltv_after_other, Hof.
Qed.

End SyncAndReport.

Lemma bulk_sync_agrees_with_single_witness :
  FinanceProps.posted_line
  <$> FinanceSync.transactions
        (FinanceSync.store
           (FinanceSync.bulk_sync FinanceExamples.numbered_id FinanceExamples.config 1
              ["b1"%string] None FinanceExamples.store0))
  = FinanceProps.posted_line
    <$> FinanceSync.transactions
          (snd (FinanceSync.sync_booking FinanceExamples.numbered_id
                  FinanceExamples.config 0 FinanceExamples.sync_b1
                  FinanceExamples.store0)).
Proof.
  refine (proj1 (bulk_sync_agrees_with_single FinanceExamples.numbered_id
                   FinanceExamples.numbered_id FinanceExamples.config 0 1 "b1"
                   FinanceExamples.store0 FinanceExamples.completed_booking _ _ _));
    reflexivity.
Defined.

Lemma bulk_sync_accounts_for_every_id_witness :
  length (FinanceSync.results
            (FinanceSync.bulk_sync FinanceExamples.numbered_id FinanceExamples.config
               0 ["b1"; "nobody"; "b1"]%string None FinanceExamples.store0))
  = 3%nat.
Proof.
  exact (proj1 (proj2
    (bulk_sync_accounts_for_every_id FinanceExamples.numbered_id
       FinanceExamples.config 0 ["b1"; "nobody"; "b1"]%string None
       FinanceExamples.store0 eq_refl))).
Defined.

Lemma bulk_sync_again_posts_nothing_witness :
  FinanceSync.totalSynced
    (FinanceSync.bulk_sync FinanceExamples.numbered_id FinanceExamples.config 1
       ["b1"; "b2"]%string None
       (FinanceSync.store
          (FinanceSync.bulk_sync FinanceExamples.numbered_id FinanceExamples.config 0
             ["b1"; "b2"]%string None FinanceExamples.store0)))
  = 0.
Proof.
  exact (f_equal FinanceSync.totalSynced
           (bulk_sync_again_posts_nothing FinanceExamples.numbered_id
              FinanceExamples.config 0 1 ["b1"; "b2"]%string None None
              FinanceExamples.store0 eq_refl)).
Defined.

Lemma synced_service_transaction_witness :
  exists tx tip txId,
    fst (FinanceSync.sync_booking FinanceExamples.numbered_id FinanceExamples.config
           0 FinanceExamples.sync_b1 FinanceExamples.store0)
    = FinanceSync.Synced tx tip txId
    /\ FinanceSync.accountId tx = "sahr-cash"%string
    /\ FinanceSync.amount tx = 250.
Proof.
  destruct (synced_service_transaction FinanceExamples.numbered_id
              FinanceExamples.config 0 FinanceExamples.sync_b1
              FinanceExamples.store0 FinanceExamples.completed_booking
              eq_refl eq_refl eq_refl)
    as (tx & tip & txId & Hreply & _ & _ & Hamount & _ & _ & Haccount & _).
  exists tx, tip, txId. split; [exact Hreply|]. split; [exact Haccount|exact Hamount].
Defined.

Lemma synced_booking_in_report_witness :
  let after :=
    Ledger.revenue_report FinanceExamples.config LedgerProps.january
      (Ledger.ledger_of
         (snd (FinanceSync.sync_booking FinanceExamples.numbered_id
                 FinanceExamples.config 0 FinanceExamples.sync_b1
                 FinanceExamples.store0))) in
  Ledger.bookingCount after
  = Ledger.bookingCount
      (Ledger.revenue_report FinanceExamples.config LedgerProps.january
         (Ledger.ledger_of FinanceExamples.store0)) + 1.
Proof.
  exact (proj1
    (synced_booking_in_report FinanceExamples.numbered_id
       FinanceExamples.config 0 FinanceExamples.sync_b1 LedgerProps.january
       FinanceExamples.store0 FinanceExamples.completed_booking
       eq_refl eq_refl eq_refl eq_refl eq_refl)).
Defined.

Lemma synced_booking_in_ltv_witness :
  Ledger.l_bookingCount
    (Ledger.customer_ltv FinanceExamples.config LedgerProps.ann
       (Ledger.ledger_of
          (snd (FinanceSync.sync_booking FinanceExamples.numbered_id
                  FinanceExamples.config 0 FinanceExamples.sync_b1
                  FinanceExamples.store0))))
  = Ledger.l_bookingCount
      (Ledger.customer_ltv FinanceExamples.config LedgerProps.ann
         (Ledger.ledger_of FinanceExamples.store0)) + 1.
Proof.
  refine (proj1 (proj1
    (synced_booking_in_ltv FinanceExamples.numbered_id FinanceExamples.config 0
       FinanceExamples.sync_b1 LedgerProps.ann FinanceExamples.store0
       FinanceExamples.completed_booking _ _ _) _)); reflexivity.
Defined.

(* ------------------------------------------------------------------------- *)
(** ** The list of reminders *)
(* ------------------------------------------------------------------------- *)

Section ReminderFacts.
Import JS Scheduler SchedulerHelpers HelperProps.

Lemma StronglySorted_app_l {A} (R : relation A) l1 l2 :
  StronglySorted R (l1 ++ l2) -> StronglySorted R l1.
Proof.
  induction l1 as [|x l1 IH]; cbn [app]; [constructor|].
  intros H. apply StronglySorted_inv in H as [Hl Hx].
  constructor; [apply IH, Hl|].
  rewrite Forall_app in Hx. apply Hx.
Qed.

Lemma StronglySorted_take {A} (R : relation A) n l :
  StronglySorted R l -> StronglySorted R (take n l).
Proof.
  intros H. rewrite <- (take_drop n l) in H.
  apply StronglySorted_app_l in H. exact H.
Qed.

Lemma ReminderStatus_eqb_eq a b : ReminderStatus_eqb a b = true <-> a = b.
Proof. destruct a, b; cbn; split; congruence. Qed.

Lemma elem_of_reminders_query sahr_reminders params r :
  r ∈ reminders_query sahr_reminders params
  <-> r ∈ sahr_reminders /\ wanted_reminder params r.
Proof.
  unfold reminders_query, wanted_reminder.
  rewrite elem_of_sort, elem_of_List_filter, andb_true_iff, ReminderStatus_eqb_eq.
  destruct (lr_customerId params) as [c|].
  - destruct (truthy_str (Some c)) eqn:Hc; cbn [default from_option id].
    + rewrite String.eqb_eq. split.
      * intros (Hr & Hid & Hst). split; [exact Hr|]. split; [exact Hst|].
        intros _. congruence.
      * intros (Hr & Hst & Hid). split; [exact Hr|]. split; [|exact Hst].
        specialize (Hid eq_refl). congruence.
    + split.
      * intros (Hr & _ & Hst). split; [exact Hr|]. split; [exact Hst|discriminate].
      * intros (Hr & Hst & _). split; [exact Hr|]. split; [reflexivity|exact Hst].
  - cbn [truthy_str]. split.
    + intros (Hr & _ & Hst). split; [exact Hr|]. split; [exact Hst|discriminate].
    + intros (Hr & Hst & _). split; [exact Hr|]. split; [reflexivity|exact Hst].
Qed.

(** X13.  [list_reminders] finds the reminders of the wanted status (pending
    when none is given) and, for a customer id that is given and not empty,
    of that customer.  It returns them by increasing scheduled time: all of
    them without a limit or with the limit 0, the first [n] for a limit [n]
    above zero, and all but the last [-n] for a limit below zero. *)
Theorem listed_reminders_wanted_in_order sahr_reminders params :
  let found := reminders_query sahr_reminders params in
  let out := list_reminders sahr_reminders params in
  (forall r, r ∈ found <-> r ∈ sahr_reminders /\ wanted_reminder params r)
  /\ StronglySorted (fun a b => r_scheduledFor a <= r_scheduledFor b) out
  /\ (exists rest, found = out ++ rest)
  /\ (lr_limit params = None \/ lr_limit params = Some 0 -> out = found)
  /\ (forall n, lr_limit params = Some n -> 0 < n ->
        length out = Nat.min (Z.to_nat n) (length found))
  /\ (forall n, lr_limit params = Some n -> n < 0 ->
        length out = (length found - Z.to_nat (- n))%nat).
Proof.
  intros found out.
  assert (StronglySorted (fun a b => r_scheduledFor a <= r_scheduledFor b) found)
    as Hsorted.
  { apply (StronglySorted_weaken
             (fun a b => (r_scheduledFor a <=? r_scheduledFor b) = true)).
    - intros a b. apply Z.leb_le.
    - apply sort_sorted.
      + intros a b. rewrite Z.leb_gt, Z.leb_le. lia.
      + intros a b c. rewrite !Z.leb_le. lia. }
  split; [intros r; apply elem_of_reminders_query|].
  subst out. unfold list_reminders. fold found.
  destruct (lr_limit params) as [n|].
  - destruct (Z.eqb_spec n 0) as [->|Hn].
    + split; [exact Hsorted|]. split; [exists []; symmetry; apply app_nil_r|].
      split; [reflexivity|]. split; intros n [= <-] Hn; lia.
    + unfold slice_from_0. destruct (Z.ltb_spec n 0) as [Hneg|Hpos].
      * split; [apply StronglySorted_take, Hsorted|].
        split; [eexists; symmetry; apply take_drop|].
        split; [intros [H|[= H]]; [discriminate|contradiction]|].
        split; intros m [= <-] Hm; [lia|].
        rewrite length_take. lia.
      * split; [apply StronglySorted_take, Hsorted|].
        split; [eexists; symmetry; apply take_drop|].
        split; [intros [H|[= H]]; [discriminate|contradiction]|].
        split; intros m [= <-] Hm; [|lia].
        rewrite length_take. reflexivity.
  - split; [exact Hsorted|]. split; [exists []; symmetry; apply app_nil_r|].
    split; [reflexivity|]. split; intros n [= ].
Qed.

End ReminderFacts.
